(** * The eLearning site: chat consumers, enrollment views, notification tasks

    A shallow embedding of the parts of the Django project that carry its
    coordination logic:

    - [chat/consumers.py]    the two WebSocket consumers,
    - [chat/views.py]        the direct-message and course-chat pages,
    - [chat/serializers.py]  the room-detail message window,
    - [courses/models.py]    [Course.enrolled_count], [Course.is_full],
    - [courses/views.py]     [enroll] and [unenroll],
    - [courses/signals.py]   the two [post_save] receivers,
    - [notifications/tasks.py] the two Celery tasks.

    Tables are lists of rows in insertion order.  The ORM, the channel layer
    and the Celery dispatcher are written as operations of one state-and-
    exception monad over a [World].

    Conventions.  A primary key names one row: a lookup by key takes the row
    with that key.  A foreign key read from a stored row, or set from a model
    instance the code holds, refers to an existing row; an id that comes from
    a URL is checked against its table when a row is inserted with it.
    Ordering clauses are stable sorts: rows with equal keys stay in table
    order.  An id taken from a request is an integer the database can hold
    (64 bits); with a larger one the database driver raises when a query on
    a foreign-key column is run, and the statements about such look-ups are
    made for ids in that range.  Every write, flash message and
    channel-layer call is also appended to [log], so that the order of
    effects can be stated. *)

From Stdlib Require Import ZArith Ascii String DecimalString.
From stdpp Require Import base decidable option list gmap sets strings sorting.

Local Open Scope Z_scope.

(** ** Python values used by the code *)

Module Py.

(** [str.isspace] on one character.  A [string] is read as a sequence of
    code points below 256; these are the white-space code points of that
    range. *)
Definition isspace (c : ascii) : bool :=
  let n := N_of_ascii c in
  ((9 <=? n) && (n <=? 13) || (28 <=? n) && (n <=? 32)
   || (n =? 133) || (n =? 160))%N.

Fixpoint lstrip (s : string) : string :=
  match s with
  | EmptyString => EmptyString
  | String c s' => if isspace c then lstrip s' else s
  end.

Definition rstrip (s : string) : string :=
  String.rev (lstrip (String.rev s)).

(** [s.strip()] *)
Definition strip (s : string) : string := rstrip (lstrip s).

(** Truth value of a [str]: the empty string is false. *)
Definition truthy (s : string) : bool :=
  match s with EmptyString => false | String _ _ => true end.

(** [a or b] on two strings. *)
Definition or_else (a b : string) : string := if truthy a then a else b.

Definition digit (c : ascii) : option Z :=
  let n := N_of_ascii c in
  if ((48 <=? n) && (n <=? 57))%N then Some (Z.of_N n - 48) else None.

Fixpoint int_from (acc : Z) (s : string) : option Z :=
  match s with
  | EmptyString => Some acc
  | String c s' =>
      match digit c with
      | Some d => int_from (10 * acc + d) s'
      | None => None
      end
  end.

(** [int(s)] for a string of decimal digits, as the URL patterns
    [(?P<room_id>\d+)] and [(?P<course_id>\d+)] capture them; [None] is
    Python's [ValueError]. *)
Definition int (s : string) : option Z :=
  match s with
  | EmptyString => None
  | String _ _ => int_from 0 s
  end.

(** [str(n)], as an f-string formats an integer. *)
Definition str (n : Z) : string := NilZero.string_of_int (Z.to_int n).

(** The one-character string holding a double quote. *)
Definition dquote : string := String (ascii_of_N 34) EmptyString.

(** Parsed JSON, as [json.loads] hands it to [receive_json]. An object keeps
    its members in document order; a repeated key reads as its last
    occurrence, as in a [dict]. *)
#[warnings="-register-all"]
Inductive Json :=
| JNull
| JBool (b : bool)
| JNumber (n : Z)
| JString (s : string)
| JArray (items : list Json)
| JObject (members : list (string * Json)).

(** [d.get(key, default)] *)
Definition dict_get (members : list (string * Json)) (key : string)
    (default : Json) : Json :=
  match List.find (fun kv => bool_decide (kv.1 = key)) (rev members) with
  | Some kv => kv.2
  | None => default
  end.

End Py.

(** ** The data model

    Each model class is a record of the columns the modelled code reads or
    writes; [id] is the primary key. Date-times are microseconds since the
    epoch (the project runs with [USE_TZ = True], [TIME_ZONE = 'UTC']). *)

Definition datetime := Z.

(** [accounts.models.User.Role] *)
Inductive Role := STUDENT | TEACHER.

(** [courses.models.Enrollment.Status] *)
Inductive Status := ACTIVE | DROPPED | BLOCKED.

(** [chat.models.ChatRoom.RoomType] *)
Inductive RoomType := DIRECT | COURSE.

#[global] Instance Role_eq_dec : EqDecision Role.
Proof. solve_decision. Defined.
#[global] Instance Status_eq_dec : EqDecision Status.
Proof. solve_decision. Defined.
#[global] Instance RoomType_eq_dec : EqDecision RoomType.
Proof. solve_decision. Defined.

Module User.
Record t := mk {
  id : Z;
  username : string;
  first_name : string;
  last_name : string;
  role : Role;
}.

(** [AbstractUser.get_full_name]: first and last name with a space in
    between, stripped. *)
Definition get_full_name (self : t) : string :=
  Py.strip (first_name self +:+ " " +:+ last_name self).

Definition is_teacher (self : t) : bool := bool_decide (role self = TEACHER).
Definition is_student (self : t) : bool := bool_decide (role self = STUDENT).
End User.

(** [request.user] and [scope['user']]: the session's user, or Django's
    [AnonymousUser]. *)
Inductive Caller :=
| AnonymousUser
| Authenticated (u : User.t).

Definition is_anonymous (c : Caller) : bool :=
  match c with AnonymousUser => true | Authenticated _ => false end.

Module Course.
Record t := mk {
  id : Z;
  teacher_id : Z;
  title : string;
  code : string;
  max_students : nat;
}.
End Course.

Module Enrollment.
Record t := mk {
  id : Z;
  student_id : Z;
  course_id : Z;
  status : Status;
  enrolled_at : datetime;
  dropped_at : option datetime;
}.
End Enrollment.

Module CourseMaterial.
Record t := mk {
  id : Z;
  course_id : Z;
  uploaded_by_id : Z;
  title : string;
  file : option nat;       (* the uploaded file, by its size in bytes *)
  file_size : nat;
  uploaded_at : datetime;
}.
End CourseMaterial.

Module ChatRoom.
Record t := mk {
  id : Z;
  name : string;
  room_type : RoomType;
  course_id : option Z;
  participants : list Z;   (* the many-to-many rows, as user ids *)
  created_at : datetime;
}.
End ChatRoom.

Module Message.
Record t := mk {
  id : Z;
  room_id : Z;
  sender_id : Z;
  content : string;
  timestamp : datetime;
  is_read : bool;
}.
End Message.

Module Notification.
Record t := mk {
  id : Z;
  recipient_id : Z;
  notification_type : string;
  title : string;
  message : string;
  is_read : bool;
  link : string;
  created_at : datetime;
}.
End Notification.

#[global] Instance Message_eq_dec : EqDecision Message.t.
Proof. solve_decision. Defined.
#[global] Instance Notification_eq_dec : EqDecision Notification.t.
Proof. solve_decision. Defined.
#[global] Instance Enrollment_eq_dec : EqDecision Enrollment.t.
Proof. solve_decision. Defined.
#[global] Instance ChatRoom_eq_dec : EqDecision ChatRoom.t.
Proof. solve_decision. Defined.

Record Database := mkDatabase {
  users : list User.t;
  courses : list Course.t;
  enrollments : list Enrollment.t;
  materials : list CourseMaterial.t;
  chat_rooms : list ChatRoom.t;
  chat_messages : list Message.t;
  notifications : list Notification.t;
}.

(** ** Channel-layer events, Celery tasks, and the record of effects *)

(** The dict handed to [channel_layer.group_send]. *)
Record Event := mkEvent {
  ev_type : string;
  ev_message : string;
  ev_sender_id : Z;
  ev_sender_username : string;
  ev_timestamp : string;
}.

(** The dict handed to [send_json]. *)
Record Frame := mkFrame {
  fr_message : string;
  fr_sender_id : Z;
  fr_sender_username : string;
  fr_timestamp : string;
}.

(** A call of one of the two [@shared_task] functions, with its arguments. *)
Inductive Task :=
| create_notification_task
    (recipient_id : Z) (notification_type title message link : string)
| notify_course_students_task
    (course_id : Z) (notification_type title message link : string).

(** Levels of [django.contrib.messages]. *)
Inductive Level := INFO | SUCCESS | ERROR.

Inductive Table :=
| T_Enrollment | T_CourseMaterial | T_ChatRoom | T_ChatRoom_participants
| T_Message | T_Notification.

(** What an operation did to the outside, in the order it did it. *)
Inductive Effect :=
| Insert (table : Table) (pk : Z)                (* [save] of a new row *)
| BulkInsert (table : Table) (pks : list Z)      (* one [bulk_create] *)
| Update (table : Table) (pk : Z)                (* [save] of a stored row *)
| Enqueue (t : Task)                             (* a task sent to the broker *)
| GroupAdd (group channel : string)
| GroupDiscard (group channel : string)
| GroupSend (group : string) (ev : Event)
| Accept (channel : string)
| Close (channel : string)
| Flash (level : Level) (text : string).         (* [messages.error(...)], ... *)

#[global] Instance Event_eq_dec : EqDecision Event.
Proof. solve_decision. Defined.
#[global] Instance Task_eq_dec : EqDecision Task.
Proof. solve_decision. Defined.
#[global] Instance Level_eq_dec : EqDecision Level.
Proof. solve_decision. Defined.
#[global] Instance Table_eq_dec : EqDecision Table.
Proof. solve_decision. Defined.
#[global] Instance Effect_eq_dec : EqDecision Effect.
Proof. solve_decision. Defined.

(** ** The world the code runs in *)

Record World := mkWorld {
  db : Database;
  now : datetime;                       (* what [timezone.now()] returns *)
  CELERY_TASK_ALWAYS_EAGER : bool;      (* settings: [True] in dev.py *)
  broker : list Task;                   (* tasks waiting for a worker *)
  groups : gmap string (gset string);   (* channel layer: group -> channels *)
  inbox : gmap string (list Event);     (* channel layer: channel -> events *)
  log : list Effect;
}.

Definition with_db (f : Database -> Database) (w : World) : World :=
  mkWorld (f (db w)) (now w) (CELERY_TASK_ALWAYS_EAGER w) (broker w)
          (groups w) (inbox w) (log w).

Definition with_broker (f : list Task -> list Task) (w : World) : World :=
  mkWorld (db w) (now w) (CELERY_TASK_ALWAYS_EAGER w) (f (broker w))
          (groups w) (inbox w) (log w).

Definition with_groups
    (f : gmap string (gset string) -> gmap string (gset string))
    (w : World) : World :=
  mkWorld (db w) (now w) (CELERY_TASK_ALWAYS_EAGER w) (broker w)
          (f (groups w)) (inbox w) (log w).

Definition with_inbox
    (f : gmap string (list Event) -> gmap string (list Event))
    (w : World) : World :=
  mkWorld (db w) (now w) (CELERY_TASK_ALWAYS_EAGER w) (broker w)
          (groups w) (f (inbox w)) (log w).

Definition with_log (f : list Effect -> list Effect) (w : World) : World :=
  mkWorld (db w) (now w) (CELERY_TASK_ALWAYS_EAGER w) (broker w)
          (groups w) (inbox w) (f (log w)).

(** ** Exceptions and the monad *)

Inductive Exn :=
| DoesNotExist
| MultipleObjectsReturned
| IntegrityError
| Http404
| AttributeError
| ValueError.

Inductive Result (A : Type) :=
| Ok (a : A) (w : World)
| Raise (e : Exn) (w : World).
Arguments Ok {A} a w.
Arguments Raise {A} e w.

Definition M (A : Type) : Type := World -> Result A.

#[global] Instance M_ret : MRet M := fun A a w => Ok a w.
#[global] Instance M_bind : MBind M := fun A B f m w =>
  match m w with
  | Ok a w' => f a w'
  | Raise e w' => Raise e w'
  end.

Definition raise {A} (e : Exn) : M A := fun w => Raise e w.
Definition get_db : M Database := fun w => Ok (db w) w.
Definition modify_db (f : Database -> Database) : M unit :=
  fun w => Ok tt (with_db f w).
Definition emit (e : Effect) : M unit :=
  fun w => Ok tt (with_log (fun l => l ++ [e]) w).

(** [django.utils.timezone.now()], also the value of an [auto_now_add]
    column. *)
Definition timezone_now : M datetime := fun w => Ok (now w) w.

(** [with transaction.atomic(): ...]: an exception restores the tables. *)
Definition atomic {A} (m : M A) : M A := fun w =>
  match m w with
  | Ok a w' => Ok a w'
  | Raise e w' => Raise e (with_db (fun _ => db w) w')
  end.

(** The final world and the value, whichever way the call ended. *)
Definition world_of {A} (r : Result A) : World :=
  match r with Ok _ w => w | Raise _ w => w end.

(** ** Query sets *)

Module QuerySet.

Definition exists_ {A} (q : list A) : bool :=
  match q with [] => false | _ :: _ => true end.

Definition count {A} (q : list A) : nat := length q.

Definition first {A} (q : list A) : option A := head q.

(** The row with a given primary key. *)
Definition by_pk {A} (pk_of : A -> Z) (rows : list A) (pk : Z) : option A :=
  List.find (fun r => bool_decide (pk_of r = pk)) rows.

Fixpoint insert_by {A} (le : A -> A -> bool) (x : A) (l : list A) : list A :=
  match l with
  | [] => [x]
  | y :: l' => if le x y then x :: l else y :: insert_by le x l'
  end.

(** [.order_by(...)]: a stable sort, rows with equal keys stay in table
    order. *)
Definition order_by {A} (le : A -> A -> bool) (q : list A) : list A :=
  foldr (insert_by le) [] q.

(** The primary key an [INSERT] assigns: one more than the largest in
    use. *)
Definition next_pk (pks : list Z) : Z := 1 + foldr Z.max 0 pks.

(** The rows of unsaved instances: consecutive primary keys, one
    [auto_now_add] time. *)
Fixpoint assign_pks {A} (pk : Z) (t : datetime)
    (objs : list (Z -> datetime -> A)) : list A :=
  match objs with
  | [] => []
  | o :: rest => o pk t :: assign_pks (pk + 1) t rest
  end.

End QuerySet.

(** ** Table updates *)

Definition set_enrollments (f : list Enrollment.t -> list Enrollment.t)
    (d : Database) : Database :=
  mkDatabase (users d) (courses d) (f (enrollments d)) (materials d)
             (chat_rooms d) (chat_messages d) (notifications d).

Definition set_materials (f : list CourseMaterial.t -> list CourseMaterial.t)
    (d : Database) : Database :=
  mkDatabase (users d) (courses d) (enrollments d) (f (materials d))
             (chat_rooms d) (chat_messages d) (notifications d).

Definition set_chat_rooms (f : list ChatRoom.t -> list ChatRoom.t)
    (d : Database) : Database :=
  mkDatabase (users d) (courses d) (enrollments d) (materials d)
             (f (chat_rooms d)) (chat_messages d) (notifications d).

Definition set_chat_messages (f : list Message.t -> list Message.t)
    (d : Database) : Database :=
  mkDatabase (users d) (courses d) (enrollments d) (materials d)
             (chat_rooms d) (f (chat_messages d)) (notifications d).

Definition set_notifications (f : list Notification.t -> list Notification.t)
    (d : Database) : Database :=
  mkDatabase (users d) (courses d) (enrollments d) (materials d)
             (chat_rooms d) (chat_messages d) (f (notifications d)).

(** A foreign key followed from a row ([instance.course],
    [instance.student]): the row with that primary key. *)
Definition related {A} (pk_of : A -> Z) (rows : Database -> list A) (pk : Z)
    : M A :=
  d ← get_db;
  match QuerySet.by_pk pk_of (rows d) pk with
  | Some r => mret r
  | None => raise DoesNotExist
  end.

(** ** notifications/tasks.py *)

(** [Notification(recipient_id=..., ...)], not yet saved: the row it becomes
    once it has a primary key and its [auto_now_add] time. *)
Definition Notification_new
    (recipient_id : Z) (notification_type title message link : string)
    : Z -> datetime -> Notification.t :=
  fun pk t =>
    Notification.mk pk recipient_id notification_type title message
                    false link t.

(** [Notification.objects.create(...)] *)
Definition Notification_objects_create
    (recipient_id : Z) (notification_type title message link : string)
    : M Notification.t :=
  d ← get_db;
  t ← timezone_now;
  let n := Notification_new recipient_id notification_type title message link
             (QuerySet.next_pk (Notification.id <$> notifications d)) t in
  modify_db (set_notifications (fun rows => rows ++ [n]));;
  emit (Insert T_Notification (Notification.id n));;
  mret n.

(** [Notification.objects.bulk_create(objs)] *)
Definition Notification_objects_bulk_create
    (objs : list (Z -> datetime -> Notification.t))
    : M (list Notification.t) :=
  d ← get_db;
  t ← timezone_now;
  let new_rows :=
    QuerySet.assign_pks
      (QuerySet.next_pk (Notification.id <$> notifications d)) t objs in
  modify_db (set_notifications (fun rows => rows ++ new_rows));;
  emit (BulkInsert T_Notification (Notification.id <$> new_rows));;
  mret new_rows.

Definition create_notification
    (recipient_id : Z) (notification_type title message link : string)
    : M unit :=
  Notification_objects_create
    recipient_id notification_type title message link;;
  mret tt.

(** [Enrollment.Meta.ordering = ['-enrolled_at']] *)
Definition Enrollment_ordering (a b : Enrollment.t) : bool :=
  Enrollment.enrolled_at b <=? Enrollment.enrolled_at a.

Definition notify_course_students
    (course_id : Z) (notification_type title message link : string)
    : M unit :=
  d ← get_db;
  (* Get all active student IDs for this course *)
  let student_ids :=
    Enrollment.student_id <$>
      QuerySet.order_by Enrollment_ordering
        (List.filter
           (fun e => bool_decide (Enrollment.course_id e = course_id)
                     && bool_decide (Enrollment.status e = ACTIVE))
           (enrollments d)) in
  (* Bulk create notifications for all enrolled students *)
  let notifications :=
    (fun student_id =>
       Notification_new student_id notification_type title message link)
      <$> student_ids in
  Notification_objects_bulk_create notifications;;
  mret tt.

(** ** Celery dispatch *)

Definition run_task (t : Task) : M unit :=
  match t with
  | create_notification_task recipient_id notification_type title message link =>
      create_notification recipient_id notification_type title message link
  | notify_course_students_task course_id notification_type title message link =>
      notify_course_students course_id notification_type title message link
  end.

(** [task.delay(...)]: with [CELERY_TASK_ALWAYS_EAGER] the task body runs
    inside the call and its exceptions propagate
    ([CELERY_TASK_EAGER_PROPAGATES]); otherwise the call is sent to the
    broker. *)
Definition delay (t : Task) : M unit := fun w =>
  if CELERY_TASK_ALWAYS_EAGER w
  then run_task t w
  else Ok tt (with_log (fun l => l ++ [Enqueue t])
                (with_broker (fun q => q ++ [t]) w)).

(** ** courses/signals.py *)

Definition notify_teacher_on_enrollment
    (instance : Enrollment.t) (created : bool) : M unit :=
  if created && bool_decide (Enrollment.status instance = ACTIVE) then
    course ← related Course.id courses (Enrollment.course_id instance);
    student ← related User.id users (Enrollment.student_id instance);
    delay (create_notification_task
             (Course.teacher_id course)
             "enrollment"
             ("New enrollment in " +:+ Course.code course)
             (Py.or_else (User.get_full_name student) (User.username student)
                +:+ " has enrolled in " +:+ Course.title course +:+ ".")
             ("/courses/" +:+ Py.str (Course.id course) +:+ "/students/"))
  else mret tt.

Definition notify_students_on_new_material
    (instance : CourseMaterial.t) (created : bool) : M unit :=
  if created then
    course ← related Course.id courses (CourseMaterial.course_id instance);
    delay (notify_course_students_task
             (CourseMaterial.course_id instance)
             "new_material"
             ("New material in " +:+ Course.code course)
             (Py.dquote +:+ CourseMaterial.title instance +:+ Py.dquote
                +:+ " has been uploaded to " +:+ Course.title course +:+ ".")
             ("/courses/" +:+ Py.str (CourseMaterial.course_id instance) +:+ "/"))
  else mret tt.

(** ** courses/models.py *)

(** [Course.enrolled_count] *)
Definition Course_enrolled_count (d : Database) (self : Course.t) : nat :=
  QuerySet.count
    (List.filter
       (fun e => bool_decide (Enrollment.course_id e = Course.id self)
                 && bool_decide (Enrollment.status e = ACTIVE))
       (enrollments d)).

(** [Course.is_full] *)
Definition Course_is_full (d : Database) (self : Course.t) : bool :=
  (Course.max_students self <=? Course_enrolled_count d self)%nat.

(** [Model.save()] of an instance that has a primary key: the stored row is
    updated and [post_save] is sent with [created=False]; when no row has
    that key the instance is inserted and [created=True]. *)
Definition Enrollment_save (self : Enrollment.t) : M unit :=
  d ← get_db;
  if bool_decide (is_Some (QuerySet.by_pk Enrollment.id (enrollments d)
                                          (Enrollment.id self)))
  then
    modify_db (set_enrollments
      (map (fun r => if bool_decide (Enrollment.id r = Enrollment.id self)
                     then self else r)));;
    emit (Update T_Enrollment (Enrollment.id self));;
    notify_teacher_on_enrollment self false
  else
    modify_db (set_enrollments (fun rows => rows ++ [self]));;
    emit (Insert T_Enrollment (Enrollment.id self));;
    notify_teacher_on_enrollment self true.

(** [Enrollment.objects.create(student=..., course=..., status=...)]: the
    pair (student, course) is [unique_together]. *)
Definition Enrollment_objects_create (student_id course_id : Z)
    (status : Status) : M Enrollment.t :=
  d ← get_db;
  t ← timezone_now;
  if existsb (fun r => bool_decide (Enrollment.student_id r = student_id)
                       && bool_decide (Enrollment.course_id r = course_id))
       (enrollments d)
  then raise IntegrityError
  else
    let e := Enrollment.mk
               (QuerySet.next_pk (Enrollment.id <$> enrollments d))
               student_id course_id status t None in
    modify_db (set_enrollments (fun rows => rows ++ [e]));;
    emit (Insert T_Enrollment (Enrollment.id e));;
    notify_teacher_on_enrollment e true;;
    mret e.

(** [Enrollment.objects.get_or_create(student=..., course=...,
    defaults={'status': ...})]. The creation runs inside
    [transaction.atomic()]. *)
Definition Enrollment_objects_get_or_create (student_id course_id : Z)
    (default_status : Status) : M (Enrollment.t * bool) :=
  d ← get_db;
  match List.filter
          (fun r => bool_decide (Enrollment.student_id r = student_id)
                    && bool_decide (Enrollment.course_id r = course_id))
          (enrollments d) with
  | [] =>
      e ← atomic (Enrollment_objects_create student_id course_id default_status);
      mret (e, true)
  | [e] => mret (e, false)
  | _ :: _ :: _ => raise MultipleObjectsReturned
  end.

(** [CourseMaterial.save], on an instance never saved ([New]) or on one read
    from the table ([Stored]). *)
Inductive Instance (A : Type) :=
| New (fields : Z -> datetime -> A)
| Stored (row : A).
Arguments New {A} fields.
Arguments Stored {A} row.

Definition CourseMaterial_set_file_size (self : CourseMaterial.t)
    : CourseMaterial.t :=
  match CourseMaterial.file self with
  | Some size =>
      CourseMaterial.mk (CourseMaterial.id self)
        (CourseMaterial.course_id self) (CourseMaterial.uploaded_by_id self)
        (CourseMaterial.title self) (CourseMaterial.file self) size
        (CourseMaterial.uploaded_at self)
  | None => self
  end.

Definition CourseMaterial_save (self : Instance CourseMaterial.t)
    : M CourseMaterial.t :=
  d ← get_db;
  t ← timezone_now;
  match self with
  | New fields =>
      let row := CourseMaterial_set_file_size
                   (fields (QuerySet.next_pk (CourseMaterial.id <$> materials d)) t) in
      modify_db (set_materials (fun rows => rows ++ [row]));;
      emit (Insert T_CourseMaterial (CourseMaterial.id row));;
      notify_students_on_new_material row true;;
      mret row
  | Stored row0 =>
      let row := CourseMaterial_set_file_size row0 in
      if bool_decide (is_Some (QuerySet.by_pk CourseMaterial.id (materials d)
                                              (CourseMaterial.id row)))
      then
        modify_db (set_materials
          (map (fun r => if bool_decide (CourseMaterial.id r = CourseMaterial.id row)
                         then row else r)));;
        emit (Update T_CourseMaterial (CourseMaterial.id row));;
        notify_students_on_new_material row false;;
        mret row
      else
        modify_db (set_materials (fun rows => rows ++ [row]));;
        emit (Insert T_CourseMaterial (CourseMaterial.id row));;
        notify_students_on_new_material row true;;
        mret row
  end.

(** ** courses/views.py *)

Inductive Method := GET | POST.

#[global] Instance Method_eq_dec : EqDecision Method.
Proof. solve_decision. Defined.

Inductive HttpResponse :=
| redirect (to : string) (pk : option Z)
| redirect_to_login                       (* [@login_required], [LoginRequiredMixin] *)
| render (template : string) (room : ChatRoom.t) (messages : list Message.t).

(** [get_object_or_404(Course, pk=pk)] *)
Definition get_Course_or_404 (pk : Z) : M Course.t :=
  d ← get_db;
  match QuerySet.by_pk Course.id (courses d) pk with
  | Some c => mret c
  | None => raise Http404
  end.

Definition Enrollment_with_status (e : Enrollment.t) (s : Status)
    (dropped : option datetime) : Enrollment.t :=
  Enrollment.mk (Enrollment.id e) (Enrollment.student_id e)
                (Enrollment.course_id e) s (Enrollment.enrolled_at e) dropped.

Definition enroll (method : Method) (user : Caller) (pk : Z)
    : M HttpResponse :=
  match user with
  | AnonymousUser => mret redirect_to_login
  | Authenticated request_user =>
      if negb (bool_decide (method = POST)) then
        mret (redirect "course-detail" (Some pk))
      else
        course ← get_Course_or_404 pk;
        if negb (User.is_student request_user) then
          emit (Flash ERROR "Only students can enrol in courses.");;
          mret (redirect "course-detail" (Some pk))
        else
          d ← get_db;
          if Course_is_full d course then
            emit (Flash ERROR "This course is full.");;
            mret (redirect "course-detail" (Some pk))
          else
            (* Check for existing enrollment (may be blocked or dropped) *)
            r ← Enrollment_objects_get_or_create
                  (User.id request_user) (Course.id course) ACTIVE;
            let enrollment := r.1 in
            let created := r.2 in
            (if negb created then
               match Enrollment.status enrollment with
               | BLOCKED =>
                   emit (Flash ERROR "You have been blocked from this course.")
               | ACTIVE =>
                   emit (Flash INFO "You are already enrolled in this course.")
               | DROPPED =>
                   (* Re-enrol a previously dropped student *)
                   Enrollment_save (Enrollment_with_status enrollment ACTIVE None);;
                   emit (Flash SUCCESS
                           ("Re-enrolled in " +:+ Course.title course +:+ "."))
               end
             else
               emit (Flash SUCCESS
                       ("Successfully enrolled in " +:+ Course.title course +:+ ".")));;
            mret (redirect "course-detail" (Some pk))
  end.

(** [unenroll(request, pk)], for a [pk] the database can hold (below 2^63):
    the view looks no course up, and a larger [pk] makes the database driver
    raise when the enrollment query is run, which is not modelled. *)
Definition unenroll (method : Method) (user : Caller) (pk : Z)
    : M HttpResponse :=
  match user with
  | AnonymousUser => mret redirect_to_login
  | Authenticated request_user =>
      if negb (bool_decide (method = POST)) then
        mret (redirect "course-detail" (Some pk))
      else
        d ← get_db;
        match List.filter
                (fun e => bool_decide (Enrollment.student_id e = User.id request_user)
                          && bool_decide (Enrollment.course_id e = pk)
                          && bool_decide (Enrollment.status e = ACTIVE))
                (enrollments d) with
        | [] => raise Http404
        | _ :: _ :: _ => raise MultipleObjectsReturned
        | [enrollment] =>
            t ← timezone_now;
            Enrollment_save (Enrollment_with_status enrollment DROPPED (Some t));;
            emit (Flash SUCCESS "You have unenrolled from the course.");;
            mret (redirect "course-list" None)
        end
  end.

(** ** The channel layer

    The publish/subscribe transport behind [self.channel_layer]: a group is a
    set of channel names, and [group_send] puts the event in the queue of
    every channel that is in the group at that moment. *)

Definition group_add (group channel : string) : M unit := fun w =>
  Ok tt (with_log (fun l => l ++ [GroupAdd group channel])
           (with_groups
              (fun g => <[group := {[channel]} ∪ g !!! group]> g) w)).

Definition group_discard (group channel : string) : M unit := fun w =>
  Ok tt (with_log (fun l => l ++ [GroupDiscard group channel])
           (with_groups
              (fun g => <[group := g !!! group ∖ {[channel]}]> g) w)).

Definition deliver (ev : Event) (channel : string)
    (queues : gmap string (list Event)) : gmap string (list Event) :=
  <[channel := queues !!! channel ++ [ev]]> queues.

Definition group_send (group : string) (ev : Event) : M unit := fun w =>
  Ok tt (with_log (fun l => l ++ [GroupSend group ev])
           (with_inbox
              (fun q => set_fold (deliver ev) q (groups w !!! group)) w)).

(** ** chat/models.py: managers *)

(** [Message.Meta.ordering = ['timestamp']], [order_by('timestamp')] *)
Definition by_timestamp (a b : Message.t) : bool :=
  Message.timestamp a <=? Message.timestamp b.

(** [order_by('-timestamp')] *)
Definition by_timestamp_desc (a b : Message.t) : bool :=
  Message.timestamp b <=? Message.timestamp a.

(** [ChatRoom.Meta.ordering = ['-created_at']] *)
Definition ChatRoom_ordering (a b : ChatRoom.t) : bool :=
  ChatRoom.created_at b <=? ChatRoom.created_at a.

(** [room.messages]: the reverse side of [Message.room]. *)
Definition room_messages (d : Database) (room : ChatRoom.t) : list Message.t :=
  List.filter (fun m => bool_decide (Message.room_id m = ChatRoom.id room))
              (chat_messages d).

(** [Message.objects.create(room_id=..., sender=..., content=...)]; the room
    id is a foreign key. *)
Definition Message_objects_create (room_id sender_id : Z) (content : string)
    : M Message.t :=
  d ← get_db;
  t ← timezone_now;
  match QuerySet.by_pk ChatRoom.id (chat_rooms d) room_id with
  | Some _ =>
      let m := Message.mk (QuerySet.next_pk (Message.id <$> chat_messages d))
                          room_id sender_id content t false in
      modify_db (set_chat_messages (fun rows => rows ++ [m]));;
      emit (Insert T_Message (Message.id m));;
      mret m
  | None => raise IntegrityError
  end.

(** [ChatRoom.objects.create(name=..., room_type=..., course_id=...)]; the
    course is a one-to-one foreign key: it must exist and have no room
    yet. *)
Definition ChatRoom_objects_create (name : string) (room_type : RoomType)
    (course_id : option Z) : M ChatRoom.t :=
  d ← get_db;
  t ← timezone_now;
  let allowed :=
    match course_id with
    | None => true
    | Some cid =>
        bool_decide (is_Some (QuerySet.by_pk Course.id (courses d) cid))
        && negb (existsb (fun r => bool_decide (ChatRoom.course_id r = Some cid))
                         (chat_rooms d))
    end in
  if allowed then
    let room := ChatRoom.mk (QuerySet.next_pk (ChatRoom.id <$> chat_rooms d))
                            name room_type course_id [] t in
    modify_db (set_chat_rooms (fun rows => rows ++ [room]));;
    emit (Insert T_ChatRoom (ChatRoom.id room));;
    mret room
  else raise IntegrityError.

(** [ChatRoom.objects.get_or_create(course_id=..., room_type=COURSE,
    defaults={'name': ...})] *)
Definition ChatRoom_objects_get_or_create (course_id : Z)
    (default_name : string) : M (ChatRoom.t * bool) :=
  d ← get_db;
  match List.filter
          (fun r => bool_decide (ChatRoom.course_id r = Some course_id)
                    && bool_decide (ChatRoom.room_type r = COURSE))
          (chat_rooms d) with
  | [] =>
      room ← atomic (ChatRoom_objects_create default_name COURSE (Some course_id));
      mret (room, true)
  | [room] => mret (room, false)
  | _ :: _ :: _ => raise MultipleObjectsReturned
  end.

Definition add_participant (room : ChatRoom.t) (user_id : Z) : ChatRoom.t :=
  if bool_decide (user_id ∈ ChatRoom.participants room) then room
  else ChatRoom.mk (ChatRoom.id room) (ChatRoom.name room)
         (ChatRoom.room_type room) (ChatRoom.course_id room)
         (ChatRoom.participants room ++ [user_id]) (ChatRoom.created_at room).

(** [room.participants.add(user, ...)]: rows of the many-to-many table for the
    users that are not participants yet. *)
Definition ChatRoom_participants_add (room : ChatRoom.t) (user_ids : list Z)
    : M unit :=
  modify_db (set_chat_rooms
    (map (fun r => if bool_decide (ChatRoom.id r = ChatRoom.id room)
                   then foldl add_participant r user_ids else r)));;
  emit (Update T_ChatRoom_participants (ChatRoom.id room)).

(** ** chat/consumers.py *)

(** A consumer instance: its channel and the scope of its connection (the
    session's user and the id captured from the URL, [room_id] for the
    direct consumer and [course_id] for the group consumer). *)
Record Consumer := mkConsumer {
  channel_name : string;
  scope_user : Caller;
  scope_id : string;
}.

(** [chat_message]: what the handler sends to its client for an event. *)
Definition chat_message (event : Event) : Frame :=
  mkFrame (ev_message event) (ev_sender_id event)
          (ev_sender_username event) (ev_timestamp event).

(** [content.get('message', '').strip()] *)
Definition message_text_of (content : Py.Json) : M string :=
  match content with
  | Py.JObject members =>
      match Py.dict_get members "message" (Py.JString EmptyString) with
      | Py.JString s => mret (Py.strip s)
      | _ => raise AttributeError
      end
  | _ => raise AttributeError
  end.

(** [sender=self.user]: only a [User] can be assigned to the foreign key. *)
Definition sender_of (user : Caller) : M User.t :=
  match user with
  | Authenticated u => mret u
  | AnonymousUser => raise ValueError
  end.

Module DirectChatConsumer.

Definition room_group_name (self : Consumer) : string :=
  "dm_" +:+ scope_id self.

Definition is_participant (self : Consumer) (user : User.t) : M bool :=
  d ← get_db;
  match Py.int (scope_id self) with
  | None => raise ValueError
  | Some room_id =>
      mret (QuerySet.exists_
              (List.filter
                 (fun r => bool_decide (ChatRoom.id r = room_id)
                           && bool_decide (User.id user ∈ ChatRoom.participants r))
                 (chat_rooms d)))
  end.

Definition connect (self : Consumer) : M unit :=
  match scope_user self with
  | AnonymousUser =>
      (* Reject unauthenticated users *)
      emit (Close (channel_name self))
  | Authenticated user =>
      (* Verify the user is a participant of this chat room *)
      ok ← is_participant self user;
      if negb ok then emit (Close (channel_name self))
      else
        (* Join the channel layer group for this room *)
        group_add (room_group_name self) (channel_name self);;
        emit (Accept (channel_name self))
  end.

Definition disconnect (self : Consumer) : M unit :=
  group_discard (room_group_name self) (channel_name self).

Definition save_message (self : Consumer) (content : string)
    : M Message.t :=
  match Py.int (scope_id self) with
  | None => raise ValueError
  | Some room_id =>
      sender ← sender_of (scope_user self);
      Message_objects_create room_id (User.id sender) content
  end.

End DirectChatConsumer.

Module GroupChatConsumer.

Definition room_group_name (self : Consumer) : string :=
  "course_chat_" +:+ scope_id self.

Definition has_course_access (self : Consumer) (user : User.t) : M bool :=
  d ← get_db;
  match Py.int (scope_id self) with
  | None => raise ValueError
  | Some course_id =>
      match QuerySet.by_pk Course.id (courses d) course_id with
      | None => mret false
      | Some course =>
          (* Course teacher always has access *)
          if bool_decide (Course.teacher_id course = User.id user)
          then mret true
          else
            (* Check for active student enrollment *)
            mret (QuerySet.exists_
                    (List.filter
                       (fun e =>
                          bool_decide (Enrollment.student_id e = User.id user)
                          && bool_decide (Enrollment.course_id e = Course.id course)
                          && bool_decide (Enrollment.status e = ACTIVE))
                       (enrollments d)))
      end
  end.

Definition connect (self : Consumer) : M unit :=
  match scope_user self with
  | AnonymousUser =>
      emit (Close (channel_name self))
  | Authenticated user =>
      ok ← has_course_access self user;
      if negb ok then emit (Close (channel_name self))
      else
        group_add (room_group_name self) (channel_name self);;
        emit (Accept (channel_name self))
  end.

Definition disconnect (self : Consumer) : M unit :=
  group_discard (room_group_name self) (channel_name self).

Definition save_message (self : Consumer) (content : string)
    : M Message.t :=
  match Py.int (scope_id self) with
  | None => raise ValueError
  | Some course_id =>
      (* Get or create the chat room for this course *)
      r ← ChatRoom_objects_get_or_create course_id
            ("Course " +:+ scope_id self +:+ " Chat");
      sender ← sender_of (scope_user self);
      Message_objects_create (ChatRoom.id r.1) (User.id sender) content
  end.

End GroupChatConsumer.

Section ReceiveJson.

(** [datetime.isoformat], of the Python standard library. *)
Variable isoformat : datetime -> string.

(** The body shared by the two [receive_json] methods, which differ in
    [save_message] and in the group name only. *)
Definition receive_json_with
    (save_message : Consumer -> string -> M Message.t)
    (room_group_name : Consumer -> string)
    (self : Consumer) (content : Py.Json) : M unit :=
  message_text ← message_text_of content;
  if negb (Py.truthy message_text) then mret tt
  else
    (* Save the message to the database *)
    message ← save_message self message_text;
    (* Broadcast to all participants in the room *)
    user ← sender_of (scope_user self);
    group_send (room_group_name self)
      (mkEvent "chat.message" message_text (User.id user)
               (User.username user)
               (isoformat (Message.timestamp message))).

Definition DirectChatConsumer_receive_json : Consumer -> Py.Json -> M unit :=
  receive_json_with DirectChatConsumer.save_message
                    DirectChatConsumer.room_group_name.

Definition GroupChatConsumer_receive_json : Consumer -> Py.Json -> M unit :=
  receive_json_with GroupChatConsumer.save_message
                    GroupChatConsumer.room_group_name.

End ReceiveJson.

(** ** chat/views.py *)

(** [get_object_or_404(User, pk=user_id)] *)
Definition get_User_or_404 (pk : Z) : M User.t :=
  d ← get_db;
  match QuerySet.by_pk User.id (users d) pk with
  | Some u => mret u
  | None => raise Http404
  end.

(** The direct rooms that have both users among their participants, in the
    model's default order. *)
Definition direct_rooms_between (d : Database) (a b : Z) : list ChatRoom.t :=
  QuerySet.order_by ChatRoom_ordering
    (List.filter
       (fun r => bool_decide (b ∈ ChatRoom.participants r))
       (List.filter
          (fun r => bool_decide (ChatRoom.room_type r = DIRECT)
                    && bool_decide (a ∈ ChatRoom.participants r))
          (chat_rooms d))).

(** [room.messages.order_by('timestamp')[:100]] *)
Definition load_message_history (d : Database) (room : ChatRoom.t)
    : list Message.t :=
  take 100 (QuerySet.order_by by_timestamp (room_messages d room)).

Definition DirectMessageView_get (user : Caller) (user_id : Z)
    : M HttpResponse :=
  match user with
  | AnonymousUser => mret redirect_to_login
  | Authenticated request_user =>
      other_user ← get_User_or_404 user_id;
      if bool_decide (User.id other_user = User.id request_user) then
        mret (redirect "chat-room-list" None)
      else
        d ← get_db;
        (* Find an existing DM room between these two users *)
        room ←
          match QuerySet.first
                  (direct_rooms_between d (User.id request_user)
                                          (User.id other_user)) with
          | Some room => mret room
          | None =>
              (* Create a new DM room if none exists *)
              room ← ChatRoom_objects_create
                       (User.username request_user +:+ " & "
                          +:+ User.username other_user)
                       DIRECT None;
              ChatRoom_participants_add room
                [User.id request_user; User.id other_user];;
              mret room
          end;
        (* Load message history *)
        d ← get_db;
        mret (render "chat/chat_room.html" room (load_message_history d room))
  end.

Definition CourseGroupChatView_get (user : Caller) (course_id : Z)
    : M HttpResponse :=
  match user with
  | AnonymousUser => mret redirect_to_login
  | Authenticated request_user =>
      course ← get_Course_or_404 course_id;
      d ← get_db;
      (* Verify the user has access to this course chat *)
      let has_access :=
        bool_decide (Course.teacher_id course = User.id request_user)
        || QuerySet.exists_
             (List.filter
                (fun e =>
                   bool_decide (Enrollment.student_id e = User.id request_user)
                   && bool_decide (Enrollment.course_id e = Course.id course)
                   && bool_decide (Enrollment.status e = ACTIVE))
                (enrollments d)) in
      if negb has_access then mret (redirect "course-list" None)
      else
        (* Get or create the chat room for this course *)
        r ← ChatRoom_objects_get_or_create (Course.id course)
              (Course.code course +:+ " - Group Chat");
        let room := r.1 in
        (* Ensure the current user is a participant *)
        (if negb (bool_decide (User.id request_user ∈ ChatRoom.participants room))
         then ChatRoom_participants_add room [User.id request_user]
         else mret tt);;
        d ← get_db;
        mret (render "chat/chat_room.html" room (load_message_history d room))
  end.

(** ** chat/serializers.py *)

(** [ChatRoomDetailSerializer.get_messages]: the rows handed to
    [MessageSerializer], which writes each of them out in the same order. *)
Definition get_messages (d : Database) (obj : ChatRoom.t) : list Message.t :=
  let recent := take 50 (QuerySet.order_by by_timestamp_desc (room_messages d obj)) in
  (* Reverse so oldest first *)
  rev recent.

(** * Vocabulary of the statements *)

Definition unique_together (rows : list Enrollment.t) : Prop :=
  NoDup ((fun e => (Enrollment.student_id e, Enrollment.course_id e)) <$> rows).

(** The task a new active enrollment hands to Celery. *)
Definition enrollment_task (course : Course.t) (student : User.t) : Task :=
  create_notification_task
    (Course.teacher_id course) "enrollment"
    ("New enrollment in " +:+ Course.code course)
    (Py.or_else (User.get_full_name student) (User.username student)
       +:+ " has enrolled in " +:+ Course.title course +:+ ".")
    ("/courses/" +:+ Py.str (Course.id course) +:+ "/students/").

Definition new_enrollment (w : World) (student_id course_id : Z) : Enrollment.t :=
  Enrollment.mk (QuerySet.next_pk (Enrollment.id <$> enrollments (db w)))
                student_id course_id ACTIVE (now w) None.

Definition no_enrollment (d : Database) (student_id course_id : Z) : Prop :=
  Forall (fun r => Enrollment.student_id r = student_id ->
                   Enrollment.course_id r <> course_id) (enrollments d).

(** What a call added to the log. *)
Definition new_effects {A} (w : World) (r : Result A) : list Effect :=
  drop (length (log w)) (log (world_of r)).

(** The handshake was completed. *)
Definition accepted {A} (self : Consumer) (w : World) (r : Result A) : Prop :=
  Accept (channel_name self) ∈ new_effects w r.

(** The caller is a user listed among the participants of the room with the
    id in the URL. *)
Definition direct_authorized (d : Database) (self : Consumer) : Prop :=
  exists user room,
    scope_user self = Authenticated user
    /\ room ∈ chat_rooms d
    /\ Py.int (scope_id self) = Some (ChatRoom.id room)
    /\ User.id user ∈ ChatRoom.participants room.

(** The course with the id in the URL exists, and the caller is its teacher
    or holds an active enrollment for it. *)
Definition course_authorized (d : Database) (self : Consumer) : Prop :=
  exists user course_id course,
    scope_user self = Authenticated user
    /\ Py.int (scope_id self) = Some course_id
    /\ QuerySet.by_pk Course.id (courses d) course_id = Some course
    /\ (Course.teacher_id course = User.id user
        \/ exists e,
             e ∈ enrollments d
             /\ Enrollment.student_id e = User.id user
             /\ Enrollment.course_id e = Course.id course
             /\ Enrollment.status e = ACTIVE).

Definition closed (self : Consumer) (w : World) : World :=
  with_log (fun l => l ++ [Close (channel_name self)]) w.

Definition joined (group : string) (self : Consumer) (w : World) : World :=
  with_log (fun l => l ++ [Accept (channel_name self)])
    (with_log (fun l => l ++ [GroupAdd group (channel_name self)])
       (with_groups
          (fun g => <[group := {[channel_name self]} ∪ g !!! group]> g) w)).

Definition new_message (w : World) (room_id sender_id : Z) (content : string)
    : Message.t :=
  Message.mk (QuerySet.next_pk (Message.id <$> chat_messages (db w)))
             room_id sender_id content (now w) false.

(** The schema of [ChatRoom]: [course] is one-to-one, and a room that has a
    course is a course room. *)
Definition ChatRoom_constraints (rooms : list ChatRoom.t) : Prop :=
  NoDup (omap ChatRoom.course_id rooms)
  /\ Forall (fun r => is_Some (ChatRoom.course_id r) ->
                      ChatRoom.room_type r = COURSE) rooms.

(** The event [receive_json] publishes for a stored message. *)
Definition broadcast_event (isoformat : datetime -> string) (user : User.t)
    (text : string) (m : Message.t) : Event :=
  mkEvent "chat.message" text (User.id user) (User.username user)
          (isoformat (Message.timestamp m)).

(** Row [m] was added to the message table, and the event was then put in
    the queue of every channel of [group]. *)
Definition stored_and_delivered (w w' : World) (group : string)
    (user : User.t) (text : string) (m : Message.t) (ev : Event) : Prop :=
  chat_messages (db w') = chat_messages (db w) ++ [m]
  /\ (Message.id m ∉ Message.id <$> chat_messages (db w))
  /\ Message.sender_id m = User.id user
  /\ Message.content m = text
  /\ Message.timestamp m = now w
  /\ groups w' = groups w
  /\ forall c,
       inbox w' !!! c
       = if bool_decide (c ∈ groups w !!! group)
         then inbox w !!! c ++ [ev] else inbox w !!! c.

Definition new_course_room (w : World) (course_id : Z) (name : string)
    : ChatRoom.t :=
  ChatRoom.mk (QuerySet.next_pk (ChatRoom.id <$> chat_rooms (db w)))
              name COURSE (Some course_id) [] (now w).

(** How many direct rooms the pair has. *)
Definition direct_room_count (d : Database) (a b : Z) : nat :=
  length (direct_rooms_between d a b).

(** The room the view creates for [me] and [other], once both have been
    added to it. *)
Definition new_direct_room (w : World) (me other : User.t) : ChatRoom.t :=
  ChatRoom.mk (QuerySet.next_pk (ChatRoom.id <$> chat_rooms (db w)))
              (User.username me +:+ " & " +:+ User.username other)
              DIRECT None [User.id me; User.id other] (now w).

(** A run of direct-message page requests, each by a user for a peer. *)
Fixpoint dm_requests (reqs : list (User.t * Z)) (w : World) : World :=
  match reqs with
  | [] => w
  | (me, peer) :: rest =>
      dm_requests rest
        (world_of (DirectMessageView_get (Authenticated me) peer w))
  end.

(** The rows [notify_course_students] inserts. *)
Definition course_notifications (w : World) (course_id : Z)
    (notification_type title message link : string) : list Notification.t :=
  QuerySet.assign_pks
    (QuerySet.next_pk (Notification.id <$> notifications (db w))) (now w)
    ((fun student_id =>
        Notification_new student_id notification_type title message link)
       <$> (Enrollment.student_id
              <$> QuerySet.order_by Enrollment_ordering
                    (List.filter
                       (fun e => bool_decide (Enrollment.course_id e = course_id)
                                 && bool_decide (Enrollment.status e = ACTIVE))
                       (enrollments (db w))))).

(** The title and message of a new-material notification. *)
Definition material_title (course : Course.t) : string :=
  "New material in " +:+ Course.code course.

Definition material_message (material : CourseMaterial.t) (course : Course.t)
    : string :=
  Py.dquote +:+ CourseMaterial.title material +:+ Py.dquote
    +:+ " has been uploaded to " +:+ Course.title course +:+ ".".

(** * Sample data *)

Module Sample.

Definition alice : User.t := User.mk 1 "alice" "Alice" "Archer" STUDENT.
Definition bob : User.t := User.mk 2 "bob" EmptyString EmptyString STUDENT.
Definition carol : User.t := User.mk 3 "carol" "Carol" EmptyString STUDENT.
Definition dave : User.t := User.mk 4 "dave" EmptyString "Doe" STUDENT.
Definition tom : User.t := User.mk 9 "tom" "Tom" "Teacher" TEACHER.
Definition people : list User.t := [alice; bob; carol; dave; tom].

(** Two courses of tom: Logic takes two students, the seminar one. *)
Definition logic : Course.t := Course.mk 5 9 "Logic" "LOG101" 2.
Definition seminar : Course.t := Course.mk 6 9 "Seminar" "SEM1" 1.

(** A dev-settings world ([CELERY_TASK_ALWAYS_EAGER = True]) at time 1000,
    with nothing queued, nobody connected and an empty log. *)
Definition world (d : Database) : World :=
  mkWorld d 1000 true [] ∅ ∅ [].

(** Nobody is enrolled, nobody has chatted. *)
Definition campus : World :=
  world (mkDatabase people [logic; seminar] [] [] [] [] []).

(** Later in the term: alice has dropped Logic, bob is blocked from it,
    carol attends it. *)
Definition alice_logic : Enrollment.t := Enrollment.mk 1 1 5 DROPPED 100 (Some 500).
Definition bob_logic : Enrollment.t := Enrollment.mk 2 2 5 BLOCKED 200 None.
Definition carol_logic : Enrollment.t := Enrollment.mk 3 3 5 ACTIVE 300 None.
Definition term : World :=
  world (mkDatabase people [logic; seminar]
                    [alice_logic; bob_logic; carol_logic] [] [] [] []).

(** The same term with the direct room of alice and bob, both connected to
    it, and tom connected to the Logic chat, which has no room yet. *)
Definition alice_bob_room : ChatRoom.t :=
  ChatRoom.mk 1 "alice & bob" DIRECT None [1; 2] 0.
Definition chat : World :=
  mkWorld
    (mkDatabase people [logic; seminar]
                [alice_logic; bob_logic; carol_logic] [] [alice_bob_room] [] [])
    1000 true []
    {[ "dm_1" := {[ "alice-phone"; "bob-laptop" ]};
       "course_chat_5" := {[ "tom-desk" ]} ]}
    ∅ [].
Definition alice_phone : Consumer :=
  mkConsumer "alice-phone" (Authenticated alice) "1".
Definition tom_desk : Consumer :=
  mkConsumer "tom-desk" (Authenticated tom) "5".
Definition hello : list (string * Py.Json) :=
  [("message", Py.JString "  hello ")].

(** A stand-in for [isoformat]: the microsecond count in decimal. *)
Definition micros (t : datetime) : string := Py.str t.

(** A lecture file of 2048 bytes for Logic, not yet saved. *)
Definition slides : Z -> datetime -> CourseMaterial.t :=
  fun pk t => CourseMaterial.mk pk 5 9 "Week 1" (Some 2048%nat) 0 t.

(** The direct room of alice and bob and the room of Logic, each with 101
    messages sent at times 1 to 101. *)
Definition logic_room : ChatRoom.t :=
  ChatRoom.mk 2 "LOG101 - Group Chat" COURSE (Some 5) [9] 0.
Definition busy_messages : list Message.t :=
  (fun i => Message.mk i 1 1 "hello" i false) <$> seqZ 1 101.
Definition lecture_messages : list Message.t :=
  (fun i => Message.mk (101 + i) 2 9 "welcome" i false) <$> seqZ 1 101.
Definition busy : World :=
  world (mkDatabase people [logic; seminar] [] []
                    [alice_bob_room; logic_room]
                    (busy_messages ++ lecture_messages) []).

End Sample.

(** * More of the same modules

    The other functions of the files above, the functions they call and the
    views that read what they write: the teacher's student management
    ([courses/views.py]), the upload validator ([courses/validators.py]),
    the room list and the room summaries ([chat/views.py],
    [chat/serializers.py]), the REST actions on rooms ([chat/viewsets.py]),
    the course-access permission ([elearning/permissions.py]) and the
    notification pages and API ([notifications/views.py],
    [notifications/viewsets.py], [notifications/context_processors.py]). *)

(** ** More of Python's [str] *)

Module PyStr.

(** [str.lower] on one character: below 256 the capitals are A to Z and the
    Latin-1 capitals 192 to 222 without the multiplication sign, 32 below
    their small letters. *)
Definition lower_char (c : ascii) : ascii :=
  let n := N_of_ascii c in
  if ((65 <=? n) && (n <=? 90)
      || (192 <=? n) && (n <=? 222) && negb (n =? 215))%N
  then ascii_of_N (n + 32) else c.

(** [s.lower()] *)
Fixpoint lower (s : string) : string :=
  match s with
  | EmptyString => EmptyString
  | String c s' => String (lower_char c) (lower s')
  end.

(** [s.rsplit(sep, 1)] for a separator of one character: the text before
    the last separator and the text after it, or the string alone when it
    has no separator. *)
Fixpoint rsplit1 (sep : ascii) (s : string) : list string :=
  match s with
  | EmptyString => [EmptyString]
  | String c s' =>
      match rsplit1 sep s' with
      | [before; after] => [String c before; after]
      | _ => if Ascii.eqb c sep then [EmptyString; s'] else [s]
      end
  end.

(** [l[-1]] on a list of strings that is not empty. *)
Definition item_last (l : list string) : string :=
  default EmptyString (last l).

(** [s[:n]] *)
Definition slice_to (n : nat) (s : string) : string := String.substring 0 n s.

(** [sep.join(l)] *)
Definition join (sep : string) (l : list string) : string :=
  String.concat sep l.

End PyStr.

(** ** courses/validators.py *)

Definition ALLOWED_EXTENSIONS : list string :=
  ["pdf"; "doc"; "docx"; "ppt"; "pptx"; "xls"; "xlsx";
   "jpg"; "jpeg"; "png"; "gif"; "svg";
   "mp4"; "webm";
   "zip"; "rar";
   "txt"; "csv"].

(** What a validator does with a value: it returns, or it raises
    [ValidationError] with a message. *)
Inductive Validation :=
| passes
| ValidationError (message : string).

(** [validate_file_extension(value)], on [value.name]. *)
Definition validate_file_extension (name : string) : Validation :=
  let ext := PyStr.lower (PyStr.item_last (PyStr.rsplit1 "." name)) in
  if bool_decide (ext ∈ ALLOWED_EXTENSIONS) then passes
  else ValidationError
         ("File type '." +:+ ext +:+ "' is not allowed. "
            +:+ "Allowed types: " +:+ PyStr.join ", " ALLOWED_EXTENSIONS).

(** ** courses/views.py: the teacher's student management *)

(** What a view that renders a template answers: the template and its
    context, or the redirect of [LoginRequiredMixin] for an anonymous
    caller. *)
Inductive TemplateResponse (C : Type) :=
| login_redirect
| TemplateOf (template : string) (context : C).
Arguments login_redirect {C}.
Arguments TemplateOf {C} template context.

(** [get_object_or_404(Course, pk=pk, teacher=request.user)] *)
Definition get_taught_Course_or_404 (pk : Z) (teacher : User.t) : M Course.t :=
  d ← get_db;
  match QuerySet.by_pk Course.id (courses d) pk with
  | Some c =>
      if bool_decide (Course.teacher_id c = User.id teacher) then mret c
      else raise Http404
  | None => raise Http404
  end.

(** [get_object_or_404(Enrollment, course=course, student_id=student_id)],
    for a [student_id] the database can hold ([fits_int64]): a larger one
    makes the database driver raise when the query is run, and is not
    modelled. *)
Definition get_Enrollment_or_404 (course : Course.t) (student_id : Z)
    : M Enrollment.t :=
  d ← get_db;
  match List.filter
          (fun e => bool_decide (Enrollment.course_id e = Course.id course)
                    && bool_decide (Enrollment.student_id e = student_id))
          (enrollments d) with
  | [] => raise Http404
  | [e] => mret e
  | _ :: _ :: _ => raise MultipleObjectsReturned
  end.

Definition CourseStudentListView_get (user : Caller) (pk : Z)
    : M (TemplateResponse (Course.t * list Enrollment.t)) :=
  match user with
  | AnonymousUser => mret login_redirect
  | Authenticated request_user =>
      course ← get_taught_Course_or_404 pk request_user;
      d ← get_db;
      let enrollments :=
        QuerySet.order_by Enrollment_ordering
          (List.filter
             (fun e => bool_decide (Enrollment.course_id e = Course.id course))
             (enrollments d)) in
      mret (TemplateOf "courses/enrollment_list.html" (course, enrollments))
  end.

Definition block_student (method : Method) (user : Caller) (pk student_id : Z)
    : M HttpResponse :=
  match user with
  | AnonymousUser => mret redirect_to_login
  | Authenticated request_user =>
      if negb (bool_decide (method = POST)) then
        mret (redirect "course-students" (Some pk))
      else
        course ← get_taught_Course_or_404 pk request_user;
        enrollment ← get_Enrollment_or_404 course student_id;
        Enrollment_save
          (Enrollment_with_status enrollment BLOCKED
             (Enrollment.dropped_at enrollment));;
        emit (Flash SUCCESS "Student has been blocked from this course.");;
        mret (redirect "course-students" (Some pk))
  end.

Definition remove_student (method : Method) (user : Caller) (pk student_id : Z)
    : M HttpResponse :=
  match user with
  | AnonymousUser => mret redirect_to_login
  | Authenticated request_user =>
      if negb (bool_decide (method = POST)) then
        mret (redirect "course-students" (Some pk))
      else
        course ← get_taught_Course_or_404 pk request_user;
        enrollment ← get_Enrollment_or_404 course student_id;
        t ← timezone_now;
        Enrollment_save (Enrollment_with_status enrollment DROPPED (Some t));;
        emit (Flash SUCCESS "Student has been removed from this course.");;
        mret (redirect "course-students" (Some pk))
  end.

(** ** elearning/permissions.py *)

(** [IsEnrolledOrTeacher.has_object_permission], for an authenticated
    user. *)
Definition IsEnrolledOrTeacher_has_object_permission
    (d : Database) (request_user : User.t) (obj : Course.t) : bool :=
  if bool_decide (Course.teacher_id obj = User.id request_user) then true
  else
    QuerySet.exists_
      (List.filter
         (fun e =>
            bool_decide (Enrollment.student_id e = User.id request_user)
            && bool_decide (Enrollment.course_id e = Course.id obj)
            && bool_decide (Enrollment.status e = ACTIVE))
         (enrollments d)).

(** ** chat/views.py: the room list *)

Definition ChatRoomListView_get (user : Caller)
    : M (TemplateResponse (list ChatRoom.t * list ChatRoom.t)) :=
  match user with
  | AnonymousUser => mret login_redirect
  | Authenticated request_user =>
      d ← get_db;
      (* Get DM rooms the user participates in *)
      let dm_rooms :=
        QuerySet.order_by ChatRoom_ordering
          (List.filter
             (fun r => bool_decide (ChatRoom.room_type r = DIRECT)
                       && bool_decide (User.id request_user ∈ ChatRoom.participants r))
             (chat_rooms d)) in
      (* Get course group chat rooms the user has access to *)
      let course_rooms :=
        if User.is_teacher request_user then
          (* Teacher sees chat rooms for courses they teach *)
          QuerySet.order_by ChatRoom_ordering
            (List.filter
               (fun r =>
                  bool_decide (ChatRoom.room_type r = COURSE)
                  && match ChatRoom.course_id r with
                     | Some cid =>
                         match QuerySet.by_pk Course.id (courses d) cid with
                         | Some c =>
                             bool_decide (Course.teacher_id c = User.id request_user)
                         | None => false
                         end
                     | None => false
                     end)
               (chat_rooms d))
        else
          (* Student sees chat rooms for courses they are enrolled in *)
          let enrolled_course_ids :=
            Enrollment.course_id <$>
              List.filter
                (fun e => bool_decide (Enrollment.student_id e = User.id request_user)
                          && bool_decide (Enrollment.status e = ACTIVE))
                (enrollments d) in
          QuerySet.order_by ChatRoom_ordering
            (List.filter
               (fun r =>
                  bool_decide (ChatRoom.room_type r = COURSE)
                  && match ChatRoom.course_id r with
                     | Some cid => bool_decide (cid ∈ enrolled_course_ids)
                     | None => false
                     end)
               (chat_rooms d)) in
      mret (TemplateOf "chat/room_list.html" (dm_rooms, course_rooms))
  end.

(** ** chat/serializers.py: the room summaries *)

(** [obj.participants]: the many-to-many rows of the stored room. *)
Definition room_participants (d : Database) (obj : ChatRoom.t) : list Z :=
  match QuerySet.by_pk ChatRoom.id (chat_rooms d) (ChatRoom.id obj) with
  | Some r => ChatRoom.participants r
  | None => []
  end.

(** The dict [get_last_message] returns. *)
Record LastMessage := mkLastMessage {
  lm_sender : string;
  lm_content : string;
  lm_timestamp : string;
}.

Section RoomSummary.

Variable isoformat : datetime -> string.

(** [ChatRoomListSerializer.get_last_message] *)
Definition get_last_message (obj : ChatRoom.t) : M (option LastMessage) :=
  d ← get_db;
  match QuerySet.first
          (QuerySet.order_by by_timestamp_desc (room_messages d obj)) with
  | Some msg =>
      sender ← related User.id users (Message.sender_id msg);
      mret (Some (mkLastMessage (User.username sender)
                    (PyStr.slice_to 100 (Message.content msg))
                    (isoformat (Message.timestamp msg))))
  | None => mret None
  end.

End RoomSummary.

(** ** chat/viewsets.py

    The actions run for an authenticated user
    ([permission_classes = [IsAuthenticated]]). *)

(** [Response(data, status=...)] *)
Record Response (A : Type) := mkResponse {
  data : A;
  status_code : Z;
}.
Arguments mkResponse {A} data status_code.
Arguments data {A} r.
Arguments status_code {A} r.

Definition HTTP_200_OK : Z := 200.
Definition HTTP_201_CREATED : Z := 201.
Definition HTTP_403_FORBIDDEN : Z := 403.

(** Writes of several rows at once. *)
Definition emit_all (es : list Effect) : M unit :=
  fun w => Ok tt (with_log (fun l => l ++ es) w).

(** [ChatRoomViewSet.get_queryset]: only rooms the user participates in. *)
Definition ChatRoomViewSet_get_queryset (d : Database) (request_user : User.t)
    : list ChatRoom.t :=
  QuerySet.order_by ChatRoom_ordering
    (List.filter
       (fun r => bool_decide (User.id request_user ∈ ChatRoom.participants r))
       (chat_rooms d)).

(** [self.get_object()]: the room of the queryset with the key of the URL,
    or a 404. *)
Definition ChatRoomViewSet_get_object (request_user : User.t) (pk : Z)
    : M ChatRoom.t :=
  d ← get_db;
  match QuerySet.by_pk ChatRoom.id
          (ChatRoomViewSet_get_queryset d request_user) pk with
  | Some room => mret room
  | None => raise Http404
  end.

(** [ChatRoomViewSet.send_message]; [content] is
    [serializer.validated_data['content']], the body having passed
    [is_valid]. *)
Definition ChatRoomViewSet_send_message (request_user : User.t) (pk : Z)
    (content : string) : M (Response (Message.t + string)) :=
  room ← ChatRoomViewSet_get_object request_user pk;
  d ← get_db;
  (* Verify user is a participant *)
  if negb (QuerySet.exists_
             (List.filter (fun u => bool_decide (u = User.id request_user))
                          (room_participants d room)))
  then mret (mkResponse (inr "You are not a participant in this room.")
                        HTTP_403_FORBIDDEN)
  else
    message ← Message_objects_create (ChatRoom.id room) (User.id request_user)
                                     content;
    mret (mkResponse (inl message) HTTP_201_CREATED).

(** [Message.objects ... .update(is_read=True)] on the rows selected by
    [sel]: one [UPDATE], no [post_save]; its value is the number of rows
    matched.  The log has an [Update] for each of them, in table order. *)
Definition Message_read (m : Message.t) : Message.t :=
  Message.mk (Message.id m) (Message.room_id m) (Message.sender_id m)
             (Message.content m) (Message.timestamp m) true.

Definition Message_update_is_read (sel : Message.t -> bool) : M nat :=
  d ← get_db;
  let matched := List.filter sel (chat_messages d) in
  modify_db (set_chat_messages
               (map (fun m => if sel m then Message_read m else m)));;
  emit_all ((fun m => Update T_Message (Message.id m)) <$> matched);;
  mret (QuerySet.count matched).

(** [ChatRoomViewSet.mark_read] *)
Definition ChatRoomViewSet_mark_read (request_user : User.t) (pk : Z)
    : M (Response nat) :=
  room ← ChatRoomViewSet_get_object request_user pk;
  updated ← Message_update_is_read
              (fun m => bool_decide (Message.room_id m = ChatRoom.id room)
                        && negb (Message.is_read m)
                        && negb (bool_decide (Message.sender_id m
                                              = User.id request_user)));
  mret (mkResponse updated HTTP_200_OK).

(** ** notifications/models.py, notifications/views.py *)

(** [Notification.Meta.ordering = ['-created_at']] *)
Definition Notification_ordering (a b : Notification.t) : bool :=
  Notification.created_at b <=? Notification.created_at a.

(** [user.notifications]: the reverse side of [Notification.recipient]. *)
Definition user_notifications (d : Database) (user : User.t)
    : list Notification.t :=
  QuerySet.order_by Notification_ordering
    (List.filter
       (fun n => bool_decide (Notification.recipient_id n = User.id user))
       (notifications d)).

Definition NotificationListView_get (user : Caller)
    : M (TemplateResponse (list Notification.t)) :=
  match user with
  | AnonymousUser => mret login_redirect
  | Authenticated request_user =>
      d ← get_db;
      mret (TemplateOf "notifications/notification_list.html"
              (take 50 (user_notifications d request_user)))
  end.

Definition Notification_read (n : Notification.t) : Notification.t :=
  Notification.mk (Notification.id n) (Notification.recipient_id n)
    (Notification.notification_type n) (Notification.title n)
    (Notification.message n) true (Notification.link n)
    (Notification.created_at n).

(** [notification.save()]: no receiver listens to [post_save] of
    [Notification]. *)
Definition Notification_save (self : Notification.t) : M unit :=
  d ← get_db;
  if bool_decide (is_Some (QuerySet.by_pk Notification.id (notifications d)
                                          (Notification.id self)))
  then
    modify_db (set_notifications
      (map (fun r => if bool_decide (Notification.id r = Notification.id self)
                     then self else r)));;
    emit (Update T_Notification (Notification.id self))
  else
    modify_db (set_notifications (fun rows => rows ++ [self]));;
    emit (Insert T_Notification (Notification.id self)).

(** [get_object_or_404(Notification, pk=pk, recipient=request.user)] *)
Definition get_own_Notification_or_404 (pk : Z) (recipient : User.t)
    : M Notification.t :=
  d ← get_db;
  match QuerySet.by_pk Notification.id (notifications d) pk with
  | Some n =>
      if bool_decide (Notification.recipient_id n = User.id recipient)
      then mret n else raise Http404
  | None => raise Http404
  end.

(** [mark_read(request, pk)]; the view does not look at the method.
    [redirect to None] stands for the call [redirect(to)], which the model
    does not resolve: Django takes [to] as a URL name or as a path, and
    raises [NoReverseMatch] for a link that is neither.  The links the signal
    receivers write are paths ([site_path]). *)
Definition mark_read (method : Method) (user : Caller) (pk : Z)
    : M HttpResponse :=
  match user with
  | AnonymousUser => mret redirect_to_login
  | Authenticated request_user =>
      notification ← get_own_Notification_or_404 pk request_user;
      let notification := Notification_read notification in
      Notification_save notification;;
      (* Redirect to the notification's link if it has one *)
      if Py.truthy (Notification.link notification)
      then mret (redirect (Notification.link notification) None)
      else mret (redirect "notification-list" None)
  end.

(** [Notification.objects ... .update(is_read=True)] on the rows selected
    by [sel]. *)
Definition Notification_update_is_read (sel : Notification.t -> bool) : M nat :=
  d ← get_db;
  let matched := List.filter sel (notifications d) in
  modify_db (set_notifications
               (map (fun n => if sel n then Notification_read n else n)));;
  emit_all ((fun n => Update T_Notification (Notification.id n)) <$> matched);;
  mret (QuerySet.count matched).

Definition mark_all_read (method : Method) (user : Caller) : M HttpResponse :=
  match user with
  | AnonymousUser => mret redirect_to_login
  | Authenticated request_user =>
      (if bool_decide (method = POST) then
         Notification_update_is_read
           (fun n => bool_decide (Notification.recipient_id n = User.id request_user)
                     && negb (Notification.is_read n));;
         emit (Flash SUCCESS "All notifications marked as read.")
       else mret tt);;
      mret (redirect "notification-list" None)
  end.

(** ** notifications/context_processors.py *)

Definition unread_notification_count (d : Database) (user : Caller) : nat :=
  match user with
  | Authenticated request_user =>
      QuerySet.count
        (List.filter (fun n => negb (Notification.is_read n))
                     (user_notifications d request_user))
  | AnonymousUser => 0%nat
  end.

(** ** notifications/viewsets.py

    The actions run for an authenticated user. *)

(** [request.query_params.get(key)]: the last value given for the key. *)
Definition query_params_get (params : list (string * string)) (key : string)
    : option string :=
  snd <$> List.find (fun kv => bool_decide (kv.1 = key)) (rev params).

(** [NotificationViewSet.get_queryset] *)
Definition NotificationViewSet_get_queryset (d : Database)
    (request_user : User.t) (query_params : list (string * string))
    : list Notification.t :=
  let queryset :=
    List.filter
      (fun n => bool_decide (Notification.recipient_id n = User.id request_user))
      (notifications d) in
  (* Filter by read status *)
  let queryset :=
    match query_params_get query_params "is_read" with
    | Some is_read =>
        List.filter
          (fun n => bool_decide
                      (Notification.is_read n
                       = bool_decide (PyStr.lower is_read ∈ ["true"; "1"; "yes"])))
          queryset
    | None => queryset
    end in
  (* Filter by notification type *)
  let queryset :=
    match query_params_get query_params "type" with
    | Some notif_type =>
        if Py.truthy notif_type then
          List.filter
            (fun n => bool_decide (Notification.notification_type n = notif_type))
            queryset
        else queryset
    | None => queryset
    end in
  QuerySet.order_by Notification_ordering queryset.

(** [NotificationViewSet.mark_read]: [get_object] looks the key up in the
    queryset of the request. *)
Definition NotificationViewSet_mark_read (request_user : User.t)
    (query_params : list (string * string)) (pk : Z)
    : M (Response Notification.t) :=
  d ← get_db;
  match QuerySet.by_pk Notification.id
          (NotificationViewSet_get_queryset d request_user query_params) pk with
  | None => raise Http404
  | Some notification =>
      let notification := Notification_read notification in
      Notification_save notification;;
      mret (mkResponse notification HTTP_200_OK)
  end.

(** [NotificationViewSet.mark_all_read] *)
Definition NotificationViewSet_mark_all_read (request_user : User.t)
    : M (Response nat) :=
  updated ← Notification_update_is_read
              (fun n => bool_decide (Notification.recipient_id n = User.id request_user)
                        && negb (Notification.is_read n));
  mret (mkResponse updated HTTP_200_OK).

(** [NotificationViewSet.mark_selected_read]; [notification_ids] is
    [serializer.validated_data.get('notification_ids')], absent when the
    body has no such field.  The ids are a list the database takes as the
    parameters of one query ([bindable_ids]): with an integer beyond 64 bits
    in it, or with more ids than a statement has parameters, the database
    driver raises when the query is run, which is not modelled. *)
Definition NotificationViewSet_mark_selected_read (request_user : User.t)
    (notification_ids : option (list Z)) : M (Response nat) :=
  let ids := default [] notification_ids in
  updated ←
    (if QuerySet.exists_ ids then
       Notification_update_is_read
         (fun n => bool_decide (Notification.recipient_id n = User.id request_user)
                   && bool_decide (Notification.id n ∈ ids)
                   && negb (Notification.is_read n))
     else
       (* No IDs provided, mark all as read *)
       Notification_update_is_read
         (fun n => bool_decide (Notification.recipient_id n = User.id request_user)
                   && negb (Notification.is_read n)));
  mret (mkResponse updated HTTP_200_OK).

(** [NotificationViewSet.unread_count] *)
Definition NotificationViewSet_unread_count (d : Database)
    (request_user : User.t) : Response nat :=
  mkResponse
    (QuerySet.count
       (List.filter
          (fun n => bool_decide (Notification.recipient_id n = User.id request_user)
                    && negb (Notification.is_read n))
          (notifications d)))
    HTTP_200_OK.

(** ** Vocabulary of the further statements *)

(** The primary key of a table names one row. *)
Definition pk_unique {A} (pk_of : A -> Z) (rows : list A) : Prop :=
  NoDup (pk_of <$> rows).

(** The enrollment table with the row of [e]'s key replaced by [e']. *)
Definition replace_enrollment (e' : Enrollment.t) (rows : list Enrollment.t)
    : list Enrollment.t :=
  map (fun r => if bool_decide (Enrollment.id r = Enrollment.id e') then e' else r)
      rows.

(** The rooms after [room.participants.add(user)]. *)
Definition joined_rooms (room : ChatRoom.t) (uid : Z) (rooms : list ChatRoom.t)
    : list ChatRoom.t :=
  map (fun r => if bool_decide (ChatRoom.id r = ChatRoom.id room)
                then add_participant r uid else r) rooms.

(** The world under the other dispatch setting. *)
Definition with_eager (eager : bool) (w : World) : World :=
  mkWorld (db w) (now w) eager (broker w) (groups w) (inbox w) (log w).

(** The notifications of a user that are not read. *)
Definition unread_of (d : Database) (user : User.t) : list Notification.t :=
  List.filter
    (fun n => bool_decide (Notification.recipient_id n = User.id user)
              && negb (Notification.is_read n))
    (notifications d).

(** The notifications of the other users. *)
Definition notifications_of_others (d : Database) (user : User.t)
    : list Notification.t :=
  List.filter
    (fun n => negb (bool_decide (Notification.recipient_id n = User.id user)))
    (notifications d).

(** The character occurs in the string. *)
Fixpoint contains (c : ascii) (s : string) : bool :=
  match s with
  | EmptyString => false
  | String c' s' => Ascii.eqb c' c || contains c s'
  end.

(** The integer fits the 64-bit INTEGER of the database. *)
Definition fits_int64 (v : Z) : Prop := - 2 ^ 63 <= v < 2 ^ 63.

(** The ids can be the [pk__in] list of one query: each fits the database's
    INTEGER, and there are at most 900 of them, which with the other values
    of the query stays within the parameters one statement takes (999 in
    SQLite's smallest configuration). *)
Definition bindable_ids (ids : list Z) : Prop :=
  Forall fits_int64 ids /\ (length ids <= 900)%nat.


(** ** More sample data *)

Module Scenario.

(** More connections: of carol and bob to the Logic chat, of bob to his room
    with alice, and of carol to the direct room 2. *)
Definition carol_tablet : Consumer :=
  mkConsumer "carol-tablet" (Authenticated Sample.carol) "5".
Definition bob_laptop : Consumer :=
  mkConsumer "bob-laptop" (Authenticated Sample.bob) "1".

Definition carol_phone : Consumer :=
  mkConsumer "carol-phone" (Authenticated Sample.carol) "2".
Definition bob_tablet : Consumer :=
  mkConsumer "bob-tablet" (Authenticated Sample.bob) "5".

(** The sample term with carol and tom connected to the Logic chat. *)
Definition lecture : World :=
  mkWorld (db Sample.term) 1000 true []
    {[ "course_chat_5" := {[ "carol-tablet"; "tom-desk" ]} ]} ∅ [].

(** The seminar takes one student: alice has dropped it, and bob attends
    it. *)
Definition alice_seminar : Enrollment.t := Enrollment.mk 1 1 6 DROPPED 100 (Some 200).
Definition bob_seminar : Enrollment.t := Enrollment.mk 2 2 6 ACTIVE 300 None.
Definition seminar_taken : World :=
  Sample.world (mkDatabase Sample.people [Sample.logic; Sample.seminar]
                  [alice_seminar; bob_seminar] [] [] [] []).

(** The seminar takes one student, and carol attends it. *)
Definition carol_seminar : Enrollment.t := Enrollment.mk 1 3 6 ACTIVE 300 None.
Definition full_seminar : World :=
  Sample.world (mkDatabase Sample.people [Sample.logic; Sample.seminar]
                  [carol_seminar] [] [] [] []).

(** Three messages in the room of alice and bob, none of them read. *)
Definition talk_messages : list Message.t :=
  [Message.mk 1 1 1 "hi bob" 10 false;
   Message.mk 2 1 2 "hi alice" 20 false;
   Message.mk 3 1 2 "are you there?" 30 false].
Definition talk : World :=
  Sample.world (mkDatabase Sample.people [Sample.logic; Sample.seminar] [] []
                  [Sample.alice_bob_room] talk_messages []).

(** The sample term with three notifications: tom has one that is unread
    and one that is read, carol has one that is unread. *)
Definition enrolled_note : Notification.t :=
  Notification.mk 1 9 "enrollment" "New enrollment in LOG101"
    "Carol has enrolled in Logic." false "/courses/5/students/" 300.
Definition welcome_note : Notification.t :=
  Notification.mk 2 9 "general" "Welcome" "Welcome to the site." true
    EmptyString 50.
Definition slides_note : Notification.t :=
  Notification.mk 3 3 "new_material" "New material in LOG101"
    "Week 1 has been uploaded to Logic." false "/courses/5/" 400.
Definition mailbox : World :=
  Sample.world (mkDatabase Sample.people [Sample.logic; Sample.seminar]
                  [Sample.alice_logic; Sample.bob_logic; Sample.carol_logic]
                  [] [] [] [enrolled_note; welcome_note; slides_note]).

(** The empty campus with a broker instead of eager dispatch. *)
Definition queued : World := with_eager false Sample.campus.

(** Later on: alice is enrolled in Logic, and carol has a notification. *)
Definition later : World :=
  mkWorld
    (mkDatabase Sample.people [Sample.logic; Sample.seminar]
                [Enrollment.mk 1 1 5 ACTIVE 1000 None] [] [] [] [slides_note])
    4600 false [] ∅ ∅ [].

End Scenario.

(** * Proofs *)

Section QueryFacts.
Context {A : Type}.
Implicit Types (l : list A) (P Q : A -> bool).

Lemma max_pk_bound (pks : list Z) x : x ∈ pks -> x <= foldr Z.max 0 pks.
Proof.
  induction 1 as [x pks|x y pks _ IH]; cbn; lia.
Qed.

Lemma next_pk_fresh (pks : list Z) : QuerySet.next_pk pks ∉ pks.
Proof.
  intros Hin. apply max_pk_bound in Hin. unfold QuerySet.next_pk in Hin. lia.
Qed.

Lemma filter_ext_in P Q l :
  (forall x, x ∈ l -> P x = Q x) -> List.filter P l = List.filter Q l.
Proof.
  induction l as [|a l IH]; intros H; [done|]. cbn.
  rewrite (H a) by left. rewrite IH; [done|].
  intros x Hx. apply H. by right.
Qed.

Lemma filter_none P l :
  (forall x, x ∈ l -> P x = false) -> List.filter P l = [].
Proof.
  induction l as [|a l IH]; intros H; [done|]. cbn.
  rewrite (H a) by left. apply IH. intros x Hx. apply H. by right.
Qed.

Lemma filter_nil_inv P l x :
  List.filter P l = [] -> x ∈ l -> P x = false.
Proof.
  intros Hnil Hx. destruct (P x) eqn:HP; [|done].
  assert (In x (List.filter P l)) as Hin.
  { apply filter_In. split; [by apply list_elem_of_In|done]. }
  rewrite Hnil in Hin. destruct Hin.
Qed.

Lemma elem_of_filter P l x : x ∈ List.filter P l <-> x ∈ l /\ P x = true.
Proof. rewrite !list_elem_of_In. apply filter_In. Qed.

Lemma by_pk_Some (pk_of : A -> Z) l pk r :
  QuerySet.by_pk pk_of l pk = Some r -> r ∈ l /\ pk_of r = pk.
Proof.
  unfold QuerySet.by_pk. intros H. apply find_some in H as [Hin Hpk].
  split; [by apply list_elem_of_In|]. by apply bool_decide_eq_true in Hpk.
Qed.

Lemma insert_by_Permutation (le : A -> A -> bool) x l :
  QuerySet.insert_by le x l ≡ₚ x :: l.
Proof.
  induction l as [|y l IH]; cbn; [done|].
  destruct (le x y); [done|]. rewrite IH. apply Permutation_swap.
Qed.

Lemma order_by_Permutation (le : A -> A -> bool) l :
  QuerySet.order_by le l ≡ₚ l.
Proof.
  induction l as [|x l IH]; cbn; [done|].
  rewrite insert_by_Permutation. by rewrite IH.
Qed.

Lemma order_by_length (le : A -> A -> bool) l :
  length (QuerySet.order_by le l) = length l.
Proof. by rewrite order_by_Permutation. Qed.

End QueryFacts.

(** One step of a monadic computation: unfold the monad and its primitive
    operations, then reduce. *)
Ltac run :=
  unfold mbind, M_bind, mret, M_ret, get_db, timezone_now, modify_db, emit,
    raise, atomic;
  cbv beta iota zeta.

Section MoreQueryFacts.
Context {A : Type}.

Lemma existsb_false (P : A -> bool) (l : list A) :
  (forall x, x ∈ l -> P x = false) -> existsb P l = false.
Proof.
  induction l as [|a l IH]; intros H; [done|]. cbn.
  rewrite (H a) by left. apply IH. intros x Hx. apply H. by right.
Qed.

Lemma filter_unique_such {K} (key : A -> K) (Q : A -> bool)
    (l : list A) (e : A) :
  NoDup (key <$> l) -> e ∈ l -> Q e = true ->
  (forall r, r ∈ l -> Q r = true -> key r = key e) ->
  List.filter Q l = [e].
Proof.
  induction l as [|a l IH]; intros Hnd He HQ Hkey; [by apply elem_of_nil in He|].
  rewrite fmap_cons in Hnd. apply NoDup_cons in Hnd as [Ha Hnd]. cbn.
  apply elem_of_cons in He as [->|He].
  - rewrite HQ. f_equal. apply filter_none. intros x Hx.
    destruct (Q x) eqn:HQx; [|done]. exfalso. apply Ha.
    rewrite <- (Hkey x); [by apply list_elem_of_fmap_2|by right|done].
  - destruct (Q a) eqn:HQa.
    + exfalso. apply Ha. rewrite (Hkey a); [by apply list_elem_of_fmap_2|by left|done].
    + apply IH; [done..|]. intros r Hr. apply Hkey. by right.
Qed.

Lemma by_pk_elem_of (pk_of : A -> Z) (l : list A) (r : A) :
  r ∈ l -> is_Some (QuerySet.by_pk pk_of l (pk_of r)).
Proof.
  unfold QuerySet.by_pk. induction 1 as [r l|r a l _ IH]; cbn.
  - rewrite bool_decide_eq_true_2 by done. by eexists.
  - case_bool_decide; [by eexists|done].
Qed.

Lemma by_pk_map_replace (pk_of : A -> Z) (l : list A) (pk : Z) (new : A) :
  is_Some (QuerySet.by_pk pk_of l pk) -> pk_of new = pk ->
  QuerySet.by_pk pk_of
    (map (fun r => if bool_decide (pk_of r = pk) then new else r) l) pk
  = Some new.
Proof.
  unfold QuerySet.by_pk. intros [x Hx] Hnew.
  induction l as [|a l IH]; [done|]. cbn in *.
  destruct (bool_decide (pk_of a = pk)) eqn:Ha.
  - by rewrite bool_decide_eq_true_2.
  - rewrite Ha. by apply IH.
Qed.

Lemma filter_length_Permutation (P : A -> bool) (l1 l2 : list A) :
  l1 ≡ₚ l2 -> length (List.filter P l1) = length (List.filter P l2).
Proof.
  induction 1 as [|x l1 l2 _ IH|x y l|l1 l2 l3 _ IH1 _ IH2]; cbn.
  - done.
  - destruct (P x); cbn; by rewrite IH.
  - destruct (P x), (P y); done.
  - by rewrite IH1.
Qed.

Lemma exists_filter (P : A -> bool) (l : list A) :
  QuerySet.exists_ (List.filter P l) = true <-> exists x, x ∈ l /\ P x = true.
Proof.
  split.
  - destruct (List.filter P l) as [|x q] eqn:Hq; [done|]. intros _.
    exists x. apply elem_of_filter. rewrite Hq. left.
  - intros (x & Hx & HP).
    assert (x ∈ List.filter P l) as Hin by by apply elem_of_filter.
    by destruct (List.filter P l); [apply elem_of_nil in Hin|].
Qed.

End MoreQueryFacts.

Lemma unique_together_filter (rows : list Enrollment.t) (e : Enrollment.t) :
  unique_together rows -> e ∈ rows ->
  List.filter
    (fun r => bool_decide (Enrollment.student_id r = Enrollment.student_id e)
              && bool_decide (Enrollment.course_id r = Enrollment.course_id e))
    rows = [e].
Proof.
  intros Hu He.
  apply (filter_unique_such
           (fun r => (Enrollment.student_id r, Enrollment.course_id r)));
    [done..| |].
  - by rewrite !bool_decide_eq_true_2.
  - intros r _ Hr. apply andb_prop in Hr as [H1 H2].
    apply bool_decide_eq_true in H1, H2. by rewrite H1, H2.
Qed.

Lemma unique_together_filter_active (rows : list Enrollment.t) (e : Enrollment.t) :
  unique_together rows -> e ∈ rows -> Enrollment.status e = ACTIVE ->
  List.filter
    (fun r => bool_decide (Enrollment.student_id r = Enrollment.student_id e)
              && bool_decide (Enrollment.course_id r = Enrollment.course_id e)
              && bool_decide (Enrollment.status r = ACTIVE))
    rows = [e].
Proof.
  intros Hu He Hact.
  apply (filter_unique_such
           (fun r => (Enrollment.student_id r, Enrollment.course_id r)));
    [done..| |].
  - by rewrite !bool_decide_eq_true_2.
  - intros r _ Hr. apply andb_prop in Hr as [Hr _]. apply andb_prop in Hr as [H1 H2].
    apply bool_decide_eq_true in H1, H2. by rewrite H1, H2.
Qed.

(** *** What [notify_teacher_on_enrollment] does *)

Lemma notify_teacher_not_created (instance : Enrollment.t) (w : World) :
  notify_teacher_on_enrollment instance false w = Ok tt w.
Proof. reflexivity. Qed.

Lemma notify_teacher_not_active (instance : Enrollment.t) (created : bool)
    (w : World) :
  Enrollment.status instance <> ACTIVE ->
  notify_teacher_on_enrollment instance created w = Ok tt w.
Proof.
  intros H. unfold notify_teacher_on_enrollment.
  rewrite bool_decide_eq_false_2 by done. by rewrite andb_false_r.
Qed.

Lemma notify_teacher_created (instance : Enrollment.t) (w : World)
    (course : Course.t) (student : User.t) :
  Enrollment.status instance = ACTIVE ->
  QuerySet.by_pk Course.id (courses (db w)) (Enrollment.course_id instance)
    = Some course ->
  QuerySet.by_pk User.id (users (db w)) (Enrollment.student_id instance)
    = Some student ->
  notify_teacher_on_enrollment instance true w
  = delay (enrollment_task course student) w.
Proof.
  intros Hact Hc Hs. unfold notify_teacher_on_enrollment, related.
  rewrite bool_decide_eq_true_2 by done. cbn [andb]. run.
  rewrite Hc. run. by rewrite Hs.
Qed.

(** A task called through [delay] leaves the course, user and enrollment
    tables alone, whichever way it is dispatched. *)
Lemma delay_create_notification (w : World) (rid : Z) (nt ti ms ln : string) :
  exists w',
    delay (create_notification_task rid nt ti ms ln) w = Ok tt w'
    /\ users (db w') = users (db w)
    /\ courses (db w') = courses (db w)
    /\ enrollments (db w') = enrollments (db w)
    /\ chat_rooms (db w') = chat_rooms (db w)
    /\ chat_messages (db w') = chat_messages (db w)
    /\ now w' = now w
    /\ CELERY_TASK_ALWAYS_EAGER w' = CELERY_TASK_ALWAYS_EAGER w.
Proof.
  unfold delay. destruct (CELERY_TASK_ALWAYS_EAGER w) eqn:He.
  - eexists. split; [reflexivity|]. cbn. by rewrite He.
  - eexists. split; [reflexivity|]. cbn. by rewrite He.
Qed.

(** *** The cases of [enroll] *)

Lemma enroll_full (w : World) (u : User.t) (pk : Z) (course : Course.t) :
  User.is_student u = true ->
  QuerySet.by_pk Course.id (courses (db w)) pk = Some course ->
  Course_is_full (db w) course = true ->
  enroll POST (Authenticated u) pk w
  = Ok (redirect "course-detail" (Some pk))
       (with_log (fun l => l ++ [Flash ERROR "This course is full."]) w).
Proof.
  intros Hs Hc Hfull. unfold enroll, get_Course_or_404.
  rewrite (bool_decide_eq_true_2 (POST = POST)) by done. cbn [negb]. run.
  rewrite Hc. run. rewrite Hs. cbn [negb]. run. by rewrite Hfull.
Qed.

Lemma enroll_new (w : World) (u student : User.t) (pk : Z) (course : Course.t) :
  User.is_student u = true ->
  QuerySet.by_pk Course.id (courses (db w)) pk = Some course ->
  QuerySet.by_pk User.id (users (db w)) (User.id u) = Some student ->
  Course_is_full (db w) course = false ->
  List.filter
    (fun r => bool_decide (Enrollment.student_id r = User.id u)
              && bool_decide (Enrollment.course_id r = pk))
    (enrollments (db w)) = [] ->
  exists w',
    enroll POST (Authenticated u) pk w
      = Ok (redirect "course-detail" (Some pk)) w'
    /\ enrollments (db w') = enrollments (db w) ++ [new_enrollment w (User.id u) pk]
    /\ users (db w') = users (db w)
    /\ courses (db w') = courses (db w)
    /\ now w' = now w
    /\ CELERY_TASK_ALWAYS_EAGER w' = CELERY_TASK_ALWAYS_EAGER w.
Proof.
  intros Hs Hc Hu Hfull Hnone.
  destruct (by_pk_Some _ _ _ _ Hc) as [_ Hpk].
  unfold enroll, get_Course_or_404.
  rewrite (bool_decide_eq_true_2 (POST = POST)) by done. cbn [negb]. run.
  rewrite Hc. run. rewrite Hs. cbn [negb]. run. rewrite Hfull.
  unfold Enrollment_objects_get_or_create. run. rewrite Hpk, Hnone.
  unfold Enrollment_objects_create. run.
  rewrite (existsb_false _ _ (fun x => filter_nil_inv _ _ x Hnone)).
  run.
  erewrite notify_teacher_created; [|done|cbn; done|cbn; done].
  unfold enrollment_task.
  edestruct delay_create_notification as (w' & -> & Hw').
  cbn in Hw'. destruct Hw' as (? & ? & ? & ? & ? & ? & ?).
  eexists. split; [reflexivity|]. cbn. done.
Qed.

Lemma filter_singleton_elem {A} (P : A -> bool) (l : list A) (e : A) :
  List.filter P l = [e] -> e ∈ l /\ P e = true.
Proof.
  intros H. apply elem_of_filter. rewrite H. left.
Qed.

(** [save()] of a row read from the table: the row is replaced, [post_save]
    is sent with [created=False], and the receiver does nothing. *)
Lemma Enrollment_save_stored (self : Enrollment.t) (w : World) :
  is_Some (QuerySet.by_pk Enrollment.id (enrollments (db w)) (Enrollment.id self)) ->
  Enrollment_save self w
  = Ok tt
      (with_log (fun l => l ++ [Update T_Enrollment (Enrollment.id self)])
         (with_db
            (set_enrollments
               (map (fun r => if bool_decide (Enrollment.id r = Enrollment.id self)
                              then self else r))) w)).
Proof.
  intros H. unfold Enrollment_save. run.
  by rewrite bool_decide_eq_true_2.
Qed.

Lemma enroll_existing (w : World) (u : User.t) (pk : Z) (course : Course.t)
    (e : Enrollment.t) :
  User.is_student u = true ->
  QuerySet.by_pk Course.id (courses (db w)) pk = Some course ->
  Course_is_full (db w) course = false ->
  List.filter
    (fun r => bool_decide (Enrollment.student_id r = User.id u)
              && bool_decide (Enrollment.course_id r = pk))
    (enrollments (db w)) = [e] ->
  enroll POST (Authenticated u) pk w
  = Ok (redirect "course-detail" (Some pk))
       match Enrollment.status e with
       | BLOCKED =>
           with_log (fun l => l ++ [Flash ERROR "You have been blocked from this course."]) w
       | ACTIVE =>
           with_log (fun l => l ++ [Flash INFO "You are already enrolled in this course."]) w
       | DROPPED =>
           with_log
             (fun l => l ++ [Flash SUCCESS ("Re-enrolled in " +:+ Course.title course +:+ ".")])
             (with_log (fun l => l ++ [Update T_Enrollment (Enrollment.id e)])
                (with_db
                   (set_enrollments
                      (map (fun r => if bool_decide (Enrollment.id r = Enrollment.id e)
                                     then Enrollment_with_status e ACTIVE None
                                     else r))) w))
       end.
Proof.
  intros Hs Hc Hfull He.
  destruct (by_pk_Some _ _ _ _ Hc) as [_ Hpk].
  destruct (filter_singleton_elem _ _ _ He) as [Hin _].
  unfold enroll, get_Course_or_404.
  rewrite (bool_decide_eq_true_2 (POST = POST)) by done. cbn [negb]. run.
  rewrite Hc. run. rewrite Hs. cbn [negb]. run. rewrite Hfull.
  unfold Enrollment_objects_get_or_create. run. rewrite Hpk, He.
  cbn [fst snd negb].
  destruct (Enrollment.status e); [done| |done].
  rewrite Enrollment_save_stored; [done|].
  exact (by_pk_elem_of Enrollment.id _ e Hin).
Qed.

Lemma unenroll_active (w : World) (u : User.t) (pk : Z) (e : Enrollment.t) :
  List.filter
    (fun r => bool_decide (Enrollment.student_id r = User.id u)
              && bool_decide (Enrollment.course_id r = pk)
              && bool_decide (Enrollment.status r = ACTIVE))
    (enrollments (db w)) = [e] ->
  unenroll POST (Authenticated u) pk w
  = Ok (redirect "course-list" None)
       (with_log
          (fun l => l ++ [Flash SUCCESS "You have unenrolled from the course."])
          (with_log (fun l => l ++ [Update T_Enrollment (Enrollment.id e)])
             (with_db
                (set_enrollments
                   (map (fun r => if bool_decide (Enrollment.id r = Enrollment.id e)
                                  then Enrollment_with_status e DROPPED (Some (now w))
                                  else r))) w))).
Proof.
  intros He.
  destruct (filter_singleton_elem _ _ _ He) as [Hin _].
  unfold unenroll.
  rewrite (bool_decide_eq_true_2 (POST = POST)) by done. cbn [negb]. run.
  rewrite He. run.
  rewrite Enrollment_save_stored; [done|].
  exact (by_pk_elem_of Enrollment.id _ e Hin).
Qed.

Lemma Forall_filter_nil {A} (P : A -> bool) (l : list A) :
  Forall (fun r => P r = false) l -> List.filter P l = [].
Proof.
  intros H. apply filter_none. intros x Hx.
  by eapply (proj1 (Forall_forall _ _) H).
Qed.

Lemma no_enrollment_filter (d : Database) (sid cid : Z) :
  no_enrollment d sid cid ->
  List.filter
    (fun r => bool_decide (Enrollment.student_id r = sid)
              && bool_decide (Enrollment.course_id r = cid))
    (enrollments d) = [].
Proof.
  intros H. apply Forall_filter_nil. eapply Forall_impl; [exact H|].
  intros r Hr. cbn in Hr. case_bool_decide; [|done].
  rewrite bool_decide_eq_false_2; [done|]. by apply Hr.
Qed.

(** C3 (amended): the enrollment state machine. For a student and a course,
    with one enrollment row per pair as the schema has it: an [enroll] that
    creates the row makes it active; [unenroll] turns the active row into a
    dropped one and sets [dropped_at] to the time of the request; an [enroll]
    of a dropped student, when the course is not full, makes that same row
    active again and clears [dropped_at], and the table keeps its length;
    when the course is full, that [enroll] is answered with the capacity
    error instead, and the row stays dropped; an [enroll] of a blocked
    student ends with an error message and leaves every table as it was. *)
Theorem enrollment_state_machine (w : World) (u : User.t) (pk : Z) :
  unique_together (enrollments (db w)) ->
  (* creating an enrollment yields status active *)
  (forall course student,
     User.is_student u = true ->
     QuerySet.by_pk Course.id (courses (db w)) pk = Some course ->
     QuerySet.by_pk User.id (users (db w)) (User.id u) = Some student ->
     Course_is_full (db w) course = false ->
     no_enrollment (db w) (User.id u) pk ->
     exists e w',
       enroll POST (Authenticated u) pk w
         = Ok (redirect "course-detail" (Some pk)) w'
       /\ enrollments (db w') = enrollments (db w) ++ [e]
       /\ Enrollment.student_id e = User.id u
       /\ Enrollment.course_id e = pk
       /\ Enrollment.status e = ACTIVE
       /\ Enrollment.dropped_at e = None)
  /\ (forall e,
        e ∈ enrollments (db w) ->
        Enrollment.student_id e = User.id u ->
        Enrollment.course_id e = pk ->
        (* unenroll: active to dropped, with the drop time *)
        (Enrollment.status e = ACTIVE ->
         exists w',
           unenroll POST (Authenticated u) pk w
             = Ok (redirect "course-list" None) w'
           /\ enrollments (db w')
              = map (fun r => if bool_decide (Enrollment.id r = Enrollment.id e)
                              then Enrollment_with_status e DROPPED (Some (now w))
                              else r)
                    (enrollments (db w))
           /\ QuerySet.by_pk Enrollment.id (enrollments (db w')) (Enrollment.id e)
              = Some (Enrollment_with_status e DROPPED (Some (now w))))
        (* enroll of a dropped student, while the course has room *)
        /\ (forall course,
              Enrollment.status e = DROPPED ->
              User.is_student u = true ->
              QuerySet.by_pk Course.id (courses (db w)) pk = Some course ->
              Course_is_full (db w) course = false ->
              exists w',
                enroll POST (Authenticated u) pk w
                  = Ok (redirect "course-detail" (Some pk)) w'
                /\ enrollments (db w')
                   = map (fun r => if bool_decide (Enrollment.id r = Enrollment.id e)
                                   then Enrollment_with_status e ACTIVE None
                                   else r)
                         (enrollments (db w))
                /\ length (enrollments (db w')) = length (enrollments (db w))
                /\ QuerySet.by_pk Enrollment.id (enrollments (db w')) (Enrollment.id e)
                   = Some (Enrollment_with_status e ACTIVE None))
        (* enroll of a dropped student, when the course is full *)
        /\ (forall course,
              Enrollment.status e = DROPPED ->
              User.is_student u = true ->
              QuerySet.by_pk Course.id (courses (db w)) pk = Some course ->
              Course_is_full (db w) course = true ->
              exists w',
                enroll POST (Authenticated u) pk w
                  = Ok (redirect "course-detail" (Some pk)) w'
                /\ w' = with_log (fun l => l ++ [Flash ERROR "This course is full."]) w
                /\ enrollments (db w') = enrollments (db w)
                /\ e ∈ enrollments (db w'))
        (* enroll of a blocked student *)
        /\ (forall course,
              Enrollment.status e = BLOCKED ->
              User.is_student u = true ->
              QuerySet.by_pk Course.id (courses (db w)) pk = Some course ->
              exists text,
                enroll POST (Authenticated u) pk w
                = Ok (redirect "course-detail" (Some pk))
                     (with_log (fun l => l ++ [Flash ERROR text]) w))).
Proof.
  intros Huniq. split.
  - intros course student Hs Hc Hu Hfull Hnone.
    apply no_enrollment_filter in Hnone.
    destruct (enroll_new w u student pk course Hs Hc Hu Hfull Hnone)
      as (w' & Hrun & Henr & _).
    exists (new_enrollment w (User.id u) pk), w'. by repeat split.
  - intros e Hin Hsid Hcid.
    pose proof (unique_together_filter _ e Huniq Hin) as Hone.
    rewrite Hsid, Hcid in Hone.
    split; [|split; [|split]].
    + intros Hact.
      pose proof (unique_together_filter_active _ e Huniq Hin Hact) as Hact1.
      rewrite Hsid, Hcid in Hact1.
      eexists. split; [by apply unenroll_active|]. cbn. split; [done|].
      apply by_pk_map_replace; [|done]. by apply by_pk_elem_of.
    + intros course Hst Hs Hc Hfull.
      eexists. split; [by eapply enroll_existing|]. rewrite Hst. cbn.
      split; [done|]. split; [by rewrite length_map|].
      apply by_pk_map_replace; [|done]. by apply by_pk_elem_of.
    + intros course Hst Hs Hc Hfull.
      eexists. split; [by apply enroll_full with (course := course)|].
      by repeat split.
    + intros course Hst Hs Hc.
      destruct (Course_is_full (db w) course) eqn:Hfull.
      * eexists. by apply enroll_full with (course := course).
      * eexists. rewrite (enroll_existing w u pk course e) by done.
        by rewrite Hst.
Qed.

(** The transitions on the sample term: dave enrolls, carol unenrolls, alice
    enrolls again, bob is turned away; and alice, who has dropped the seminar
    that bob now fills, is turned away from it. *)
Lemma enrollment_state_machine_witness :
  (* dave, who has no row, enrolls in Logic *)
  (exists e w',
     enroll POST (Authenticated Sample.dave) 5 Sample.term
       = Ok (redirect "course-detail" (Some 5)) w'
     /\ enrollments (db w') = enrollments (db Sample.term) ++ [e]
     /\ Enrollment.status e = ACTIVE)
  (* carol unenrolls *)
  /\ (exists w',
        unenroll POST (Authenticated Sample.carol) 5 Sample.term
          = Ok (redirect "course-list" None) w'
        /\ QuerySet.by_pk Enrollment.id (enrollments (db w')) 3
           = Some (Enrollment.mk 3 3 5 DROPPED 300 (Some 1000)))
  (* alice, who had dropped, enrolls again *)
  /\ (exists w',
        enroll POST (Authenticated Sample.alice) 5 Sample.term
          = Ok (redirect "course-detail" (Some 5)) w'
        /\ length (enrollments (db w')) = 3%nat
        /\ QuerySet.by_pk Enrollment.id (enrollments (db w')) 1
           = Some (Enrollment.mk 1 1 5 ACTIVE 100 None))
  (* bob, who is blocked, tries to enroll *)
  /\ (exists text,
        enroll POST (Authenticated Sample.bob) 5 Sample.term
        = Ok (redirect "course-detail" (Some 5))
             (with_log (fun l => l ++ [Flash ERROR text]) Sample.term))
  (* alice, who had dropped the seminar, finds it full *)
  /\ (exists w',
        enroll POST (Authenticated Sample.alice) 6 Scenario.seminar_taken
          = Ok (redirect "course-detail" (Some 6)) w'
        /\ log w' = [Flash ERROR "This course is full."]
        /\ enrollments (db w') = [Scenario.alice_seminar; Scenario.bob_seminar]).
Proof.
  assert (unique_together (enrollments (db Sample.term))) as Huniq
    by (unfold unique_together; compute_done).
  assert (unique_together (enrollments (db Scenario.seminar_taken))) as Huniq'
    by (unfold unique_together; compute_done).
  destruct (enrollment_state_machine Scenario.seminar_taken Sample.alice 6 Huniq')
    as [_ Hfull].
  destruct (enrollment_state_machine Sample.term Sample.dave 5 Huniq)
    as [Hnew _].
  destruct (enrollment_state_machine Sample.term Sample.carol 5 Huniq)
    as [_ Hcarol].
  destruct (enrollment_state_machine Sample.term Sample.alice 5 Huniq)
    as [_ Halice].
  destruct (enrollment_state_machine Sample.term Sample.bob 5 Huniq)
    as [_ Hbob].
  split; [|split; [|split; [|split]]].
  - destruct (Hnew Sample.logic Sample.dave) as (e & w' & H1 & H2 & _ & _ & H3 & _);
      [reflexivity | reflexivity | reflexivity | reflexivity | |].
    + repeat constructor; cbn; discriminate.
    + by exists e, w'.
  - destruct (Hcarol Sample.carol_logic) as [Hun _];
      [right; right; left | reflexivity | reflexivity |].
    destruct (Hun eq_refl) as (w' & H1 & _ & H2). by exists w'.
  - destruct (Halice Sample.alice_logic) as (_ & Hre & _);
      [left | reflexivity | reflexivity |].
    destruct (Hre Sample.logic eq_refl eq_refl eq_refl eq_refl)
      as (w' & H1 & _ & H2 & H3).
    by exists w'.
  - destruct (Hbob Sample.bob_logic) as (_ & _ & _ & Hbl);
      [right; left | reflexivity | reflexivity |].
    exact (Hbl Sample.logic eq_refl eq_refl eq_refl).
  - destruct (Hfull Scenario.alice_seminar) as (_ & _ & Hre & _);
      [left | reflexivity | reflexivity |].
    destruct (Hre Sample.seminar eq_refl eq_refl eq_refl eq_refl)
      as (w' & H1 & Hw' & H2 & _).
    exists w'. split; [exact H1|]. split; [by rewrite Hw'|exact H2].
Defined.

(** C3, as stated, fails on this run of the views: the seminar takes one
    student; alice enrolls and unenrolls, bob enrolls, and the next request
    of alice, a dropped student, is answered with "This course is full." and
    leaves her row dropped. *)
Lemma reenroll_rejected_when_full :
  let w1 := world_of (enroll POST (Authenticated Sample.alice) 6 Sample.campus) in
  let w2 := world_of (unenroll POST (Authenticated Sample.alice) 6 w1) in
  let w3 := world_of (enroll POST (Authenticated Sample.bob) 6 w2) in
  Enrollment.status <$> QuerySet.by_pk Enrollment.id (enrollments (db w3)) 1
    = Some DROPPED
  /\ enroll POST (Authenticated Sample.alice) 6 w3
     = Ok (redirect "course-detail" (Some 6))
          (with_log (fun l => l ++ [Flash ERROR "This course is full."]) w3)
  /\ Enrollment.status
       <$> QuerySet.by_pk Enrollment.id
             (enrollments
                (db (world_of (enroll POST (Authenticated Sample.alice) 6 w3)))) 1
     = Some DROPPED.
Proof. vm_compute. done. Qed.

Lemma enrolled_count_app (d : Database) (course : Course.t) (e : Enrollment.t)
    (rows : list Enrollment.t) :
  Enrollment.course_id e = Course.id course ->
  Enrollment.status e = ACTIVE ->
  enrollments d = rows ++ [e] ->
  Course_enrolled_count d course
  = S (QuerySet.count
         (List.filter
            (fun r => bool_decide (Enrollment.course_id r = Course.id course)
                      && bool_decide (Enrollment.status r = ACTIVE)) rows)).
Proof.
  intros Hc Hs Hd. unfold Course_enrolled_count, QuerySet.count.
  rewrite Hd, List.filter_app, length_app. cbn.
  rewrite !bool_decide_eq_true_2 by done. cbn. lia.
Qed.

Lemma is_full_iff (d : Database) (course : Course.t) :
  Course_is_full d course = true
  <-> (Course.max_students course <= Course_enrolled_count d course)%nat.
Proof. unfold Course_is_full. apply Nat.leb_le. Qed.

(** C4: serial enrollment at the capacity boundary. A course takes two
    students and has no active enrollment; X and Y are distinct students with
    no enrollment row for it. X's [enroll] succeeds with an active row and
    the active count is 1, Y's succeeds and the count is 2, [is_full] is
    false before and after X and true after Y; the [enroll] of a third
    student Z is answered with the error "This course is full." and changes
    no table, so no row is created for Z. *)
Theorem capacity_scenario (w : World) (pk : Z) (course : Course.t)
    (x y z sx sy : User.t) :
  QuerySet.by_pk Course.id (courses (db w)) pk = Some course ->
  Course.max_students course = 2%nat ->
  Course_enrolled_count (db w) course = 0%nat ->
  User.is_student x = true ->
  User.is_student y = true ->
  User.is_student z = true ->
  User.id x <> User.id y ->
  QuerySet.by_pk User.id (users (db w)) (User.id x) = Some sx ->
  QuerySet.by_pk User.id (users (db w)) (User.id y) = Some sy ->
  no_enrollment (db w) (User.id x) pk ->
  no_enrollment (db w) (User.id y) pk ->
  exists w1 w2 ex ey,
    Course_is_full (db w) course = false
    (* student X *)
    /\ enroll POST (Authenticated x) pk w
       = Ok (redirect "course-detail" (Some pk)) w1
    /\ enrollments (db w1) = enrollments (db w) ++ [ex]
    /\ Enrollment.student_id ex = User.id x
    /\ Enrollment.course_id ex = pk
    /\ Enrollment.status ex = ACTIVE
    /\ Course_enrolled_count (db w1) course = 1%nat
    /\ Course_is_full (db w1) course = false
    (* student Y *)
    /\ enroll POST (Authenticated y) pk w1
       = Ok (redirect "course-detail" (Some pk)) w2
    /\ enrollments (db w2) = enrollments (db w1) ++ [ey]
    /\ Enrollment.student_id ey = User.id y
    /\ Enrollment.course_id ey = pk
    /\ Enrollment.status ey = ACTIVE
    /\ Course_enrolled_count (db w2) course = 2%nat
    /\ Course_is_full (db w2) course = true
    (* student Z *)
    /\ enroll POST (Authenticated z) pk w2
       = Ok (redirect "course-detail" (Some pk))
            (with_log (fun l => l ++ [Flash ERROR "This course is full."]) w2)
    /\ enrollments
         (db (world_of (enroll POST (Authenticated z) pk w2)))
       = enrollments (db w2)
    (* the course is full exactly from two active enrollments on *)
    /\ (forall d,
          Course_is_full d course = true
          <-> (2 <= Course_enrolled_count d course)%nat).
Proof.
  intros Hc Hmax Hcount Hx Hy Hz Hxy Hsx Hsy Hnx Hny.
  assert (forall d, Course_is_full d course = true
                    <-> (2 <= Course_enrolled_count d course)%nat) as Hiff.
  { intros d. rewrite <- Hmax. apply is_full_iff. }
  destruct (by_pk_Some _ _ _ _ Hc) as [_ Hpk].
  assert (Course_is_full (db w) course = false) as Hfull0.
  { unfold Course_is_full. rewrite Hmax, Hcount. done. }
  destruct (enroll_new w x sx pk course Hx Hc Hsx Hfull0
              (no_enrollment_filter _ _ _ Hnx))
    as (w1 & Hrun1 & Henr1 & Hu1 & Hc1 & Hnow1 & _).
  assert (Course_enrolled_count (db w1) course = 1%nat) as Hcount1.
  { rewrite (enrolled_count_app _ course (new_enrollment w (User.id x) pk) _
               (eq_sym Hpk) eq_refl Henr1).
    f_equal. exact Hcount. }
  assert (Course_is_full (db w1) course = false) as Hfull1.
  { unfold Course_is_full. rewrite Hmax, Hcount1. done. }
  assert (no_enrollment (db w1) (User.id y) pk) as Hny1.
  { unfold no_enrollment. rewrite Henr1. apply Forall_app. split; [done|].
    apply Forall_singleton. cbn. intros Heq. by destruct Hxy. }
  rewrite <- Hc1 in Hc. rewrite <- Hu1 in Hsy.
  destruct (enroll_new w1 y sy pk course Hy Hc Hsy Hfull1
              (no_enrollment_filter _ _ _ Hny1))
    as (w2 & Hrun2 & Henr2 & Hu2 & Hc2 & Hnow2 & _).
  assert (Course_enrolled_count (db w2) course = 2%nat) as Hcount2.
  { rewrite (enrolled_count_app _ course (new_enrollment w1 (User.id y) pk) _
               (eq_sym Hpk) eq_refl Henr2).
    f_equal. exact Hcount1. }
  assert (Course_is_full (db w2) course = true) as Hfull2.
  { unfold Course_is_full. rewrite Hmax, Hcount2. done. }
  rewrite <- Hc2 in Hc.
  pose proof (enroll_full w2 z pk course Hz Hc Hfull2) as Hrun3.
  exists w1, w2, (new_enrollment w (User.id x) pk),
    (new_enrollment w1 (User.id y) pk).
  rewrite Hrun3. repeat (split; [done|]). exact Hiff.
Qed.

(** The scenario on the sample campus: alice, bob, then carol. *)
Lemma capacity_scenario_witness :
  exists w1 w2,
    enroll POST (Authenticated Sample.alice) 5 Sample.campus
      = Ok (redirect "course-detail" (Some 5)) w1
    /\ Course_enrolled_count (db w1) Sample.logic = 1%nat
    /\ enroll POST (Authenticated Sample.bob) 5 w1
       = Ok (redirect "course-detail" (Some 5)) w2
    /\ Course_enrolled_count (db w2) Sample.logic = 2%nat
    /\ Course_is_full (db w2) Sample.logic = true
    /\ enroll POST (Authenticated Sample.carol) 5 w2
       = Ok (redirect "course-detail" (Some 5))
            (with_log (fun l => l ++ [Flash ERROR "This course is full."]) w2).
Proof.
  destruct (capacity_scenario Sample.campus 5 Sample.logic
              Sample.alice Sample.bob Sample.carol Sample.alice Sample.bob)
    as (w1 & w2 & ex & ey & H).
  - reflexivity.
  - reflexivity.
  - reflexivity.
  - reflexivity.
  - reflexivity.
  - reflexivity.
  - discriminate.
  - reflexivity.
  - reflexivity.
  - constructor.
  - constructor.
  - exists w1, w2. tauto.
Defined.

(** C7: in eager mode, creating an Enrollment row with status active adds
    exactly one Notification row; its recipient is the course's teacher, its
    type is "enrollment", its title names the course code and its message
    names the student (full name, or user name when that is empty) and the
    course title. Nothing is left in the broker. *)
Theorem enrollment_creation_notifies_teacher
    (w : World) (student_id course_id : Z) (course : Course.t)
    (student : User.t) :
  CELERY_TASK_ALWAYS_EAGER w = true ->
  QuerySet.by_pk Course.id (courses (db w)) course_id = Some course ->
  QuerySet.by_pk User.id (users (db w)) student_id = Some student ->
  no_enrollment (db w) student_id course_id ->
  exists e n w',
    Enrollment_objects_create student_id course_id ACTIVE w = Ok e w'
    /\ enrollments (db w') = enrollments (db w) ++ [e]
    /\ Enrollment.status e = ACTIVE
    /\ notifications (db w') = notifications (db w) ++ [n]
    /\ Notification.recipient_id n = Course.teacher_id course
    /\ Notification.notification_type n = "enrollment"
    /\ Notification.title n = "New enrollment in " +:+ Course.code course
    /\ Notification.message n
       = Py.or_else (User.get_full_name student) (User.username student)
           +:+ " has enrolled in " +:+ Course.title course +:+ "."
    /\ Notification.is_read n = false
    /\ broker w' = broker w.
Proof.
  intros Heager Hc Hs Hnone. apply no_enrollment_filter in Hnone.
  unfold Enrollment_objects_create. run.
  rewrite (existsb_false _ _ (fun x => filter_nil_inv _ _ x Hnone)).
  run.
  erewrite notify_teacher_created; [|done|cbn; done|cbn; done].
  unfold delay, enrollment_task. cbn [CELERY_TASK_ALWAYS_EAGER with_db with_log].
  rewrite Heager.
  unfold run_task, create_notification, Notification_objects_create. run.
  eexists _, _, _. split; [reflexivity|]. cbn. done.
Qed.

(** Alice enrolls in Logic: tom gets the one notification. *)
Lemma enrollment_creation_notifies_teacher_witness :
  exists e n w',
    Enrollment_objects_create 1 5 ACTIVE Sample.campus = Ok e w'
    /\ enrollments (db w') = enrollments (db Sample.campus) ++ [e]
    /\ Enrollment.status e = ACTIVE
    /\ notifications (db w') = notifications (db Sample.campus) ++ [n]
    /\ Notification.recipient_id n = 9
    /\ Notification.notification_type n = "enrollment"
    /\ Notification.title n = "New enrollment in LOG101"
    /\ Notification.message n = "Alice Archer has enrolled in Logic."
    /\ Notification.is_read n = false
    /\ broker w' = broker Sample.campus.
Proof.
  apply (enrollment_creation_notifies_teacher
           Sample.campus 1 5 Sample.logic Sample.alice);
    [reflexivity | reflexivity | reflexivity | constructor].
Defined.

(** C10: re-activating a dropped enrollment notifies nobody. When [enroll]
    turns an existing dropped row back to active, the notification table and
    the broker are as before, in eager mode or not: the row is saved as an
    update, and the receiver does nothing unless [created] is true. *)
Theorem reactivation_sends_no_notification (w : World) (u : User.t) (pk : Z)
    (course : Course.t) (e : Enrollment.t) :
  unique_together (enrollments (db w)) ->
  User.is_student u = true ->
  QuerySet.by_pk Course.id (courses (db w)) pk = Some course ->
  Course_is_full (db w) course = false ->
  e ∈ enrollments (db w) ->
  Enrollment.student_id e = User.id u ->
  Enrollment.course_id e = pk ->
  Enrollment.status e = DROPPED ->
  exists w',
    enroll POST (Authenticated u) pk w
      = Ok (redirect "course-detail" (Some pk)) w'
    (* the row is active again *)
    /\ QuerySet.by_pk Enrollment.id (enrollments (db w')) (Enrollment.id e)
       = Some (Enrollment_with_status e ACTIVE None)
    (* nothing was created for the teacher, now or later *)
    /\ notifications (db w') = notifications (db w)
    /\ broker w' = broker w
    /\ log w'
       = log w ++ [Update T_Enrollment (Enrollment.id e);
                   Flash SUCCESS ("Re-enrolled in " +:+ Course.title course +:+ ".")]
    (* the receiver acts on created, active rows only *)
    /\ (forall instance w0,
          notify_teacher_on_enrollment instance false w0 = Ok tt w0)
    /\ (forall instance created w0,
          Enrollment.status instance <> ACTIVE ->
          notify_teacher_on_enrollment instance created w0 = Ok tt w0).
Proof.
  intros Huniq Hs Hc Hfull Hin Hsid Hcid Hst.
  pose proof (unique_together_filter _ e Huniq Hin) as Hone.
  rewrite Hsid, Hcid in Hone.
  eexists. split; [by eapply enroll_existing|]. rewrite Hst. cbn.
  split; [|split; [done|split; [done|split; [|split]]]].
  - apply by_pk_map_replace; [|done]. by apply by_pk_elem_of.
  - by rewrite <- app_assoc.
  - apply notify_teacher_not_created.
  - apply notify_teacher_not_active.
Qed.

(** Alice, who had dropped Logic, enrolls again. *)
Lemma reactivation_sends_no_notification_witness :
  exists w',
    enroll POST (Authenticated Sample.alice) 5 Sample.term
      = Ok (redirect "course-detail" (Some 5)) w'
    /\ QuerySet.by_pk Enrollment.id (enrollments (db w')) 1
       = Some (Enrollment.mk 1 1 5 ACTIVE 100 None)
    /\ notifications (db w') = []
    /\ broker w' = [].
Proof.
  destruct (reactivation_sends_no_notification
              Sample.term Sample.alice 5 Sample.logic Sample.alice_logic)
    as (w' & Hrun & Hrow & Hn & Hb & _).
  - unfold unique_together. compute_done.
  - reflexivity.
  - reflexivity.
  - reflexivity.
  - left.
  - reflexivity.
  - reflexivity.
  - reflexivity.
  - exists w'. by repeat split.
Defined.

Lemma direct_connect_run (self : Consumer) (w : World) :
  DirectChatConsumer.connect self w
  = match scope_user self with
    | AnonymousUser => Ok tt (closed self w)
    | Authenticated user =>
        match Py.int (scope_id self) with
        | None => Raise ValueError w
        | Some room_id =>
            if QuerySet.exists_
                 (List.filter
                    (fun r => bool_decide (ChatRoom.id r = room_id)
                              && bool_decide (User.id user ∈ ChatRoom.participants r))
                    (chat_rooms (db w)))
            then Ok tt (joined (DirectChatConsumer.room_group_name self) self w)
            else Ok tt (closed self w)
        end
    end.
Proof.
  unfold DirectChatConsumer.connect, DirectChatConsumer.is_participant.
  destruct (scope_user self); [done|]. run.
  destruct (Py.int (scope_id self)); [|done]. run.
  by destruct (QuerySet.exists_ _).
Qed.

Lemma group_connect_run (self : Consumer) (w : World) :
  GroupChatConsumer.connect self w
  = match scope_user self with
    | AnonymousUser => Ok tt (closed self w)
    | Authenticated user =>
        match Py.int (scope_id self) with
        | None => Raise ValueError w
        | Some course_id =>
            match QuerySet.by_pk Course.id (courses (db w)) course_id with
            | None => Ok tt (closed self w)
            | Some course =>
                if bool_decide (Course.teacher_id course = User.id user)
                   || QuerySet.exists_
                        (List.filter
                           (fun e =>
                              bool_decide (Enrollment.student_id e = User.id user)
                              && bool_decide (Enrollment.course_id e = Course.id course)
                              && bool_decide (Enrollment.status e = ACTIVE))
                           (enrollments (db w)))
                then Ok tt (joined (GroupChatConsumer.room_group_name self) self w)
                else Ok tt (closed self w)
            end
        end
    end.
Proof.
  unfold GroupChatConsumer.connect, GroupChatConsumer.has_course_access.
  destruct (scope_user self); [done|]. run.
  destruct (Py.int (scope_id self)); [|done]. run.
  destruct (QuerySet.by_pk _ _ _); [|done].
  case_bool_decide; [done|]. run. cbn [orb].
  by destruct (QuerySet.exists_ _).
Qed.

Lemma new_effects_closed {A} (a : A) (self : Consumer) (w : World) :
  new_effects w (Ok a (closed self w)) = [Close (channel_name self)].
Proof. unfold new_effects. cbn. by rewrite drop_app_length. Qed.

Lemma new_effects_joined {A} (a : A) (g : string) (self : Consumer) (w : World) :
  new_effects w (Ok a (joined g self w))
  = [GroupAdd g (channel_name self); Accept (channel_name self)].
Proof.
  unfold new_effects. cbn. by rewrite <- app_assoc, drop_app_length.
Qed.

Lemma new_effects_none {A} (r : Result A) (w : World) :
  world_of r = w -> new_effects w r = [].
Proof. intros H. unfold new_effects. rewrite H. apply drop_all. Qed.

Lemma not_accepted_closed {A} (a : A) (self : Consumer) (w : World) :
  ~ accepted self w (Ok a (closed self w)).
Proof.
  unfold accepted. rewrite new_effects_closed.
  intros H. apply list_elem_of_singleton in H. discriminate.
Qed.

Lemma accepted_joined {A} (a : A) (g : string) (self : Consumer) (w : World) :
  accepted self w (Ok a (joined g self w)).
Proof. unfold accepted. rewrite new_effects_joined. set_solver. Qed.

Lemma not_accepted_raise {A} (x : Exn) (self : Consumer) (w : World) :
  ~ accepted self w (@Raise A x w).
Proof.
  unfold accepted. rewrite new_effects_none by done. apply not_elem_of_nil.
Qed.

Lemma joined_registered (g : string) (self : Consumer) (w : World) :
  channel_name self ∈ groups (joined g self w) !!! g.
Proof. cbn. rewrite lookup_total_insert_eq. set_solver. Qed.

Lemma direct_authorized_iff (d : Database) (self : Consumer) :
  direct_authorized d self
  <-> exists user room_id,
        scope_user self = Authenticated user
        /\ Py.int (scope_id self) = Some room_id
        /\ QuerySet.exists_
             (List.filter
                (fun r => bool_decide (ChatRoom.id r = room_id)
                          && bool_decide (User.id user ∈ ChatRoom.participants r))
                (chat_rooms d)) = true.
Proof.
  split.
  - intros (user & room & Hu & Hin & Hid & Hp). exists user, (ChatRoom.id room).
    split; [done|]. split; [done|]. apply exists_filter. exists room.
    split; [done|]. by rewrite !bool_decide_eq_true_2.
  - intros (user & rid & Hu & Hid & Hex). apply exists_filter in Hex as (room & Hin & HP).
    apply andb_prop in HP as [H1 H2]. apply bool_decide_eq_true in H1, H2.
    exists user, room. by rewrite H1.
Qed.

Lemma course_authorized_iff (d : Database) (self : Consumer) :
  course_authorized d self
  <-> exists user course_id course,
        scope_user self = Authenticated user
        /\ Py.int (scope_id self) = Some course_id
        /\ QuerySet.by_pk Course.id (courses d) course_id = Some course
        /\ bool_decide (Course.teacher_id course = User.id user)
           || QuerySet.exists_
                (List.filter
                   (fun e =>
                      bool_decide (Enrollment.student_id e = User.id user)
                      && bool_decide (Enrollment.course_id e = Course.id course)
                      && bool_decide (Enrollment.status e = ACTIVE))
                   (enrollments d)) = true.
Proof.
  split.
  - intros (user & cid & course & Hu & Hid & Hc & Hacc).
    exists user, cid, course. split; [done|]. split; [done|]. split; [done|].
    apply orb_true_iff. destruct Hacc as [Ht|(e & Hin & H1 & H2 & H3)].
    + left. by apply bool_decide_eq_true_2.
    + right. apply exists_filter. exists e. split; [done|].
      by rewrite !bool_decide_eq_true_2.
  - intros (user & cid & course & Hu & Hid & Hc & Hacc).
    exists user, cid, course. split; [done|]. split; [done|]. split; [done|].
    apply orb_true_iff in Hacc as [Ht|Hex].
    + left. by apply bool_decide_eq_true in Ht.
    + right. apply exists_filter in Hex as (e & Hin & HP).
      apply andb_prop in HP as [HP H3]. apply andb_prop in HP as [H1 H2].
      apply bool_decide_eq_true in H1, H2, H3. by exists e.
Qed.

(** C1: the authorization check of the two consumers on connect. An anonymous caller is
    closed without being accepted. A direct-room connection is accepted iff
    the caller is among the participants of the room named in the URL; a
    course-room connection is accepted iff the course exists and the caller
    is its teacher or has an active enrollment for it. An accepted
    connection is in its room's group, and a connection that is not accepted
    leaves every group as it was. *)
Theorem connect_accepts_iff_authorized (self : Consumer) (w : World) :
  let direct := DirectChatConsumer.connect self w in
  let group := GroupChatConsumer.connect self w in
  (* an anonymous caller is closed without acceptance *)
  (scope_user self = AnonymousUser ->
   direct = Ok tt (closed self w) /\ group = Ok tt (closed self w))
  (* acceptance is authorization *)
  /\ (accepted self w direct <-> direct_authorized (db w) self)
  /\ (accepted self w group <-> course_authorized (db w) self)
  (* an accepted connection is in its room's group, no other one is added *)
  /\ (accepted self w direct ->
      channel_name self
        ∈ groups (world_of direct) !!! DirectChatConsumer.room_group_name self)
  /\ (accepted self w group ->
      channel_name self
        ∈ groups (world_of group) !!! GroupChatConsumer.room_group_name self)
  /\ (~ accepted self w direct -> groups (world_of direct) = groups w)
  /\ (~ accepted self w group -> groups (world_of group) = groups w).
Proof.
  cbv zeta. rewrite direct_connect_run, group_connect_run.
  rewrite direct_authorized_iff, course_authorized_iff.
  destruct (scope_user self) as [|user] eqn:Huser.
  { repeat split; try done.
    - intros H. by apply not_accepted_closed in H.
    - intros (? & ? & ? & _). discriminate.
    - intros H. by apply not_accepted_closed in H.
    - intros (? & ? & ? & ? & _). discriminate.
    - intros H. by apply not_accepted_closed in H.
    - intros H. by apply not_accepted_closed in H. }
  split; [done|].
  destruct (Py.int (scope_id self)) as [n|] eqn:Hint.
  2:{ repeat split; try done.
      - intros H. by apply not_accepted_raise in H.
      - intros (? & ? & _ & ? & _). discriminate.
      - intros H. by apply not_accepted_raise in H.
      - intros (? & ? & ? & _ & ? & _). discriminate.
      - intros H. by apply not_accepted_raise in H.
      - intros H. by apply not_accepted_raise in H. }
  assert (forall g, (accepted self w (Ok tt (joined g self w)) <-> True)) as Hj.
  { intros g. split; [done|]. intros _. apply accepted_joined. }
  assert (accepted self w (Ok tt (closed self w)) <-> False) as Hc.
  { split; [apply not_accepted_closed|done]. }
  split; [|split; [|split; [|split; [|split]]]].
  - destruct (QuerySet.exists_ _) eqn:Hex.
    + rewrite Hj. split; [|done]. intros _. exists user, n. by rewrite Hex.
    + rewrite Hc. split; [done|]. intros (u' & n' & Hu' & Hn' & Hex').
      injection Hu' as <-. injection Hn' as <-. by rewrite Hex in Hex'.
  - destruct (QuerySet.by_pk Course.id (courses (db w)) n) as [course|] eqn:Hcourse.
    + destruct (_ || _) eqn:Hacc.
      * rewrite Hj. split; [|done]. intros _. by exists user, n, course.
      * rewrite Hc. split; [done|].
        intros (u' & n' & c' & Hu' & Hn' & Hc' & Hacc').
        injection Hu' as <-. injection Hn' as <-.
        rewrite Hcourse in Hc'. injection Hc' as <-. by rewrite Hacc in Hacc'.
    + rewrite Hc. split; [done|].
      intros (u' & n' & c' & Hu' & Hn' & Hc' & _).
      injection Hn' as <-. by rewrite Hcourse in Hc'.
  - destruct (QuerySet.exists_ _).
    + intros _. apply joined_registered.
    + intros H. by apply Hc in H.
  - destruct (QuerySet.by_pk Course.id (courses (db w)) n) as [course|];
      [destruct (_ || _)|].
    + intros _. apply joined_registered.
    + intros H. by apply Hc in H.
    + intros H. by apply Hc in H.
  - destruct (QuerySet.exists_ _); [|done].
    intros H. destruct H. apply accepted_joined.
  - destruct (QuerySet.by_pk Course.id (courses (db w)) n) as [course|];
      [destruct (_ || _)|]; try done.
    intros H. destruct H. apply accepted_joined.
Qed.

(** *** The channel layer's fan-out *)

Lemma fan_out (ev : Event) (queues : gmap string (list Event))
    (members : gset string) (c : string) :
  set_fold (deliver ev) queues members !!! c
  = if bool_decide (c ∈ members) then queues !!! c ++ [ev] else queues !!! c.
Proof.
  set (P := fun (r : gmap string (list Event)) (X : gset string) =>
              forall c, r !!! c
                        = if bool_decide (c ∈ X) then queues !!! c ++ [ev]
                          else queues !!! c).
  enough (forall X, P (set_fold (deliver ev) queues X) X) as H by apply H.
  clear c members. apply set_fold_ind_L; unfold P.
  - intros c. rewrite bool_decide_eq_false_2; [done|]. apply not_elem_of_empty.
  - intros x X r Hx IH c. unfold deliver.
    destruct (decide (x = c)) as [->|Hne].
    + rewrite lookup_total_insert_eq, IH.
      rewrite bool_decide_eq_false_2 by done.
      rewrite bool_decide_eq_true_2; [done|].
      apply elem_of_union_l. by apply elem_of_singleton.
    + rewrite lookup_total_insert_ne by done. rewrite IH.
      destruct (decide (c ∈ X)) as [Hc|Hc].
      * rewrite (bool_decide_eq_true_2 (c ∈ X)) by done.
        rewrite bool_decide_eq_true_2; [done|]. by apply elem_of_union_r.
      * rewrite (bool_decide_eq_false_2 (c ∈ X)) by done.
        rewrite bool_decide_eq_false_2; [done|].
        intros [Hx'|Hc']%elem_of_union; [|done].
        apply elem_of_singleton in Hx'. by destruct Hne.
Qed.

(** *** Saving a message *)

Lemma Message_create_run (w : World) (room_id sender_id : Z)
    (content : string) :
  is_Some (QuerySet.by_pk ChatRoom.id (chat_rooms (db w)) room_id) ->
  Message_objects_create room_id sender_id content w
  = Ok (new_message w room_id sender_id content)
       (with_log
          (fun l => l ++ [Insert T_Message
                            (QuerySet.next_pk (Message.id <$> chat_messages (db w)))])
          (with_db
             (set_chat_messages
                (fun rows => rows ++ [new_message w room_id sender_id content]))
             w)).
Proof.
  intros [room Hroom]. unfold Message_objects_create. run. by rewrite Hroom.
Qed.

Lemma course_room_unique (rooms : list ChatRoom.t) (cid : Z) :
  ChatRoom_constraints rooms ->
  let q := List.filter
             (fun r => bool_decide (ChatRoom.course_id r = Some cid)
                       && bool_decide (ChatRoom.room_type r = COURSE)) rooms in
  (q = [] /\ existsb (fun r => bool_decide (ChatRoom.course_id r = Some cid)) rooms = false)
  \/ exists room, q = [room].
Proof.
  intros [Hnd Hty]. cbv zeta.
  induction rooms as [|a rooms IH]; [by left|].
  apply Forall_cons in Hty as [Ha Hty]. cbn.
  destruct (bool_decide (ChatRoom.course_id a = Some cid)) eqn:Hca.
  - apply bool_decide_eq_true in Hca.
    rewrite bool_decide_eq_true_2 by (apply Ha; by rewrite Hca). cbn.
    right. exists a. f_equal. apply filter_none. intros x Hx.
    rewrite bool_decide_eq_false_2; [done|]. intros Hcx.
    cbn in Hnd. rewrite Hca in Hnd. cbn in Hnd. apply NoDup_cons in Hnd as [Hnin _].
    apply Hnin. apply list_elem_of_omap. by exists x.
  - cbn. apply IH; [|done].
    cbn in Hnd. destruct (ChatRoom.course_id a); [|done].
    cbn in Hnd. by apply NoDup_cons in Hnd as [_ ?].
Qed.

Lemma receive_json_empty (isoformat : datetime -> string)
    (save : Consumer -> string -> M Message.t) (name : Consumer -> string)
    (self : Consumer) (members : list (string * Py.Json)) (s : string)
    (w : World) :
  Py.dict_get members "message" (Py.JString EmptyString) = Py.JString s ->
  Py.truthy (Py.strip s) = false ->
  receive_json_with isoformat save name self (Py.JObject members) w = Ok tt w.
Proof.
  intros Hget Hempty. unfold receive_json_with, message_text_of.
  rewrite Hget. run. by rewrite Hempty.
Qed.

Lemma receive_json_saved (isoformat : datetime -> string)
    (save : Consumer -> string -> M Message.t) (name : Consumer -> string)
    (self : Consumer) (user : User.t) (members : list (string * Py.Json))
    (s : string) (w w1 : World) (m : Message.t) :
  scope_user self = Authenticated user ->
  Py.dict_get members "message" (Py.JString EmptyString) = Py.JString s ->
  Py.truthy (Py.strip s) = true ->
  save self (Py.strip s) w = Ok m w1 ->
  receive_json_with isoformat save name self (Py.JObject members) w
  = Ok tt
      (with_log
         (fun l => l ++ [GroupSend (name self)
                           (broadcast_event isoformat user (Py.strip s) m)])
         (with_inbox
            (fun q => set_fold
                        (deliver (broadcast_event isoformat user (Py.strip s) m))
                        q (groups w1 !!! name self)) w1)).
Proof.
  intros Hu Hget Htext Hsave. unfold receive_json_with, message_text_of.
  rewrite Hget. run. rewrite Htext. cbn [negb]. rewrite Hsave.
  rewrite Hu. reflexivity.
Qed.

Lemma direct_save_message (self : Consumer) (user : User.t) (room : ChatRoom.t)
    (text : string) (w : World) :
  scope_user self = Authenticated user ->
  room ∈ chat_rooms (db w) ->
  Py.int (scope_id self) = Some (ChatRoom.id room) ->
  exists w1,
    DirectChatConsumer.save_message self text w
      = Ok (new_message w (ChatRoom.id room) (User.id user) text) w1
    /\ chat_messages (db w1)
       = chat_messages (db w) ++ [new_message w (ChatRoom.id room) (User.id user) text]
    /\ chat_rooms (db w1) = chat_rooms (db w)
    /\ groups w1 = groups w
    /\ inbox w1 = inbox w
    /\ log w1
       = log w ++ [Insert T_Message
                     (QuerySet.next_pk (Message.id <$> chat_messages (db w)))].
Proof.
  intros Hu Hin Hid. unfold DirectChatConsumer.save_message, sender_of.
  rewrite Hid, Hu. run. rewrite Message_create_run by by apply by_pk_elem_of.
  eexists. split; [reflexivity|]. done.
Qed.

Lemma group_save_message (self : Consumer) (user : User.t) (course_id : Z)
    (course : Course.t) (text : string) (w : World) :
  scope_user self = Authenticated user ->
  Py.int (scope_id self) = Some course_id ->
  QuerySet.by_pk Course.id (courses (db w)) course_id = Some course ->
  ChatRoom_constraints (chat_rooms (db w)) ->
  exists room pre w1,
    GroupChatConsumer.save_message self text w
      = Ok (new_message w (ChatRoom.id room) (User.id user) text) w1
    /\ chat_messages (db w1)
       = chat_messages (db w) ++ [new_message w (ChatRoom.id room) (User.id user) text]
    /\ room ∈ chat_rooms (db w1)
    /\ ChatRoom.room_type room = COURSE
    /\ ChatRoom.course_id room = Some course_id
    /\ groups w1 = groups w
    /\ inbox w1 = inbox w
    /\ log w1
       = log w ++ pre
           ++ [Insert T_Message
                 (QuerySet.next_pk (Message.id <$> chat_messages (db w)))]
    /\ ((* the course has its room already *)
        (pre = [] /\ chat_rooms (db w1) = chat_rooms (db w))
        (* or no room has this course, and one is created *)
        \/ (pre = [Insert T_ChatRoom (ChatRoom.id room)]
            /\ room = new_course_room w course_id
                        ("Course " +:+ scope_id self +:+ " Chat")
            /\ chat_rooms (db w1) = chat_rooms (db w) ++ [room])).
Proof.
  intros Hu Hid Hc Hcons.
  destruct (course_room_unique _ course_id Hcons) as [[Hq Hnone]|[room Hq]].
  - exists (new_course_room w course_id ("Course " +:+ scope_id self +:+ " Chat")).
    unfold GroupChatConsumer.save_message, ChatRoom_objects_get_or_create,
      ChatRoom_objects_create, sender_of.
    rewrite Hid, Hu. run. rewrite Hq. run. rewrite Hc, Hnone.
    rewrite bool_decide_eq_true_2 by by eexists. cbn [andb negb fst].
    erewrite Message_create_run.
    + eexists [_], _. split; [reflexivity|]. cbn.
      split; [done|]. split; [set_solver|]. split; [done|]. split; [done|].
      split; [done|]. split; [done|]. split; [by rewrite <- app_assoc|].
      right. done.
    + cbn. apply (by_pk_elem_of ChatRoom.id _
                    (new_course_room w course_id ("Course " +:+ scope_id self +:+ " Chat"))).
      set_solver.
  - exists room, [].
    destruct (filter_singleton_elem _ _ _ Hq) as [Hin HP].
    apply andb_prop in HP as [H1 H2]. apply bool_decide_eq_true in H1, H2.
    unfold GroupChatConsumer.save_message, ChatRoom_objects_get_or_create, sender_of.
    rewrite Hid, Hu. run. rewrite Hq. run. cbn [fst].
    rewrite Message_create_run by by apply by_pk_elem_of.
    eexists. split; [reflexivity|]. cbn. repeat (split; [done|]). by left.
Qed.

Lemma delivered_after_save (isoformat : datetime -> string) (w w1 : World)
    (group : string) (user : User.t) (text : string) (m : Message.t) :
  chat_messages (db w1) = chat_messages (db w) ++ [m] ->
  Message.id m = QuerySet.next_pk (Message.id <$> chat_messages (db w)) ->
  Message.sender_id m = User.id user ->
  Message.content m = text ->
  Message.timestamp m = now w ->
  groups w1 = groups w ->
  inbox w1 = inbox w ->
  stored_and_delivered w
    (with_log
       (fun l => l ++ [GroupSend group (broadcast_event isoformat user text m)])
       (with_inbox
          (fun q => set_fold (deliver (broadcast_event isoformat user text m))
                             q (groups w1 !!! group)) w1))
    group user text m (broadcast_event isoformat user text m).
Proof.
  intros Hm Hid Hs Hc Ht Hg Hi. unfold stored_and_delivered. cbn.
  split; [done|]. split; [rewrite Hid; apply next_pk_fresh|].
  repeat (split; [done|]). intros c. by rewrite fan_out, Hg, Hi.
Qed.

(** C2: a frame received on an open, authorized connection. When the
    [message] field, stripped, is empty, the world is unchanged: no row, no
    event. Otherwise exactly one Message row is added, with the room, the
    sender and the stripped text; after it, one event with the text, the
    sender's id and user name and the row's timestamp in ISO format is put in
    the queue of every channel of the room's group and of no other channel;
    the sender's own channel, being in the group, receives it too. The
    course consumer creates the course's room first when it is missing. *)
Theorem receive_json_persists_then_broadcasts
    (isoformat : datetime -> string) (self : Consumer) (user : User.t)
    (members : list (string * Py.Json)) (s : string) (w : World) :
  scope_user self = Authenticated user ->
  Py.dict_get members "message" (Py.JString EmptyString) = Py.JString s ->
  let text := Py.strip s in
  (* the direct consumer *)
  (direct_authorized (db w) self ->
   let group := DirectChatConsumer.room_group_name self in
   let r := DirectChatConsumer_receive_json isoformat self (Py.JObject members) w in
   if Py.truthy text then
     exists m w',
       let ev := broadcast_event isoformat user text m in
       r = Ok tt w'
       /\ stored_and_delivered w w' group user text m ev
       /\ Py.int (scope_id self) = Some (Message.room_id m)
       /\ chat_rooms (db w') = chat_rooms (db w)
       /\ log w' = log w ++ [Insert T_Message (Message.id m); GroupSend group ev]
       /\ (channel_name self ∈ groups w !!! group ->
           inbox w' !!! channel_name self = inbox w !!! channel_name self ++ [ev])
       /\ chat_message ev
          = mkFrame text (User.id user) (User.username user)
                    (isoformat (Message.timestamp m))
   else r = Ok tt w)
  (* the group consumer *)
  /\ (course_authorized (db w) self ->
      ChatRoom_constraints (chat_rooms (db w)) ->
      let group := GroupChatConsumer.room_group_name self in
      let r := GroupChatConsumer_receive_json isoformat self (Py.JObject members) w in
      if Py.truthy text then
        exists m w' room pre,
          let ev := broadcast_event isoformat user text m in
          r = Ok tt w'
          /\ stored_and_delivered w w' group user text m ev
          /\ room ∈ chat_rooms (db w')
          /\ Message.room_id m = ChatRoom.id room
          /\ ChatRoom.room_type room = COURSE
          /\ ChatRoom.course_id room = Py.int (scope_id self)
          /\ log w' = log w ++ pre ++ [Insert T_Message (Message.id m); GroupSend group ev]
          /\ (pre = [] \/ pre = [Insert T_ChatRoom (ChatRoom.id room)])
          /\ (channel_name self ∈ groups w !!! group ->
              inbox w' !!! channel_name self = inbox w !!! channel_name self ++ [ev])
          /\ chat_message ev
             = mkFrame text (User.id user) (User.username user)
                       (isoformat (Message.timestamp m))
      else r = Ok tt w).
Proof.
  intros Hu Hget. cbv zeta.
  unfold DirectChatConsumer_receive_json, GroupChatConsumer_receive_json.
  destruct (Py.truthy (Py.strip s)) eqn:Htext.
  2:{ split; intros; by apply receive_json_empty with (s := s). }
  split.
  - intros (user' & room & Hu' & Hin & Hid & _). clear Hu'.
    destruct (direct_save_message self user room (Py.strip s) w Hu Hin Hid)
      as (w1 & Hsave & Hm & Hrooms & Hg & Hi & Hlog).
    pose proof (delivered_after_save isoformat w w1
                  (DirectChatConsumer.room_group_name self) user (Py.strip s) _
                  Hm eq_refl eq_refl eq_refl eq_refl Hg Hi) as Hsd.
    eexists _, _. split; [by eapply receive_json_saved|].
    split; [exact Hsd|]. split; [done|]. split; [done|].
    split; [cbn; by rewrite Hlog, <- app_assoc|].
    split; [|done].
    intros Hopen. destruct Hsd as (_ & _ & _ & _ & _ & _ & Hbox).
    rewrite Hbox. by rewrite bool_decide_eq_true_2.
  - intros (user' & cid & course & Hu' & Hid & Hc & _) Hcons. clear Hu'.
    destruct (group_save_message self user cid course (Py.strip s) w Hu Hid Hc Hcons)
      as (room & pre & w1 & Hsave & Hm & Hin & Hty & Hcr & Hg & Hi & Hlog & Hpre).
    pose proof (delivered_after_save isoformat w w1
                  (GroupChatConsumer.room_group_name self) user (Py.strip s) _
                  Hm eq_refl eq_refl eq_refl eq_refl Hg Hi) as Hsd.
    eexists _, _, room, pre. split; [by eapply receive_json_saved|].
    split; [exact Hsd|]. split; [done|]. split; [done|]. split; [done|].
    split; [by rewrite Hid|].
    split; [cbn; by rewrite Hlog, <- !app_assoc|].
    split; [destruct Hpre as [[-> _]|[-> _]]; [by left|by right]|].
    split; [|done].
    intros Hopen. destruct Hsd as (_ & _ & _ & _ & _ & _ & Hbox).
    rewrite Hbox. by rewrite bool_decide_eq_true_2.
Qed.

(** Alice writes to bob, and tom writes the first message of the Logic chat. *)
Lemma receive_json_witness :
  (exists m w',
     DirectChatConsumer_receive_json Sample.micros Sample.alice_phone
       (Py.JObject Sample.hello) Sample.chat = Ok tt w'
     /\ chat_messages (db w') = [m]
     /\ Message.content m = "hello"
     /\ inbox w' !!! "alice-phone"
        = [mkEvent "chat.message" "hello" 1 "alice" "1000"])
  /\ (exists m w' room,
        GroupChatConsumer_receive_json Sample.micros Sample.tom_desk
          (Py.JObject Sample.hello) Sample.chat = Ok tt w'
        /\ chat_messages (db w') = [m]
        /\ room ∈ chat_rooms (db w')
        /\ Message.room_id m = ChatRoom.id room
        /\ ChatRoom.course_id room = Some 5).
Proof.
  destruct (receive_json_persists_then_broadcasts
              Sample.micros Sample.alice_phone Sample.alice Sample.hello
              "  hello " Sample.chat eq_refl eq_refl) as [Hdirect _].
  destruct (receive_json_persists_then_broadcasts
              Sample.micros Sample.tom_desk Sample.tom Sample.hello
              "  hello " Sample.chat eq_refl eq_refl) as [_ Hgroup].
  split.
  - assert (direct_authorized (db Sample.chat) Sample.alice_phone) as Hauth.
    { exists Sample.alice, Sample.alice_bob_room.
      split; [reflexivity|]. split; [left|]. split; [reflexivity|]. left. }
    destruct (Hdirect Hauth)
      as (m & w' & Hrun & (Hm & _ & _ & Hc & Ht & _ & _) & _ & _ & _ & Hown & _).
    exists m, w'. split; [exact Hrun|]. split; [exact Hm|]. split; [exact Hc|].
    transitivity
      (inbox Sample.chat !!! channel_name Sample.alice_phone
         ++ [broadcast_event Sample.micros Sample.alice (Py.strip "  hello ") m]).
    { apply Hown. compute_done. }
    unfold broadcast_event. rewrite Ht. reflexivity.
  - assert (course_authorized (db Sample.chat) Sample.tom_desk) as Hauth.
    { exists Sample.tom, 5, Sample.logic.
      split; [reflexivity|]. split; [reflexivity|]. split; [reflexivity|].
      by left. }
    assert (ChatRoom_constraints (chat_rooms (db Sample.chat))) as Hcons.
    { split; [constructor|]. apply Forall_singleton. by intros [? ?]. }
    destruct (Hgroup Hauth Hcons)
      as (m & w' & room & pre & Hrun & (Hm & _) & Hin & Hroom & _ & Hcourse & _).
    by exists m, w', room.
Defined.

Lemma group_connect_keeps_db (self : Consumer) (w : World) :
  db (world_of (GroupChatConsumer.connect self w)) = db w.
Proof.
  rewrite group_connect_run.
  destruct (scope_user self); [done|].
  destruct (Py.int (scope_id self)); [|done].
  destruct (QuerySet.by_pk _ _ _); [|done].
  by destruct (_ || _).
Qed.

(** C8 (amended): the course room is created lazily by the first message,
    not by the connection. On an authorized course-room connection for a
    course without a room, [connect] accepts and leaves the tables as they
    were; the first non-empty message then creates the room through
    get-or-create on (course id, room type course), named
    "Course <id> Chat". *)
Theorem course_room_created_by_first_message
    (isoformat : datetime -> string) (self : Consumer) (user : User.t)
    (course_id : Z) (members : list (string * Py.Json)) (s : string)
    (w : World) :
  scope_user self = Authenticated user ->
  Py.int (scope_id self) = Some course_id ->
  course_authorized (db w) self ->
  ChatRoom_constraints (chat_rooms (db w)) ->
  (* the course has no room yet *)
  Forall (fun r => ChatRoom.course_id r <> Some course_id) (chat_rooms (db w)) ->
  Py.dict_get members "message" (Py.JString EmptyString) = Py.JString s ->
  Py.truthy (Py.strip s) = true ->
  exists w1 w2,
    (* the connection is accepted and the tables are as before *)
    GroupChatConsumer.connect self w = Ok tt w1
    /\ accepted self w (Ok tt w1)
    /\ db w1 = db w
    (* the first message creates the room *)
    /\ GroupChatConsumer_receive_json isoformat self (Py.JObject members) w1
       = Ok tt w2
    /\ chat_rooms (db w2)
       = chat_rooms (db w)
           ++ [ChatRoom.mk (QuerySet.next_pk (ChatRoom.id <$> chat_rooms (db w)))
                           ("Course " +:+ scope_id self +:+ " Chat")
                           COURSE (Some course_id) [] (now w)].
Proof.
  intros Hu Hid Hauth Hcons Hnone Hget Htext.
  pose proof Hauth as Hauth'.
  apply course_authorized_iff in Hauth' as (u' & cid & course & Hu' & Hid' & Hc & Hacc).
  rewrite Hu in Hu'. injection Hu' as <-.
  rewrite Hid in Hid'. injection Hid' as <-.
  set (w1 := joined (GroupChatConsumer.room_group_name self) self w).
  assert (GroupChatConsumer.connect self w = Ok tt w1) as Hconn.
  { rewrite group_connect_run, Hu, Hid, Hc. by rewrite Hacc. }
  destruct (group_save_message self user course_id course (Py.strip s) w1 Hu Hid Hc Hcons)
    as (room & pre & w1' & Hsave & _ & Hin & _ & Hcr & _ & _ & _ & Hpre).
  exists w1. eexists. split; [done|]. split; [apply accepted_joined|].
  split.
  { pose proof (group_connect_keeps_db self w) as Hkept.
    by rewrite Hconn in Hkept. }
  split; [unfold GroupChatConsumer_receive_json; by eapply receive_json_saved|].
  cbn. destruct Hpre as [[_ Hrooms]|(_ & -> & Hrooms)].
  - exfalso. rewrite Hrooms in Hin.
    by apply (proj1 (Forall_forall _ _) Hnone room Hin).
  - exact Hrooms.
Qed.

(** Tom connects to the Logic chat and writes its first message. *)
Lemma course_room_created_by_first_message_witness :
  exists w1 w2,
    GroupChatConsumer.connect Sample.tom_desk Sample.term = Ok tt w1
    /\ chat_rooms (db w1) = []
    /\ GroupChatConsumer_receive_json Sample.micros Sample.tom_desk
         (Py.JObject Sample.hello) w1 = Ok tt w2
    /\ chat_rooms (db w2)
       = [ChatRoom.mk 1 "Course 5 Chat" COURSE (Some 5) [] 1000].
Proof.
  destruct (course_room_created_by_first_message
              Sample.micros Sample.tom_desk Sample.tom 5 Sample.hello "  hello "
              Sample.term)
    as (w1 & w2 & Hconn & _ & Hdb & Hrecv & Hrooms).
  - reflexivity.
  - reflexivity.
  - exists Sample.tom, 5, Sample.logic.
    split; [reflexivity|]. split; [reflexivity|]. split; [reflexivity|]. by left.
  - split; constructor.
  - constructor.
  - reflexivity.
  - reflexivity.
  - exists w1, w2. split; [exact Hconn|]. split; [by rewrite Hdb|].
    split; [exact Hrecv|exact Hrooms].
Defined.

(** C8, as stated, fails here: tom, the teacher of Logic, connects to its
    chat while the course has no room; the connection is accepted and there
    is still no room. *)
Lemma connect_creates_no_room :
  List.filter (fun r => bool_decide (ChatRoom.course_id r = Some 5))
              (chat_rooms (db Sample.term)) = []
  /\ new_effects Sample.term (GroupChatConsumer.connect Sample.tom_desk Sample.term)
     = [GroupAdd "course_chat_5" "tom-desk"; Accept "tom-desk"]
  /\ chat_rooms
       (db (world_of (GroupChatConsumer.connect Sample.tom_desk Sample.term)))
     = [].
Proof. vm_compute. done. Qed.

Lemma filter_filter {A} (P Q : A -> bool) (l : list A) :
  List.filter P (List.filter Q l) = List.filter (fun x => Q x && P x) l.
Proof.
  induction l as [|a l IH]; [done|]. cbn.
  destruct (Q a); cbn; [destruct (P a)|]; by rewrite IH.
Qed.

Lemma direct_rooms_between_comm (d : Database) (a b : Z) :
  direct_rooms_between d a b = direct_rooms_between d b a.
Proof.
  unfold direct_rooms_between. rewrite !filter_filter. f_equal.
  apply filter_ext_in. intros r _.
  destruct (bool_decide (ChatRoom.room_type r = DIRECT)),
    (bool_decide (a ∈ ChatRoom.participants r)),
    (bool_decide (b ∈ ChatRoom.participants r)); done.
Qed.

Lemma direct_room_count_comm (d : Database) (a b : Z) :
  direct_room_count d a b = direct_room_count d b a.
Proof. unfold direct_room_count. by rewrite direct_rooms_between_comm. Qed.

Lemma map_update_fresh {A} (pk_of : A -> Z) (f : A -> A) (l : list A) (pk : Z) :
  pk ∉ (pk_of <$> l) ->
  map (fun r => if bool_decide (pk_of r = pk) then f r else r) l = l.
Proof.
  induction l as [|a l IH]; [done|]. intros Hnin. cbn.
  rewrite fmap_cons in Hnin. apply not_elem_of_cons in Hnin as [Hne Hnin].
  rewrite bool_decide_eq_false_2 by done. by rewrite IH.
Qed.

Lemma DirectMessageView_get_run (w : World) (me other : User.t) (peer : Z) :
  QuerySet.by_pk User.id (users (db w)) peer = Some other ->
  User.id other <> User.id me ->
  match QuerySet.first (direct_rooms_between (db w) (User.id me) (User.id other)) with
  | Some room =>
      DirectMessageView_get (Authenticated me) peer w
      = Ok (render "chat/chat_room.html" room (load_message_history (db w) room)) w
  | None =>
      exists room0 w',
        DirectMessageView_get (Authenticated me) peer w
          = Ok (render "chat/chat_room.html" room0 (load_message_history (db w') room0)) w'
        /\ ChatRoom.id room0 = ChatRoom.id (new_direct_room w me other)
        /\ chat_rooms (db w') = chat_rooms (db w) ++ [new_direct_room w me other]
        /\ users (db w') = users (db w)
  end.
Proof.
  intros Hother Hne.
  unfold DirectMessageView_get, get_User_or_404. run. rewrite Hother. run.
  rewrite bool_decide_eq_false_2 by done. run.
  destruct (QuerySet.first _) as [room|] eqn:Hfirst; [done|].
  unfold ChatRoom_objects_create, ChatRoom_participants_add. run.
  eexists _, _. split; [reflexivity|]. cbn. split; [done|]. split; [|done].
  rewrite map_app. cbn. rewrite bool_decide_eq_true_2 by done.
  rewrite map_update_fresh by apply next_pk_fresh.
  f_equal. unfold add_participant. cbn.
  rewrite (bool_decide_eq_false_2 (User.id me ∈ []))
    by apply not_elem_of_nil.
  cbn.
  rewrite (bool_decide_eq_false_2 (User.id other ∈ [User.id me])); [done|].
  intros Hin. apply list_elem_of_singleton in Hin. by destruct Hne.
Qed.

Lemma direct_rooms_between_app (d d' : Database) (a b : Z) (room : ChatRoom.t) :
  chat_rooms d' = chat_rooms d ++ [room] ->
  ChatRoom.room_type room = DIRECT ->
  a ∈ ChatRoom.participants room ->
  b ∈ ChatRoom.participants room ->
  direct_rooms_between d a b = [] ->
  direct_rooms_between d' a b = [room].
Proof.
  intros Hrooms Hty Ha Hb Hnone. unfold direct_rooms_between in *.
  apply (f_equal length) in Hnone. rewrite order_by_length in Hnone.
  apply nil_length_inv in Hnone.
  rewrite Hrooms, !List.filter_app, Hnone. cbn.
  rewrite !bool_decide_eq_true_2 by done. cbn.
  by rewrite !bool_decide_eq_true_2 by done.
Qed.

Lemma first_None_between (d : Database) (a b : Z) :
  QuerySet.first (direct_rooms_between d a b) = None ->
  direct_rooms_between d a b = [].
Proof.
  unfold QuerySet.first. by destruct (direct_rooms_between d a b).
Qed.

Lemma first_between_stored (d : Database) (a b : Z) (room : ChatRoom.t) :
  QuerySet.first (direct_rooms_between d a b) = Some room ->
  room ∈ chat_rooms d
  /\ ChatRoom.room_type room = DIRECT
  /\ a ∈ ChatRoom.participants room
  /\ b ∈ ChatRoom.participants room.
Proof.
  intros Hfirst.
  assert (room ∈ direct_rooms_between d a b) as Hin.
  { unfold QuerySet.first in Hfirst.
    destruct (direct_rooms_between d a b) as [|r rs]; [done|].
    injection Hfirst as ->. left. }
  unfold direct_rooms_between in Hin. rewrite order_by_Permutation in Hin.
  apply elem_of_filter in Hin as [Hin Hb].
  apply elem_of_filter in Hin as [Hin Hta].
  apply andb_prop in Hta as [Hty Ha].
  apply bool_decide_eq_true in Hb, Hty, Ha. done.
Qed.

Lemma first_Some_count (d : Database) (a b : Z) (room : ChatRoom.t) :
  QuerySet.first (direct_rooms_between d a b) = Some room ->
  (0 < direct_room_count d a b)%nat.
Proof.
  unfold QuerySet.first, direct_room_count.
  destruct (direct_rooms_between d a b); [done|]. cbn. lia.
Qed.

(** One request between the two users: the pair has a room afterwards, and
    a new one only if it had none. *)
Lemma dm_step_exact (w : World) (me : User.t) (peer a b : Z) :
  (User.id me = a /\ peer = b) \/ (User.id me = b /\ peer = a) ->
  a <> b ->
  is_Some (QuerySet.by_pk User.id (users (db w)) peer) ->
  direct_room_count
    (db (world_of (DirectMessageView_get (Authenticated me) peer w))) a b
  = Nat.max 1 (direct_room_count (db w) a b)
  /\ users (db (world_of (DirectMessageView_get (Authenticated me) peer w)))
     = users (db w).
Proof.
  intros Hpair Hab [other Hother].
  assert (forall d, direct_room_count d a b
                    = direct_room_count d (User.id me) peer) as Hsym.
  { intros d. destruct Hpair as [[-> ->]|[-> ->]]; [done|apply direct_room_count_comm]. }
  rewrite !Hsym.
  destruct (by_pk_Some _ _ _ _ Hother) as [_ Hpeer].
  assert (User.id other <> User.id me) as Hne.
  { rewrite Hpeer. destruct Hpair as [[-> ->]|[-> ->]]; congruence. }
  pose proof (DirectMessageView_get_run w me other peer Hother Hne) as Hrun.
  clear Hsym Hpair. subst peer.
  destruct (QuerySet.first _) as [room|] eqn:Hfirst.
  - rewrite Hrun. cbn [world_of]. split; [|done].
    apply first_Some_count in Hfirst. lia.
  - destruct Hrun as (room0 & w' & -> & _ & Hrooms & Husers). cbn [world_of].
    split; [|done].
    apply first_None_between in Hfirst.
    unfold direct_room_count.
    rewrite (direct_rooms_between_app (db w) (db w') _ _ _ Hrooms); cbn; try done.
    + by rewrite Hfirst.
    + set_solver.
    + set_solver.
Qed.

(** C5: the direct-room bootstrap is symmetric and idempotent. For two
    distinct stored users A and B, the page requested by A for B and then by
    B for A shows the same room, which is stored as a direct room with both
    of them among its participants; the first request creates it only if the
    pair had none, and the second changes nothing.  After any run of such
    requests the pair has a direct room, and has one only unless it had more
    before.  A request for oneself is redirected to the room list and changes
    nothing. *)
Theorem direct_room_bootstrap (w : World) (a b : User.t) :
  is_Some (QuerySet.by_pk User.id (users (db w)) (User.id a)) ->
  is_Some (QuerySet.by_pk User.id (users (db w)) (User.id b)) ->
  User.id a <> User.id b ->
  (* A for B, then B for A: the same room, stored for the two of them *)
  (exists room1 history1 w1 room2 history2,
     DirectMessageView_get (Authenticated a) (User.id b) w
       = Ok (render "chat/chat_room.html" room1 history1) w1
     /\ DirectMessageView_get (Authenticated b) (User.id a) w1
        = Ok (render "chat/chat_room.html" room2 history2) w1
     /\ ChatRoom.id room1 = ChatRoom.id room2
     /\ room2 ∈ chat_rooms (db w1)
     /\ ChatRoom.room_type room2 = DIRECT
     /\ User.id a ∈ ChatRoom.participants room2
     /\ User.id b ∈ ChatRoom.participants room2
     (* the first request creates the room only if the pair had none *)
     /\ (direct_room_count (db w) (User.id a) (User.id b) = 0%nat ->
         length (chat_rooms (db w1)) = S (length (chat_rooms (db w))))
     /\ ((0 < direct_room_count (db w) (User.id a) (User.id b))%nat -> w1 = w))
  (* any run of requests between the two leaves the pair with one room,
     unless there were more to begin with *)
  /\ (forall reqs,
        Forall (fun req => (User.id req.1 = User.id a /\ req.2 = User.id b)
                           \/ (User.id req.1 = User.id b /\ req.2 = User.id a))
               reqs ->
        (direct_room_count (db (dm_requests reqs w)) (User.id a) (User.id b)
         <= Nat.max 1 (direct_room_count (db w) (User.id a) (User.id b)))%nat
        /\ (reqs <> [] ->
            direct_room_count (db (dm_requests reqs w)) (User.id a) (User.id b)
            = Nat.max 1 (direct_room_count (db w) (User.id a) (User.id b))))
  (* a request for oneself is redirected and creates nothing *)
  /\ DirectMessageView_get (Authenticated a) (User.id a) w
     = Ok (redirect "chat-room-list" None) w.
Proof.
  intros [sa Hsa] [sb Hsb] Hab.
  destruct (by_pk_Some _ _ _ _ Hsa) as [_ Hida].
  destruct (by_pk_Some _ _ _ _ Hsb) as [_ Hidb].
  split; [|split].
  - pose proof (DirectMessageView_get_run w a sb (User.id b) Hsb) as Hrun1.
    rewrite Hidb in Hrun1. specialize (Hrun1 (not_eq_sym Hab)).
    destruct (QuerySet.first (direct_rooms_between (db w) (User.id a) (User.id b)))
      as [room|] eqn:Hfirst.
    + pose proof (DirectMessageView_get_run w b sa (User.id a) Hsa) as Hrun2.
      rewrite Hida in Hrun2. specialize (Hrun2 Hab).
      rewrite <- direct_rooms_between_comm, Hfirst in Hrun2.
      destruct (first_between_stored _ _ _ _ Hfirst) as (Hin & Hty & Ha & Hb).
      pose proof (first_Some_count _ _ _ _ Hfirst) as Hcount.
      eexists room, _, w, room, _. split; [exact Hrun1|]. split; [exact Hrun2|].
      repeat split; try done. intros H0. lia.
    + destruct Hrun1 as (room0 & w1 & Hrun1 & Hid0 & Hrooms & Husers).
      rewrite <- Husers in Hsa.
      pose proof (DirectMessageView_get_run w1 b sa (User.id a) Hsa) as Hrun2.
      rewrite Hida in Hrun2. specialize (Hrun2 Hab).
      apply first_None_between in Hfirst.
      pose proof Hfirst as Hnone.
      rewrite direct_rooms_between_comm in Hfirst.
      rewrite (direct_rooms_between_app (db w) (db w1) _ _ _ Hrooms) in Hrun2;
        [|done|cbn; set_solver|cbn; set_solver|done].
      cbn [QuerySet.first head] in Hrun2.
      eexists room0, _, w1, _, _. split; [exact Hrun1|]. split; [exact Hrun2|].
      split; [done|]. split; [rewrite Hrooms; set_solver|].
      split; [done|]. split; [cbn; set_solver|].
      split; [cbn; rewrite Hidb; set_solver|].
      split.
      * intros _. rewrite Hrooms, length_app. cbn. lia.
      * unfold direct_room_count. rewrite Hnone. cbn. lia.
  - intros reqs Hreqs.
    assert (reqs = [] \/
            direct_room_count (db (dm_requests reqs w)) (User.id a) (User.id b)
            = Nat.max 1 (direct_room_count (db w) (User.id a) (User.id b)))
      as Hexact.
    { assert (is_Some (QuerySet.by_pk User.id (users (db w)) (User.id a))) as Ha
        by by eexists.
      assert (is_Some (QuerySet.by_pk User.id (users (db w)) (User.id b))) as Hb
        by by eexists.
      clear Hsa Hsb Hida Hidb sa sb. revert w Ha Hb.
      induction Hreqs as [|[me peer] reqs Hreq Hreqs IH]; intros w Ha Hb;
        [by left|right].
      cbn [dm_requests]. cbn in Hreq.
      destruct (dm_step_exact w me peer (User.id a) (User.id b) Hreq Hab)
        as [Hstep Husers].
      { destruct Hreq as [[_ ->]|[_ ->]]; done. }
      destruct (IH (world_of (DirectMessageView_get (Authenticated me) peer w)))
        as [->|Hrest].
      - by rewrite Husers.
      - by rewrite Husers.
      - done.
      - rewrite Hrest, Hstep. lia. }
    split.
    + destruct Hexact as [Hnil|Heq]; [rewrite Hnil; cbn [dm_requests]|]; lia.
    + intros Hne. by destruct Hexact.
  - unfold DirectMessageView_get, get_User_or_404. run. rewrite Hsa. run.
    by rewrite bool_decide_eq_true_2.
Qed.

(** Alice opens the conversation with bob, bob opens it with alice: both
    see room 1, which holds the two of them, and a third request leaves the
    pair with that one room. *)
Lemma direct_room_bootstrap_witness :
  (exists room1 history1 w1 room2 history2,
     DirectMessageView_get (Authenticated Sample.alice) 2 Sample.campus
       = Ok (render "chat/chat_room.html" room1 history1) w1
     /\ DirectMessageView_get (Authenticated Sample.bob) 1 w1
        = Ok (render "chat/chat_room.html" room2 history2) w1
     /\ ChatRoom.id room1 = ChatRoom.id room2
     /\ room2 ∈ chat_rooms (db w1)
     /\ (1 : Z) ∈ ChatRoom.participants room2
     /\ (2 : Z) ∈ ChatRoom.participants room2
     /\ length (chat_rooms (db w1)) = 1%nat)
  /\ direct_room_count
       (db (dm_requests
              [(Sample.alice, 2%Z); (Sample.bob, 1%Z); (Sample.alice, 2%Z)]
              Sample.campus)) 1%Z 2%Z = 1%nat
  /\ DirectMessageView_get (Authenticated Sample.alice) 1 Sample.campus
     = Ok (redirect "chat-room-list" None) Sample.campus.
Proof.
  destruct (direct_room_bootstrap Sample.campus Sample.alice Sample.bob)
    as (Hsym & Hcount & Hself).
  - by eexists.
  - by eexists.
  - discriminate.
  - split; [|split; [|exact Hself]].
    + destruct Hsym as (room1 & history1 & w1 & room2 & history2
                        & H1 & H2 & Hid & Hin & _ & Ha & Hb & Hnew & _).
      exists room1, history1, w1, room2, history2.
      split; [exact H1|]. split; [exact H2|]. split; [exact Hid|].
      split; [exact Hin|]. split; [exact Ha|]. split; [exact Hb|].
      exact (Hnew eq_refl).
    + destruct (Hcount [(Sample.alice, 2); (Sample.bob, 1); (Sample.alice, 2)])
        as [_ Hexact].
      * repeat constructor; cbn; tauto.
      * apply Hexact. discriminate.
Defined.

Section BulkCreate.
Variables (notification_type title message link : string) (t : datetime).

Let draft (student_id : Z) : Z -> datetime -> Notification.t :=
  Notification_new student_id notification_type title message link.

Lemma assign_pks_recipients (ids : list Z) (pk : Z) :
  Notification.recipient_id <$> QuerySet.assign_pks pk t (draft <$> ids) = ids.
Proof.
  revert pk. induction ids as [|i ids IH]; intros pk; [done|].
  cbn. by rewrite IH.
Qed.

Lemma assign_pks_contents (ids : list Z) (pk : Z) :
  Forall (fun n => Notification.notification_type n = notification_type
                   /\ Notification.title n = title
                   /\ Notification.message n = message
                   /\ Notification.link n = link
                   /\ Notification.is_read n = false)
         (QuerySet.assign_pks pk t (draft <$> ids)).
Proof.
  revert pk. induction ids as [|i ids IH]; intros pk; cbn; [done|].
  apply Forall_cons. split; [done|]. apply IH.
Qed.
End BulkCreate.

Lemma filter_fmap_length {A B} (f : A -> B) (P : B -> bool) (l : list A) :
  length (List.filter P (f <$> l)) = length (List.filter (fun x => P (f x)) l).
Proof.
  induction l as [|a l IH]; [done|]. cbn. destruct (P (f a)); cbn; by rewrite IH.
Qed.

Lemma notify_course_students_run (w : World) (course_id : Z)
    (nt ti ms ln : string) :
  notify_course_students course_id nt ti ms ln w
  = Ok tt
      (with_log
         (fun l => l ++ [BulkInsert T_Notification
                           (Notification.id <$> course_notifications w course_id nt ti ms ln)])
         (with_db
            (set_notifications
               (fun rows => rows ++ course_notifications w course_id nt ti ms ln))
            w)).
Proof. reflexivity. Qed.

Lemma course_notifications_count (w : World) (course_id : Z)
    (nt ti ms ln : string) (student_id : Z) :
  length (List.filter
            (fun n => bool_decide (Notification.recipient_id n = student_id))
            (course_notifications w course_id nt ti ms ln))
  = length (List.filter
              (fun e => bool_decide (Enrollment.student_id e = student_id)
                        && bool_decide (Enrollment.course_id e = course_id)
                        && bool_decide (Enrollment.status e = ACTIVE))
              (enrollments (db w))).
Proof.
  pose proof (filter_fmap_length Notification.recipient_id
                (fun i => bool_decide (i = student_id))
                (course_notifications w course_id nt ti ms ln)) as Hrows.
  cbn beta in Hrows. rewrite <- Hrows. clear Hrows.
  unfold course_notifications. rewrite assign_pks_recipients.
  rewrite filter_fmap_length.
  rewrite (filter_length_Permutation _ _ _ (order_by_Permutation _ _)).
  rewrite filter_filter. f_equal. apply filter_ext_in. intros e _.
  destruct (bool_decide (Enrollment.student_id e = student_id)),
    (bool_decide (Enrollment.course_id e = course_id)),
    (bool_decide (Enrollment.status e = ACTIVE)); done.
Qed.

Lemma unique_together_active_count (rows : list Enrollment.t) (e : Enrollment.t) :
  unique_together rows -> e ∈ rows ->
  length (List.filter
            (fun r => bool_decide (Enrollment.student_id r = Enrollment.student_id e)
                      && bool_decide (Enrollment.course_id r = Enrollment.course_id e)
                      && bool_decide (Enrollment.status r = ACTIVE))
            rows)
  = if bool_decide (Enrollment.status e = ACTIVE) then 1%nat else 0%nat.
Proof.
  intros Hu He.
  rewrite <- (filter_filter
                (fun r => bool_decide (Enrollment.status r = ACTIVE))
                (fun r => bool_decide (Enrollment.student_id r = Enrollment.student_id e)
                          && bool_decide (Enrollment.course_id r = Enrollment.course_id e))).
  rewrite unique_together_filter by done. cbn.
  by destruct (bool_decide (Enrollment.status e = ACTIVE)).
Qed.

Lemma set_file_size_keeps (row : CourseMaterial.t) :
  CourseMaterial.id (CourseMaterial_set_file_size row) = CourseMaterial.id row
  /\ CourseMaterial.course_id (CourseMaterial_set_file_size row)
     = CourseMaterial.course_id row
  /\ CourseMaterial.title (CourseMaterial_set_file_size row)
     = CourseMaterial.title row.
Proof. unfold CourseMaterial_set_file_size. by destruct (CourseMaterial.file row). Qed.

(** C6: in eager mode, the first save of a CourseMaterial adds, with one
    bulk insert, one Notification row per enrollment of the course that is
    active at that moment: a student with an active enrollment gets exactly
    one row, a student whose enrollment is dropped or blocked gets none. A
    later save of the stored row adds none. *)
Theorem material_creation_notifies_active_students
    (w : World) (fields : Z -> datetime -> CourseMaterial.t) (course : Course.t) :
  CELERY_TASK_ALWAYS_EAGER w = true ->
  let material :=
    CourseMaterial_set_file_size
      (fields (QuerySet.next_pk (CourseMaterial.id <$> materials (db w))) (now w)) in
  let course_id := CourseMaterial.course_id material in
  QuerySet.by_pk Course.id (courses (db w)) course_id = Some course ->
  (* the first save *)
  (exists w' rows,
     CourseMaterial_save (New fields) w = Ok material w'
     /\ notifications (db w') = notifications (db w) ++ rows
     (* one bulk insert, and nothing left for a worker *)
     /\ log w' = log w ++ [Insert T_CourseMaterial (CourseMaterial.id material);
                           BulkInsert T_Notification (Notification.id <$> rows)]
     /\ broker w' = broker w
     (* as many rows for a student as the student has active enrollments in
        the course; the schema allows one enrollment at most *)
     /\ (forall student_id,
           length (List.filter
                     (fun n => bool_decide (Notification.recipient_id n = student_id))
                     rows)
           = length (List.filter
                       (fun e => bool_decide (Enrollment.student_id e = student_id)
                                 && bool_decide (Enrollment.course_id e = course_id)
                                 && bool_decide (Enrollment.status e = ACTIVE))
                       (enrollments (db w))))
     /\ (unique_together (enrollments (db w)) ->
         forall e,
           e ∈ enrollments (db w) ->
           Enrollment.course_id e = course_id ->
           length (List.filter
                     (fun n => bool_decide
                                 (Notification.recipient_id n = Enrollment.student_id e))
                     rows)
           = match Enrollment.status e with
             | ACTIVE => 1%nat
             | DROPPED | BLOCKED => 0%nat
             end)
     /\ Forall (fun n => Notification.notification_type n = "new_material"
                         /\ Notification.title n = material_title course
                         /\ Notification.message n = material_message material course
                         /\ Notification.is_read n = false)
               rows)
  (* a later save of the stored row *)
  /\ (forall row,
        is_Some (QuerySet.by_pk CourseMaterial.id (materials (db w))
                                (CourseMaterial.id row)) ->
        exists w',
          CourseMaterial_save (Stored row) w
            = Ok (CourseMaterial_set_file_size row) w'
          /\ notifications (db w') = notifications (db w)
          /\ broker w' = broker w
          /\ log w' = log w ++ [Update T_CourseMaterial (CourseMaterial.id row)]).
Proof.
  intros Heager material course_id Hcourse. split.
  - exists
      (with_log
         (fun l => l ++ [BulkInsert T_Notification
                           (Notification.id <$>
                              course_notifications w course_id "new_material"
                                (material_title course)
                                (material_message material course)
                                ("/courses/" +:+ Py.str course_id +:+ "/"))])
         (with_db
            (set_notifications
               (fun rows => rows ++
                  course_notifications w course_id "new_material"
                    (material_title course) (material_message material course)
                    ("/courses/" +:+ Py.str course_id +:+ "/")))
            (with_log
               (fun l => l ++ [Insert T_CourseMaterial (CourseMaterial.id material)])
               (with_db (set_materials (fun rows => rows ++ [material])) w)))),
      (course_notifications w course_id "new_material"
         (material_title course) (material_message material course)
         ("/courses/" +:+ Py.str course_id +:+ "/")).
    split.
    { unfold CourseMaterial_save, notify_students_on_new_material, related. run.
      fold material. cbn [db with_db with_log courses set_materials].
      fold course_id. rewrite Hcourse. run.
      unfold delay. cbn [CELERY_TASK_ALWAYS_EAGER with_db with_log].
      rewrite Heager. cbn [run_task].
      rewrite notify_course_students_run. reflexivity. }
    split; [done|]. split; [cbn; by rewrite <- app_assoc|]. split; [done|].
    split; [intros sid; apply course_notifications_count|].
    split.
    { intros Huniq e Hin Hcid. rewrite course_notifications_count.
      rewrite <- Hcid. rewrite unique_together_active_count by done.
      by destruct (Enrollment.status e). }
    unfold course_notifications.
    eapply Forall_impl; [apply assign_pks_contents|].
    cbn. intros n (? & ? & ? & ? & ?). done.
  - intros row Hrow. destruct (set_file_size_keeps row) as (Hid & _ & _).
    eexists. split.
    { unfold CourseMaterial_save. run. rewrite Hid.
      rewrite bool_decide_eq_true_2 by done. reflexivity. }
    done.
Qed.

(** Slides are uploaded to Logic in the sample term: carol alone is told. *)
Lemma material_creation_witness :
  exists m w' rows,
    CourseMaterial_save (New Sample.slides) Sample.term = Ok m w'
    /\ CourseMaterial.file_size m = 2048%nat
    /\ notifications (db w') = rows
    /\ Notification.recipient_id <$> rows = [3]
    /\ log w' = [Insert T_CourseMaterial 1; BulkInsert T_Notification [1]].
Proof.
  destruct (material_creation_notifies_active_students
              Sample.term Sample.slides Sample.logic eq_refl eq_refl)
    as [(w' & rows & Hrun & Hn & Hlog & _) _].
  eexists _, w', rows. split; [exact Hrun|]. split; [reflexivity|].
  split; [exact Hn|].
  assert (w' = world_of (CourseMaterial_save (New Sample.slides) Sample.term))
    as -> by by rewrite Hrun.
  assert (rows = notifications
                   (db (world_of (CourseMaterial_save (New Sample.slides) Sample.term))))
    as -> by exact (eq_sym Hn).
  split; reflexivity.
Defined.

(** *** The message windows *)

Section OrderBySorted.
Context {A : Type} (le : A -> A -> bool).
Hypothesis le_total : forall a b, le a b = false -> le b a = true.
Hypothesis le_trans : forall a b c, le a b = true -> le b c = true -> le a c = true.

Lemma insert_by_sorted (x : A) (l : list A) :
  StronglySorted (fun a b => le a b = true) l ->
  StronglySorted (fun a b => le a b = true) (QuerySet.insert_by le x l).
Proof.
  induction 1 as [|y l Hl IH Hy]; cbn.
  - by repeat constructor.
  - destruct (le x y) eqn:Hxy.
    + constructor; [by constructor|]. constructor; [done|].
      eapply Forall_impl; [exact Hy|]. intros z Hz. by eapply le_trans.
    + constructor; [done|].
      rewrite insert_by_Permutation. constructor; [by apply le_total|done].
Qed.

Lemma order_by_sorted (l : list A) :
  StronglySorted (fun a b => le a b = true) (QuerySet.order_by le l).
Proof.
  induction l as [|x l IH]; cbn; [constructor|]. by apply insert_by_sorted.
Qed.
End OrderBySorted.

Lemma StronglySorted_impl {A} (R1 R2 : relation A) (l : list A) :
  (forall a b, R1 a b -> R2 a b) ->
  StronglySorted R1 l -> StronglySorted R2 l.
Proof.
  intros HR. induction 1 as [|x l Hl IH Hx]; constructor; [done|].
  eapply Forall_impl; [exact Hx|]. intros y. apply HR.
Qed.

Lemma StronglySorted_rev {A} (R : relation A) (l : list A) :
  StronglySorted R l -> StronglySorted (flip R) (rev l).
Proof.
  induction 1 as [|x l Hl IH Hx]; cbn; [constructor|].
  apply StronglySorted_app_2; [|done|by repeat constructor].
  intros a b Ha Hb. apply list_elem_of_singleton in Hb as ->.
  apply list_elem_of_In, in_rev, list_elem_of_In in Ha. unfold flip.
  by apply (proj1 (Forall_forall _ _) Hx).
Qed.

Lemma by_timestamp_sorted (q : list Message.t) :
  StronglySorted (fun a b => Message.timestamp a <= Message.timestamp b)
                 (QuerySet.order_by by_timestamp q).
Proof.
  apply (StronglySorted_impl (fun a b => by_timestamp a b = true)).
  - unfold by_timestamp. intros a b Hab. lia.
  - apply order_by_sorted; unfold by_timestamp; intros; lia.
Qed.

Lemma by_timestamp_desc_sorted (q : list Message.t) :
  StronglySorted (fun a b => Message.timestamp b <= Message.timestamp a)
                 (QuerySet.order_by by_timestamp_desc q).
Proof.
  apply (StronglySorted_impl (fun a b => by_timestamp_desc a b = true)).
  - unfold by_timestamp_desc. intros a b Hab. lia.
  - apply order_by_sorted; unfold by_timestamp_desc; intros; lia.
Qed.

(** X1: the on-page history is at most 100 messages of the room, oldest first, and
    they are the oldest of the room: every message left out is at least as
    recent as every message shown. *)
Theorem page_history_is_oldest_window (d : Database) (room : ChatRoom.t) :
  let history := load_message_history d room in
  (length history <= 100)%nat
  /\ StronglySorted (fun a b => Message.timestamp a <= Message.timestamp b) history
  /\ exists newer,
       room_messages d room ≡ₚ history ++ newer
       /\ forall shown left_out,
            shown ∈ history -> left_out ∈ newer ->
            Message.timestamp shown <= Message.timestamp left_out.
Proof.
  cbv zeta. unfold load_message_history.
  pose proof (by_timestamp_sorted (room_messages d room)) as Hsorted.
  rewrite <- (take_drop 100 (QuerySet.order_by by_timestamp (room_messages d room)))
    in Hsorted.
  split; [rewrite length_take; lia|].
  split; [by eapply StronglySorted_app_1_l|].
  exists (drop 100 (QuerySet.order_by by_timestamp (room_messages d room))).
  split; [by rewrite take_drop, order_by_Permutation|].
  intros shown left_out Hs Hl.
  by apply (StronglySorted_app_1_elem_of _ _ _ _ _ Hsorted).
Qed.

(** X2: the room-detail API returns at most 50 messages of the room, oldest first, and
    they are the most recent of the room: every message left out is at most
    as recent as every message returned. *)
Theorem api_history_is_newest_window (d : Database) (obj : ChatRoom.t) :
  let history := get_messages d obj in
  (length history <= 50)%nat
  /\ StronglySorted (fun a b => Message.timestamp a <= Message.timestamp b) history
  /\ exists older,
       room_messages d obj ≡ₚ older ++ history
       /\ forall left_out returned,
            left_out ∈ older -> returned ∈ history ->
            Message.timestamp left_out <= Message.timestamp returned.
Proof.
  cbv zeta. unfold get_messages.
  pose proof (by_timestamp_desc_sorted (room_messages d obj)) as Hsorted.
  rewrite <- (take_drop 50 (QuerySet.order_by by_timestamp_desc (room_messages d obj)))
    in Hsorted.
  split; [rewrite length_rev, length_take; lia|].
  split.
  { apply (StronglySorted_rev
             (fun a b => Message.timestamp b <= Message.timestamp a)).
    by eapply StronglySorted_app_1_l. }
  exists (drop 50 (QuerySet.order_by by_timestamp_desc (room_messages d obj))).
  split.
  { rewrite <- (order_by_Permutation by_timestamp_desc (room_messages d obj)) at 1.
    rewrite <- (take_drop 50 (QuerySet.order_by by_timestamp_desc (room_messages d obj))) at 1.
    rewrite Permutation_app_comm. f_equiv. apply Permutation_rev. }
  intros left_out returned Hl Hr.
  apply list_elem_of_In, in_rev, list_elem_of_In in Hr.
  by apply (StronglySorted_app_1_elem_of _ _ _ _ _ Hsorted).
Qed.

(** C9: the history a chat page loads. Both pages take the first 100
    messages in ascending time order, which are the oldest ones: in a room
    with 101 messages, sent at times 1 to 101, the page shows those of times
    1 to 100 and leaves the newest out, while the room-detail serializer
    returns the 50 newest, those of times 52 to 101, oldest first. *)
Theorem history_page_omits_newest_messages :
  (* the direct-message page *)
  DirectMessageView_get (Authenticated Sample.alice) 2 Sample.busy
  = Ok (render "chat/chat_room.html" Sample.alice_bob_room
          (take 100 Sample.busy_messages))
       Sample.busy
  /\ Message.timestamp <$> take 100 Sample.busy_messages = seqZ 1 100
  (* the course-chat page *)
  /\ CourseGroupChatView_get (Authenticated Sample.tom) 5 Sample.busy
     = Ok (render "chat/chat_room.html" Sample.logic_room
             (take 100 Sample.lecture_messages))
          Sample.busy
  /\ Message.timestamp <$> take 100 Sample.lecture_messages = seqZ 1 100
  (* the room-detail API *)
  /\ Message.timestamp <$> get_messages (db Sample.busy) Sample.alice_bob_room
     = seqZ 52 50
  /\ Message.timestamp <$> get_messages (db Sample.busy) Sample.logic_room
     = seqZ 52 50.
Proof. vm_compute. done. Qed.

(** * The teacher's student management *)

Lemma pk_unique_eq {A} (pk_of : A -> Z) (rows : list A) (x y : A) :
  pk_unique pk_of rows -> x ∈ rows -> y ∈ rows -> pk_of x = pk_of y -> x = y.
Proof.
  unfold pk_unique. induction rows as [|a rows IH]; intros Hnd Hx Hy Heq.
  - by apply elem_of_nil in Hx.
  - rewrite fmap_cons in Hnd. apply NoDup_cons in Hnd as [Ha Hnd].
    apply elem_of_cons in Hx as [->|Hx], Hy as [->|Hy].
    + done.
    + destruct Ha. rewrite Heq. by apply list_elem_of_fmap_2.
    + destruct Ha. rewrite <- Heq. by apply list_elem_of_fmap_2.
    + by apply IH.
Qed.

(** Replacing the row of a key touches that one row. *)
Lemma replace_row_at {A} (pk_of : A -> Z) (l1 l2 : list A) (e e' : A) :
  pk_unique pk_of (l1 ++ e :: l2) -> pk_of e' = pk_of e ->
  map (fun r => if bool_decide (pk_of r = pk_of e') then e' else r)
      (l1 ++ e :: l2)
  = l1 ++ e' :: l2.
Proof.
  intros Hpk Hid.
  unfold pk_unique in Hpk. rewrite fmap_app, fmap_cons in Hpk.
  apply NoDup_app in Hpk as (_ & Hdisj & Hnd2).
  apply NoDup_cons in Hnd2 as [Hnin2 _].
  rewrite map_app. cbn. rewrite Hid.
  rewrite bool_decide_eq_true_2 by done.
  rewrite !(map_update_fresh pk_of (fun _ => e')); [done|done|].
  intros H1. apply (Hdisj _ H1). left.
Qed.

Lemma replace_enrollment_at (l1 l2 : list Enrollment.t) (e e' : Enrollment.t) :
  pk_unique Enrollment.id (l1 ++ e :: l2) -> Enrollment.id e' = Enrollment.id e ->
  replace_enrollment e' (l1 ++ e :: l2) = l1 ++ e' :: l2.
Proof. apply replace_row_at. Qed.

Lemma replace_enrollment_split (rows : list Enrollment.t) (e e' : Enrollment.t) :
  pk_unique Enrollment.id rows -> e ∈ rows -> Enrollment.id e' = Enrollment.id e ->
  exists l1 l2,
    rows = l1 ++ e :: l2 /\ replace_enrollment e' rows = l1 ++ e' :: l2.
Proof.
  intros Hpk Hin Hid.
  apply list_elem_of_split in Hin as (l1 & l2 & ->).
  exists l1, l2. split; [done|]. by apply replace_enrollment_at.
Qed.

Lemma replace_enrollment_keys {K} (key : Enrollment.t -> K)
    (rows : list Enrollment.t) (e e' : Enrollment.t) :
  pk_unique Enrollment.id rows -> e ∈ rows ->
  Enrollment.id e' = Enrollment.id e -> key e' = key e ->
  key <$> replace_enrollment e' rows = key <$> rows.
Proof.
  intros Hpk Hin Hid Hkey.
  destruct (replace_enrollment_split rows e e' Hpk Hin Hid) as (l1 & l2 & -> & ->).
  by rewrite !fmap_app, !fmap_cons, Hkey.
Qed.

Lemma replace_enrollment_elem (rows : list Enrollment.t) (e e' : Enrollment.t) :
  pk_unique Enrollment.id rows -> e ∈ rows ->
  Enrollment.id e' = Enrollment.id e ->
  e' ∈ replace_enrollment e' rows.
Proof.
  intros Hpk Hin Hid.
  destruct (replace_enrollment_split rows e e' Hpk Hin Hid) as (l1 & l2 & _ & ->).
  set_solver.
Qed.

(** The row of a pair, looked up the way the management views do. *)
Lemma unique_together_filter_course (rows : list Enrollment.t) (e : Enrollment.t) :
  unique_together rows -> e ∈ rows ->
  List.filter
    (fun r => bool_decide (Enrollment.course_id r = Enrollment.course_id e)
              && bool_decide (Enrollment.student_id r = Enrollment.student_id e))
    rows = [e].
Proof.
  intros Hu He. etransitivity; [|exact (unique_together_filter rows e Hu He)].
  apply filter_ext_in. intros r _. apply andb_comm.
Qed.

Lemma get_taught_Course_run (w : World) (teacher : User.t) (pk : Z)
    (course : Course.t) :
  QuerySet.by_pk Course.id (courses (db w)) pk = Some course ->
  Course.teacher_id course = User.id teacher ->
  get_taught_Course_or_404 pk teacher w = Ok course w.
Proof.
  intros Hc Ht. unfold get_taught_Course_or_404. run. rewrite Hc.
  by rewrite bool_decide_eq_true_2.
Qed.

Lemma get_taught_Course_404 (w : World) (user : User.t) (pk : Z) :
  (forall course,
     QuerySet.by_pk Course.id (courses (db w)) pk = Some course ->
     Course.teacher_id course <> User.id user) ->
  get_taught_Course_or_404 pk user w = Raise Http404 w.
Proof.
  intros H. unfold get_taught_Course_or_404. run.
  destruct (QuerySet.by_pk _ _ _) as [c|] eqn:Hc; [|done].
  by rewrite bool_decide_eq_false_2 by by apply H.
Qed.

(** What the two management views do to the row they find. *)
Lemma manage_student_run (w : World) (teacher : User.t) (pk : Z)
    (course : Course.t) (e : Enrollment.t) :
  unique_together (enrollments (db w)) ->
  QuerySet.by_pk Course.id (courses (db w)) pk = Some course ->
  Course.teacher_id course = User.id teacher ->
  e ∈ enrollments (db w) ->
  Enrollment.course_id e = pk ->
  let after e' text :=
    Ok (redirect "course-students" (Some pk))
       (with_log (fun l => l ++ [Flash SUCCESS text])
          (with_log (fun l => l ++ [Update T_Enrollment (Enrollment.id e)])
             (with_db (set_enrollments (replace_enrollment e')) w))) in
  block_student POST (Authenticated teacher) pk (Enrollment.student_id e) w
  = after (Enrollment_with_status e BLOCKED (Enrollment.dropped_at e))
          "Student has been blocked from this course."
  /\ remove_student POST (Authenticated teacher) pk (Enrollment.student_id e) w
     = after (Enrollment_with_status e DROPPED (Some (now w)))
             "Student has been removed from this course.".
Proof.
  intros Hu Hc Ht Hin Hcid. cbv zeta.
  destruct (by_pk_Some _ _ _ _ Hc) as [_ Hpk].
  pose proof (unique_together_filter_course _ e Hu Hin) as Hone.
  rewrite Hcid, <- Hpk in Hone.
  unfold block_student, remove_student, get_Enrollment_or_404.
  rewrite (bool_decide_eq_true_2 (POST = POST)) by done. cbn [negb]. run.
  rewrite !(get_taught_Course_run w teacher pk course) by done. run.
  rewrite Hone. run.
  rewrite !Enrollment_save_stored
    by exact (by_pk_elem_of Enrollment.id _ e Hin).
  done.
Qed.

Lemma new_effects_two {A} (a : A) (w : World) (e1 e2 : Effect) (f : World -> World) :
  log (f w) = log w ->
  new_effects w
    (Ok a (with_log (fun l => l ++ [e2]) (with_log (fun l => l ++ [e1]) (f w))))
  = [e1; e2].
Proof.
  intros Hf. unfold new_effects. cbn. rewrite Hf, <- app_assoc.
  by rewrite drop_app_length.
Qed.

(** X3: [block_student], requested by the teacher of the course for a
    student who has an enrollment row for it, sets that row to blocked and
    leaves its dates alone; every other row stays as it is, whatever the
    row's status was.  No notification is created or queued, and the log
    gains the update and the success message. *)
Theorem block_student_blocks_one_row (w : World) (teacher : User.t) (pk : Z)
    (course : Course.t) (e : Enrollment.t) :
  unique_together (enrollments (db w)) ->
  pk_unique Enrollment.id (enrollments (db w)) ->
  QuerySet.by_pk Course.id (courses (db w)) pk = Some course ->
  Course.teacher_id course = User.id teacher ->
  e ∈ enrollments (db w) ->
  Enrollment.course_id e = pk ->
  let blocked :=
    Enrollment.mk (Enrollment.id e) (Enrollment.student_id e)
      (Enrollment.course_id e) BLOCKED (Enrollment.enrolled_at e)
      (Enrollment.dropped_at e) in
  exists w' before after,
    block_student POST (Authenticated teacher) pk (Enrollment.student_id e) w
      = Ok (redirect "course-students" (Some pk)) w'
    /\ enrollments (db w) = before ++ e :: after
    /\ enrollments (db w') = before ++ blocked :: after
    /\ users (db w') = users (db w)
    /\ courses (db w') = courses (db w)
    /\ notifications (db w') = notifications (db w)
    /\ broker w' = broker w
    /\ new_effects w (Ok tt w')
       = [Update T_Enrollment (Enrollment.id e);
          Flash SUCCESS "Student has been blocked from this course."].
Proof.
  intros Hu Hpk Hc Ht Hin Hcid. cbv zeta.
  destruct (manage_student_run w teacher pk course e Hu Hc Ht Hin Hcid) as [Hrun _].
  destruct (replace_enrollment_split (enrollments (db w)) e
              (Enrollment_with_status e BLOCKED (Enrollment.dropped_at e))
              Hpk Hin eq_refl) as (l1 & l2 & Hrows & Hrows').
  eexists _, l1, l2. split; [exact Hrun|]. split; [done|].
  split; [exact Hrows'|]. repeat (split; [done|]).
  by apply new_effects_two.
Qed.

(** Tom blocks carol, who attends Logic: her row is the one that changes. *)
Lemma block_student_blocks_one_row_witness :
  exists w',
    block_student POST (Authenticated Sample.tom) 5 3 Sample.term
      = Ok (redirect "course-students" (Some 5)) w'
    /\ enrollments (db w')
       = [Sample.alice_logic; Sample.bob_logic;
          Enrollment.mk 3 3 5 BLOCKED 300 None]
    /\ log w' = [Update T_Enrollment 3;
                 Flash SUCCESS "Student has been blocked from this course."].
Proof.
  destruct (block_student_blocks_one_row Sample.term Sample.tom 5 Sample.logic
              Sample.carol_logic)
    as (w' & before & after & Hrun & _).
  - unfold unique_together. compute_done.
  - unfold pk_unique. compute_done.
  - reflexivity.
  - reflexivity.
  - compute_done.
  - reflexivity.
  - exists w'. split; [exact Hrun|].
    assert (w' = world_of (block_student POST (Authenticated Sample.tom) 5 3
                             Sample.term)) as ->
      by (symmetry; exact (f_equal world_of Hrun)).
    split; reflexivity.
Defined.

(** With one row per pair, a student whose row is not active has no active
    row. *)
Lemma no_active_row (rows : list Enrollment.t) (e : Enrollment.t) :
  unique_together rows -> e ∈ rows -> Enrollment.status e <> ACTIVE ->
  List.filter
    (fun r => bool_decide (Enrollment.student_id r = Enrollment.student_id e)
              && bool_decide (Enrollment.course_id r = Enrollment.course_id e)
              && bool_decide (Enrollment.status r = ACTIVE))
    rows = [].
Proof.
  intros Hu Hin Hst. apply filter_none. intros x Hx.
  destruct (bool_decide (Enrollment.student_id x = Enrollment.student_id e)
            && bool_decide (Enrollment.course_id x = Enrollment.course_id e))
    eqn:Hpair; [|done].
  assert (x ∈ [e]) as Hxe.
  { rewrite <- (unique_together_filter rows e Hu Hin). by apply elem_of_filter. }
  apply list_elem_of_singleton in Hxe as ->. cbn.
  by rewrite bool_decide_eq_false_2.
Qed.

Lemma replace_enrollment_unique (rows : list Enrollment.t) (e e' : Enrollment.t) :
  unique_together rows -> pk_unique Enrollment.id rows -> e ∈ rows ->
  Enrollment.id e' = Enrollment.id e ->
  Enrollment.student_id e' = Enrollment.student_id e ->
  Enrollment.course_id e' = Enrollment.course_id e ->
  unique_together (replace_enrollment e' rows)
  /\ pk_unique Enrollment.id (replace_enrollment e' rows)
  /\ e' ∈ replace_enrollment e' rows.
Proof.
  intros Hu Hpk Hin Hid Hs Hc. unfold unique_together, pk_unique.
  rewrite (replace_enrollment_keys
             (fun r => (Enrollment.student_id r, Enrollment.course_id r))
             rows e e') by (try done; by rewrite Hs, Hc).
  rewrite (replace_enrollment_keys Enrollment.id rows e e') by done.
  split; [done|]. split; [done|]. by eapply replace_enrollment_elem.
Qed.

Lemma unenroll_404 (w : World) (u : User.t) (pk : Z) :
  List.filter
    (fun r => bool_decide (Enrollment.student_id r = User.id u)
              && bool_decide (Enrollment.course_id r = pk)
              && bool_decide (Enrollment.status r = ACTIVE))
    (enrollments (db w)) = [] ->
  unenroll POST (Authenticated u) pk w = Raise Http404 w.
Proof.
  intros H. unfold unenroll.
  rewrite (bool_decide_eq_true_2 (POST = POST)) by done. cbn [negb]. run.
  by rewrite H.
Qed.

Lemma course_chat_denied (w : World) (u : User.t) (pk : Z) (course : Course.t)
    (self : Consumer) :
  QuerySet.by_pk Course.id (courses (db w)) pk = Some course ->
  Course.teacher_id course <> User.id u ->
  List.filter
    (fun r => bool_decide (Enrollment.student_id r = User.id u)
              && bool_decide (Enrollment.course_id r = pk)
              && bool_decide (Enrollment.status r = ACTIVE))
    (enrollments (db w)) = [] ->
  scope_user self = Authenticated u ->
  Py.int (scope_id self) = Some pk ->
  GroupChatConsumer.connect self w = Ok tt (closed self w)
  /\ CourseGroupChatView_get (Authenticated u) pk w
     = Ok (redirect "course-list" None) w.
Proof.
  intros Hc Ht Hnone Hu Hid.
  destruct (by_pk_Some _ _ _ _ Hc) as [_ Hpk].
  split.
  - rewrite group_connect_run, Hu, Hid, Hc.
    rewrite bool_decide_eq_false_2 by done. by rewrite Hpk, Hnone.
  - unfold CourseGroupChatView_get, get_Course_or_404. run. rewrite Hc. run.
    rewrite bool_decide_eq_false_2 by done. by rewrite Hpk, Hnone.
Qed.

(** X4: once the teacher has blocked a student, the student is locked out
    of the course: the student's [enroll] is answered with an error message
    and changes nothing, [unenroll] finds no active enrollment (404), the
    course-chat WebSocket is closed at connect, and the course-chat page
    redirects to the course list. *)
Theorem blocked_student_is_locked_out (w : World) (teacher student : User.t)
    (pk : Z) (course : Course.t) (e : Enrollment.t) (self : Consumer) :
  unique_together (enrollments (db w)) ->
  pk_unique Enrollment.id (enrollments (db w)) ->
  QuerySet.by_pk Course.id (courses (db w)) pk = Some course ->
  Course.teacher_id course = User.id teacher ->
  e ∈ enrollments (db w) ->
  Enrollment.student_id e = User.id student ->
  Enrollment.course_id e = pk ->
  User.is_student student = true ->
  User.id student <> User.id teacher ->
  scope_user self = Authenticated student ->
  Py.int (scope_id self) = Some pk ->
  exists w',
    block_student POST (Authenticated teacher) pk (User.id student) w
      = Ok (redirect "course-students" (Some pk)) w'
    /\ (exists text,
          enroll POST (Authenticated student) pk w'
          = Ok (redirect "course-detail" (Some pk))
               (with_log (fun l => l ++ [Flash ERROR text]) w'))
    /\ unenroll POST (Authenticated student) pk w' = Raise Http404 w'
    /\ GroupChatConsumer.connect self w' = Ok tt (closed self w')
    /\ CourseGroupChatView_get (Authenticated student) pk w'
       = Ok (redirect "course-list" None) w'.
Proof.
  intros Hu Hpk Hc Ht Hin Hsid Hcid Hrole Hne Hself Hscope.
  destruct (manage_student_run w teacher pk course e Hu Hc Ht Hin Hcid) as [Hrun _].
  rewrite Hsid in Hrun.
  set (e' := Enrollment_with_status e BLOCKED (Enrollment.dropped_at e)) in *.
  destruct (replace_enrollment_unique (enrollments (db w)) e e' Hu Hpk Hin)
    as (Hu' & Hpk' & Hin'); [done..|].
  eexists. split; [exact Hrun|].
  set (w' := with_log _ (with_log _ (with_db _ w))).
  assert (enrollments (db w') = replace_enrollment e' (enrollments (db w)))
    as Hrows by done.
  assert (QuerySet.by_pk Course.id (courses (db w')) pk = Some course)
    as Hc' by done.
  assert (List.filter
            (fun r => bool_decide (Enrollment.student_id r = User.id student)
                      && bool_decide (Enrollment.course_id r = pk)
                      && bool_decide (Enrollment.status r = ACTIVE))
            (enrollments (db w')) = []) as Hnone.
  { rewrite Hrows. rewrite <- Hsid, <- Hcid. by apply (no_active_row _ e'). }
  split; [|split].
  - destruct (Course_is_full (db w') course) eqn:Hfull.
    + eexists. by apply enroll_full with (course := course).
    + eexists. rewrite (enroll_existing w' student pk course e'); [done..|].
      rewrite Hrows, <- Hsid, <- Hcid.
      by apply (unique_together_filter _ e').
  - by apply unenroll_404.
  - apply course_chat_denied with (course := course); try done.
    by rewrite Ht.
Qed.

(** Tom blocks carol: she can neither enroll nor unenroll, and the Logic
    chat is closed to her. *)
Lemma blocked_student_is_locked_out_witness :
  exists w',
    block_student POST (Authenticated Sample.tom) 5 3 Sample.term
      = Ok (redirect "course-students" (Some 5)) w'
    /\ unenroll POST (Authenticated Sample.carol) 5 w' = Raise Http404 w'
    /\ GroupChatConsumer.connect Scenario.carol_tablet w'
       = Ok tt (closed Scenario.carol_tablet w')
    /\ CourseGroupChatView_get (Authenticated Sample.carol) 5 w'
       = Ok (redirect "course-list" None) w'.
Proof.
  destruct (blocked_student_is_locked_out Sample.term Sample.tom Sample.carol 5
              Sample.logic Sample.carol_logic Scenario.carol_tablet)
    as (w' & Hrun & _ & Hun & Hconn & Hpage).
  - unfold unique_together. compute_done.
  - unfold pk_unique. compute_done.
  - reflexivity.
  - reflexivity.
  - compute_done.
  - reflexivity.
  - reflexivity.
  - reflexivity.
  - compute_done.
  - reflexivity.
  - reflexivity.
  - exists w'. split; [exact Hrun|]. split; [exact Hun|].
    split; [exact Hconn|exact Hpage].
Defined.

(** The active count of a course around one row. *)
Lemma enrolled_count_around (d : Database) (course : Course.t)
    (l1 l2 : list Enrollment.t) (e : Enrollment.t) :
  enrollments d = l1 ++ e :: l2 ->
  Enrollment.course_id e = Course.id course ->
  Course_enrolled_count d course
  = ((if bool_decide (Enrollment.status e = ACTIVE) then 1 else 0)
     + (length (List.filter
                  (fun r => bool_decide (Enrollment.course_id r = Course.id course)
                            && bool_decide (Enrollment.status r = ACTIVE)) l1)
        + length (List.filter
                    (fun r => bool_decide (Enrollment.course_id r = Course.id course)
                              && bool_decide (Enrollment.status r = ACTIVE)) l2)))%nat.
Proof.
  intros Hd Hc. unfold Course_enrolled_count, QuerySet.count.
  rewrite Hd, List.filter_app, length_app. cbn.
  rewrite (bool_decide_eq_true_2 (Enrollment.course_id e = Course.id course)) by done.
  cbn. destruct (bool_decide (Enrollment.status e = ACTIVE)); cbn; lia.
Qed.

(** X5: [remove_student], requested by the teacher of the course, sets the
    student's row to dropped with the time of the request, whatever the
    row's status was, a blocked row included.  The student's next [enroll],
    while the course has room, makes the same row active again: removing a
    blocked student lifts the block. *)
Theorem remove_student_lifts_block (w : World) (teacher student : User.t)
    (pk : Z) (course : Course.t) (e : Enrollment.t) :
  unique_together (enrollments (db w)) ->
  pk_unique Enrollment.id (enrollments (db w)) ->
  QuerySet.by_pk Course.id (courses (db w)) pk = Some course ->
  Course.teacher_id course = User.id teacher ->
  e ∈ enrollments (db w) ->
  Enrollment.student_id e = User.id student ->
  Enrollment.course_id e = pk ->
  User.is_student student = true ->
  Course_is_full (db w) course = false ->
  let row status dropped :=
    Enrollment.mk (Enrollment.id e) (Enrollment.student_id e)
      (Enrollment.course_id e) status (Enrollment.enrolled_at e) dropped in
  (* while blocked, the student is turned away *)
  (Enrollment.status e = BLOCKED ->
   enroll POST (Authenticated student) pk w
   = Ok (redirect "course-detail" (Some pk))
        (with_log
           (fun l => l ++ [Flash ERROR "You have been blocked from this course."])
           w))
  /\ exists w1 w2 before after,
       remove_student POST (Authenticated teacher) pk (User.id student) w
         = Ok (redirect "course-students" (Some pk)) w1
       /\ enrollments (db w) = before ++ e :: after
       /\ enrollments (db w1) = before ++ row DROPPED (Some (now w)) :: after
       /\ notifications (db w1) = notifications (db w)
       /\ broker w1 = broker w
       /\ enroll POST (Authenticated student) pk w1
          = Ok (redirect "course-detail" (Some pk)) w2
       /\ enrollments (db w2) = before ++ row ACTIVE None :: after.
Proof.
  intros Hu Hpk Hc Ht Hin Hsid Hcid Hrole Hfull. cbv zeta.
  destruct (by_pk_Some _ _ _ _ Hc) as [_ Hcpk].
  split.
  { intros Hst. rewrite (enroll_existing w student pk course e); try done.
    - by rewrite Hst.
    - rewrite <- Hsid, <- Hcid. by apply unique_together_filter. }
  destruct (manage_student_run w teacher pk course e Hu Hc Ht Hin Hcid) as [_ Hrun].
  rewrite Hsid in Hrun.
  set (e1 := Enrollment_with_status e DROPPED (Some (now w))) in *.
  set (e2 := Enrollment_with_status e ACTIVE None).
  pose proof Hin as Hsplit.
  apply list_elem_of_split in Hsplit as (l1 & l2 & Hrows).
  assert (replace_enrollment e1 (enrollments (db w)) = l1 ++ e1 :: l2) as Hrows1.
  { rewrite Hrows. apply replace_enrollment_at; [by rewrite <- Hrows|done]. }
  destruct (replace_enrollment_unique (enrollments (db w)) e e1 Hu Hpk Hin)
    as (Hu1 & Hpk1 & Hin1); [done..|].
  set (w1 := with_log _ (with_log _ (with_db _ w))) in Hrun.
  assert (enrollments (db w1) = l1 ++ e1 :: l2) as Hdb1 by exact Hrows1.
  assert (Course_is_full (db w1) course = false) as Hfull1.
  { unfold Course_is_full in *. apply Nat.leb_gt. apply Nat.leb_gt in Hfull.
    rewrite (enrolled_count_around (db w1) course l1 l2 e1 Hdb1)
      by (cbn; congruence).
    rewrite (enrolled_count_around (db w) course l1 l2 e Hrows) in Hfull
      by congruence.
    cbn [e1 Enrollment_with_status Enrollment.status].
    rewrite (bool_decide_eq_false_2 (DROPPED = ACTIVE)) by done.
    destruct (bool_decide (Enrollment.status e = ACTIVE)); lia. }
  assert (List.filter
            (fun r => bool_decide (Enrollment.student_id r = User.id student)
                      && bool_decide (Enrollment.course_id r = pk))
            (enrollments (db w1)) = [e1]) as Hone1.
  { rewrite <- Hsid, <- Hcid.
    apply (unique_together_filter (replace_enrollment e1 (enrollments (db w))) e1);
      done. }
  exists w1. eexists. exists l1, l2.
  split; [exact Hrun|]. split; [done|]. split; [exact Hdb1|].
  split; [done|]. split; [done|].
  split; [exact (enroll_existing w1 student pk course e1 Hrole Hc Hfull1 Hone1)|].
  cbn [e1 Enrollment_with_status Enrollment.status].
  change (replace_enrollment e2 (enrollments (db w1)) = l1 ++ e2 :: l2).
  rewrite Hdb1. apply replace_enrollment_at; [|done].
  rewrite <- Hdb1. exact Hpk1.
Qed.

(** Bob is blocked from Logic; tom removes him, and his next enrollment
    makes his row active. *)
Lemma remove_student_lifts_block_witness :
  enroll POST (Authenticated Sample.bob) 5 Sample.term
  = Ok (redirect "course-detail" (Some 5))
       (with_log
          (fun l => l ++ [Flash ERROR "You have been blocked from this course."])
          Sample.term)
  /\ exists w1 w2,
       remove_student POST (Authenticated Sample.tom) 5 2 Sample.term
         = Ok (redirect "course-students" (Some 5)) w1
       /\ enrollments (db w1)
          = [Sample.alice_logic; Enrollment.mk 2 2 5 DROPPED 200 (Some 1000);
             Sample.carol_logic]
       /\ enroll POST (Authenticated Sample.bob) 5 w1
          = Ok (redirect "course-detail" (Some 5)) w2
       /\ enrollments (db w2)
          = [Sample.alice_logic; Enrollment.mk 2 2 5 ACTIVE 200 None;
             Sample.carol_logic].
Proof.
  destruct (remove_student_lifts_block Sample.term Sample.tom Sample.bob 5
              Sample.logic Sample.bob_logic)
    as (Hblocked & w1 & w2 & before & after & Hrun & _ & _ & _ & _ & Hagain & _).
  - unfold unique_together. compute_done.
  - unfold pk_unique. compute_done.
  - reflexivity.
  - reflexivity.
  - compute_done.
  - reflexivity.
  - reflexivity.
  - reflexivity.
  - reflexivity.
  - split; [exact (Hblocked eq_refl)|].
    exists w1, w2. split; [exact Hrun|].
    assert (w1 = world_of (remove_student POST (Authenticated Sample.tom) 5 2
                             Sample.term)) as Hw1
      by (symmetry; exact (f_equal world_of Hrun)).
    assert (w2 = world_of (enroll POST (Authenticated Sample.bob) 5 w1)) as Hw2
      by (symmetry; exact (f_equal world_of Hagain)).
    split; [by rewrite Hw1|]. split; [exact Hagain|].
    rewrite Hw2, Hw1. reflexivity.
Defined.

(** X6: blocking or removing an actively enrolled student takes one off
    the active count of the course, so that a course that was at its
    capacity has room again; blocking or removing a student who is not
    active leaves the count as it is. *)
Theorem removal_frees_a_seat (w : World) (teacher : User.t) (pk : Z)
    (course : Course.t) (e : Enrollment.t) :
  unique_together (enrollments (db w)) ->
  pk_unique Enrollment.id (enrollments (db w)) ->
  QuerySet.by_pk Course.id (courses (db w)) pk = Some course ->
  Course.teacher_id course = User.id teacher ->
  e ∈ enrollments (db w) ->
  Enrollment.course_id e = pk ->
  let count w := Course_enrolled_count (db w) course in
  let w1 := world_of (block_student POST (Authenticated teacher) pk
                        (Enrollment.student_id e) w) in
  let w2 := world_of (remove_student POST (Authenticated teacher) pk
                        (Enrollment.student_id e) w) in
  (Enrollment.status e = ACTIVE ->
   S (count w1) = count w /\ S (count w2) = count w
   /\ ((count w <= Course.max_students course)%nat ->
       Course_is_full (db w1) course = false
       /\ Course_is_full (db w2) course = false))
  /\ (Enrollment.status e <> ACTIVE ->
      count w1 = count w /\ count w2 = count w).
Proof.
  intros Hu Hpk Hc Ht Hin Hcid. cbv zeta.
  destruct (by_pk_Some _ _ _ _ Hc) as [_ Hcpk].
  destruct (manage_student_run w teacher pk course e Hu Hc Ht Hin Hcid)
    as [-> ->].
  cbn [world_of].
  pose proof Hin as Hsplit.
  apply list_elem_of_split in Hsplit as (l1 & l2 & Hrows).
  assert (forall e', Enrollment.id e' = Enrollment.id e ->
            replace_enrollment e' (enrollments (db w)) = l1 ++ e' :: l2) as Hat.
  { intros e' Hid. rewrite Hrows.
    apply replace_enrollment_at; [by rewrite <- Hrows|done]. }
  rewrite (enrolled_count_around (db w) course l1 l2 e Hrows) by congruence.
  rewrite (enrolled_count_around _ course l1 l2
             (Enrollment_with_status e BLOCKED (Enrollment.dropped_at e)))
    by (first [by apply Hat | cbn; congruence]).
  rewrite (enrolled_count_around _ course l1 l2
             (Enrollment_with_status e DROPPED (Some (now w))))
    by (first [by apply Hat | cbn; congruence]).
  cbn [Enrollment_with_status Enrollment.status].
  rewrite (bool_decide_eq_false_2 (BLOCKED = ACTIVE)) by done.
  rewrite (bool_decide_eq_false_2 (DROPPED = ACTIVE)) by done.
  split.
  - intros Hst. rewrite bool_decide_eq_true_2 by done.
    split; [done|]. split; [done|]. intros Hcap.
    unfold Course_is_full.
    rewrite (enrolled_count_around _ course l1 l2
               (Enrollment_with_status e BLOCKED (Enrollment.dropped_at e)))
      by (first [by apply Hat | cbn; congruence]).
    rewrite (enrolled_count_around _ course l1 l2
               (Enrollment_with_status e DROPPED (Some (now w))))
      by (first [by apply Hat | cbn; congruence]).
    cbn [Enrollment_with_status Enrollment.status].
    rewrite (bool_decide_eq_false_2 (BLOCKED = ACTIVE)) by done.
    rewrite (bool_decide_eq_false_2 (DROPPED = ACTIVE)) by done.
    split; apply Nat.leb_gt; lia.
  - intros Hst. by rewrite bool_decide_eq_false_2 by done.
Qed.

(** The seminar takes one student.  With carol in it the seminar is full;
    once tom has blocked or removed her it has room again. *)
Lemma removal_frees_a_seat_witness :
  Course_is_full (db Scenario.full_seminar) Sample.seminar = true
  /\ Course_is_full
       (db (world_of (block_student POST (Authenticated Sample.tom) 6 3
                        Scenario.full_seminar))) Sample.seminar = false
  /\ Course_is_full
       (db (world_of (remove_student POST (Authenticated Sample.tom) 6 3
                        Scenario.full_seminar))) Sample.seminar = false.
Proof.
  destruct (removal_frees_a_seat Scenario.full_seminar Sample.tom 6
              Sample.seminar Scenario.carol_seminar)
    as [Hactive _].
  - unfold unique_together. compute_done.
  - unfold pk_unique. compute_done.
  - reflexivity.
  - reflexivity.
  - compute_done.
  - reflexivity.
  - destruct (Hactive eq_refl) as (_ & _ & Hroom).
    split; [reflexivity|]. apply Hroom. compute_done.
Defined.

Lemma get_Enrollment_404 (w : World) (course : Course.t) (sid : Z) :
  Forall (fun r => Enrollment.course_id r = Course.id course ->
                   Enrollment.student_id r <> sid) (enrollments (db w)) ->
  get_Enrollment_or_404 course sid w = Raise Http404 w.
Proof.
  intros H. unfold get_Enrollment_or_404. run.
  rewrite Forall_filter_nil; [done|].
  eapply Forall_impl; [exact H|]. intros r Hr. cbn in Hr.
  case_bool_decide; [|done]. rewrite bool_decide_eq_false_2; [done|]. by apply Hr.
Qed.

(** X7: only the teacher of a course manages its students.  A request of
    an anonymous caller is sent to the login page, one that is not a POST is
    redirected, one of a user who does not teach the course (or for a course
    that does not exist) gets a 404, and so does one for a student id, of
    those the database can hold, without an enrollment row in the course;
    none of them changes anything. *)
Theorem student_management_rejections (w : World) (pk sid : Z) :
  (* anonymous *)
  (forall method,
     block_student method AnonymousUser pk sid w = Ok redirect_to_login w
     /\ remove_student method AnonymousUser pk sid w = Ok redirect_to_login w
     /\ CourseStudentListView_get AnonymousUser pk w = Ok login_redirect w)
  (* not a POST *)
  /\ (forall user,
        block_student GET (Authenticated user) pk sid w
          = Ok (redirect "course-students" (Some pk)) w
        /\ remove_student GET (Authenticated user) pk sid w
           = Ok (redirect "course-students" (Some pk)) w)
  (* not the teacher of the course *)
  /\ (forall user,
        (forall course,
           QuerySet.by_pk Course.id (courses (db w)) pk = Some course ->
           Course.teacher_id course <> User.id user) ->
        block_student POST (Authenticated user) pk sid w = Raise Http404 w
        /\ remove_student POST (Authenticated user) pk sid w = Raise Http404 w
        /\ CourseStudentListView_get (Authenticated user) pk w = Raise Http404 w)
  (* no enrollment row of the student for the course *)
  /\ (forall teacher course,
        QuerySet.by_pk Course.id (courses (db w)) pk = Some course ->
        Course.teacher_id course = User.id teacher ->
        fits_int64 sid ->
        Forall (fun r => Enrollment.course_id r = pk ->
                         Enrollment.student_id r <> sid) (enrollments (db w)) ->
        block_student POST (Authenticated teacher) pk sid w = Raise Http404 w
        /\ remove_student POST (Authenticated teacher) pk sid w = Raise Http404 w).
Proof.
  split; [done|]. split; [done|]. split.
  - intros user Hnot.
    unfold block_student, remove_student, CourseStudentListView_get.
    rewrite (bool_decide_eq_true_2 (POST = POST)) by done. cbn [negb]. run.
    by rewrite !(get_taught_Course_404 w user pk Hnot).
  - intros teacher course Hc Ht _ Hnone.
    destruct (by_pk_Some _ _ _ _ Hc) as [_ Hpk]. rewrite <- Hpk in Hnone.
    unfold block_student, remove_student.
    rewrite (bool_decide_eq_true_2 (POST = POST)) by done. cbn [negb]. run.
    rewrite !(get_taught_Course_run w teacher pk course) by done. run.
    by rewrite !(get_Enrollment_404 w course sid Hnone).
Qed.

(** X8: the requests [enroll] and [unenroll] turn away.  An anonymous
    caller is sent to the login page and a request that is not a POST is
    redirected to the course, with nothing changed.  [enroll] looks the
    course up first (404 when it does not exist) and then refuses a caller
    who is not a student with an error message, leaving every table as it
    was.  [unenroll], for a course key the database can hold, answers 404,
    and changes nothing, unless the caller has an active enrollment for the
    course. *)
Theorem enrollment_rejections (w : World) (pk : Z) :
  (forall method,
     enroll method AnonymousUser pk w = Ok redirect_to_login w
     /\ unenroll method AnonymousUser pk w = Ok redirect_to_login w)
  /\ (forall user,
        enroll GET (Authenticated user) pk w
          = Ok (redirect "course-detail" (Some pk)) w
        /\ unenroll GET (Authenticated user) pk w
           = Ok (redirect "course-detail" (Some pk)) w)
  /\ (forall user,
        QuerySet.by_pk Course.id (courses (db w)) pk = None ->
        enroll POST (Authenticated user) pk w = Raise Http404 w)
  /\ (forall user course,
        QuerySet.by_pk Course.id (courses (db w)) pk = Some course ->
        User.is_student user = false ->
        enroll POST (Authenticated user) pk w
        = Ok (redirect "course-detail" (Some pk))
             (with_log
                (fun l => l ++ [Flash ERROR "Only students can enrol in courses."])
                w))
  /\ (forall user,
        fits_int64 pk ->
        Forall (fun r => Enrollment.student_id r = User.id user ->
                         Enrollment.course_id r = pk ->
                         Enrollment.status r <> ACTIVE) (enrollments (db w)) ->
        unenroll POST (Authenticated user) pk w = Raise Http404 w).
Proof.
  split; [done|]. split; [done|]. split; [|split].
  - intros user Hc. unfold enroll, get_Course_or_404.
    rewrite (bool_decide_eq_true_2 (POST = POST)) by done. cbn [negb]. run.
    by rewrite Hc.
  - intros user course Hc Hrole. unfold enroll, get_Course_or_404.
    rewrite (bool_decide_eq_true_2 (POST = POST)) by done. cbn [negb]. run.
    rewrite Hc. run. by rewrite Hrole.
  - intros user _ Hnone. apply unenroll_404. apply Forall_filter_nil.
    eapply Forall_impl; [exact Hnone|]. intros r Hr. cbn in Hr.
    do 2 (case_bool_decide; [|done]). cbn.
    rewrite bool_decide_eq_false_2; [done|]. by apply Hr.
Qed.

Lemma Enrollment_ordering_sorted (q : list Enrollment.t) :
  StronglySorted (fun a b => Enrollment.enrolled_at b <= Enrollment.enrolled_at a)
                 (QuerySet.order_by Enrollment_ordering q).
Proof.
  apply (StronglySorted_impl (fun a b => Enrollment_ordering a b = true)).
  - unfold Enrollment_ordering. intros a b Hab. lia.
  - apply order_by_sorted; unfold Enrollment_ordering; intros; lia.
Qed.

(** X9: the teacher's student list holds every enrollment row of the
    course, the dropped and the blocked ones as well as the active ones, and
    no row of another course, the most recently enrolled first. *)
Theorem student_list_shows_every_status (w : World) (teacher : User.t) (pk : Z)
    (course : Course.t) :
  QuerySet.by_pk Course.id (courses (db w)) pk = Some course ->
  Course.teacher_id course = User.id teacher ->
  exists rows,
    CourseStudentListView_get (Authenticated teacher) pk w
      = Ok (TemplateOf "courses/enrollment_list.html" (course, rows)) w
    /\ rows ≡ₚ List.filter (fun e => bool_decide (Enrollment.course_id e = pk))
                           (enrollments (db w))
    /\ (forall e, e ∈ rows <-> e ∈ enrollments (db w) /\ Enrollment.course_id e = pk)
    /\ StronglySorted
         (fun a b => Enrollment.enrolled_at b <= Enrollment.enrolled_at a) rows.
Proof.
  intros Hc Ht. destruct (by_pk_Some _ _ _ _ Hc) as [_ Hpk].
  unfold CourseStudentListView_get. run.
  rewrite (get_taught_Course_run w teacher pk course) by done. run.
  eexists. split; [reflexivity|]. rewrite Hpk.
  split; [apply order_by_Permutation|].
  split; [|apply Enrollment_ordering_sorted].
  intros e. rewrite order_by_Permutation, elem_of_filter.
  by rewrite bool_decide_eq_true.
Qed.

(** Tom's list of the students of Logic: carol, bob and alice, the active,
    the blocked and the dropped one. *)
Lemma student_list_shows_every_status_witness :
  CourseStudentListView_get (Authenticated Sample.tom) 5 Sample.term
  = Ok (TemplateOf "courses/enrollment_list.html"
          (Sample.logic,
           [Sample.carol_logic; Sample.bob_logic; Sample.alice_logic]))
       Sample.term.
Proof.
  destruct (student_list_shows_every_status Sample.term Sample.tom 5
              Sample.logic eq_refl eq_refl)
    as (rows & Hrun & _).
  assert (rows = [Sample.carol_logic; Sample.bob_logic; Sample.alice_logic])
    as <-; [|exact Hrun].
  pose proof Hrun as Hrows. vm_compute in Hrows. by injection Hrows as <-.
Defined.

(** * Leaving a room, and frames that are not messages *)

Lemma disconnect_groups (group channel : string) (w : World) (g : string) :
  groups (world_of (group_discard group channel w)) !!! g
  = if bool_decide (g = group) then groups w !!! g ∖ {[channel]}
    else groups w !!! g.
Proof.
  cbn. case_bool_decide as Hg.
  - subst g. by rewrite lookup_total_insert_eq.
  - by rewrite lookup_total_insert_ne.
Qed.

(** What a stored message does to the queues, in a world whose groups and
    queues the save left alone. *)
Lemma broadcast_after_save (isoformat : datetime -> string)
    (save : Consumer -> string -> M Message.t) (name : Consumer -> string)
    (self : Consumer) (user : User.t) (members : list (string * Py.Json))
    (s : string) (w w1 : World) (m : Message.t) :
  scope_user self = Authenticated user ->
  Py.dict_get members "message" (Py.JString EmptyString) = Py.JString s ->
  Py.truthy (Py.strip s) = true ->
  save self (Py.strip s) w = Ok m w1 ->
  groups w1 = groups w -> inbox w1 = inbox w ->
  exists w2,
    receive_json_with isoformat save name self (Py.JObject members) w = Ok tt w2
    /\ db w2 = db w1
    /\ groups w2 = groups w
    /\ forall c,
         inbox w2 !!! c
         = if bool_decide (c ∈ groups w !!! name self)
           then inbox w !!! c ++ [broadcast_event isoformat user (Py.strip s) m]
           else inbox w !!! c.
Proof.
  intros Hu Hget Htext Hsave Hg Hi.
  eexists. split; [by eapply receive_json_saved|]. cbn.
  split; [done|]. split; [done|]. intros c. by rewrite fan_out, Hg, Hi.
Qed.

(** X10: a consumer that has disconnected gets no more messages of its
    room.  [disconnect] takes the consumer's channel out of the room's group
    and touches no table, no queue and no other membership; a message that
    another connection of the room sends afterwards is stored and put in the
    queue of the channels still in the group, and the queue of the channel
    that left stays as it was. *)
Theorem disconnect_stops_delivery (isoformat : datetime -> string)
    (self peer : Consumer) (user : User.t)
    (members : list (string * Py.Json)) (s : string) (w : World) :
  scope_user peer = Authenticated user ->
  scope_id self = scope_id peer ->
  Py.dict_get members "message" (Py.JString EmptyString) = Py.JString s ->
  Py.truthy (Py.strip s) = true ->
  (* the direct consumer *)
  (direct_authorized (db w) peer ->
   let group := DirectChatConsumer.room_group_name self in
   let w1 := world_of (DirectChatConsumer.disconnect self w) in
   (channel_name self ∉ groups w1 !!! group)
   /\ (forall c, c <> channel_name self ->
                 c ∈ groups w1 !!! group <-> c ∈ groups w !!! group)
   /\ (forall g, g <> group -> groups w1 !!! g = groups w !!! g)
   /\ db w1 = db w /\ inbox w1 = inbox w
   /\ exists m w2,
        DirectChatConsumer_receive_json isoformat peer (Py.JObject members) w1
          = Ok tt w2
        /\ chat_messages (db w2) = chat_messages (db w) ++ [m]
        /\ inbox w2 !!! channel_name self = inbox w !!! channel_name self
        /\ forall c, c <> channel_name self -> c ∈ groups w !!! group ->
             inbox w2 !!! c
             = inbox w !!! c ++ [broadcast_event isoformat user (Py.strip s) m])
  (* the group consumer *)
  /\ (course_authorized (db w) peer ->
      ChatRoom_constraints (chat_rooms (db w)) ->
      let group := GroupChatConsumer.room_group_name self in
      let w1 := world_of (GroupChatConsumer.disconnect self w) in
      (channel_name self ∉ groups w1 !!! group)
      /\ (forall c, c <> channel_name self ->
                    c ∈ groups w1 !!! group <-> c ∈ groups w !!! group)
      /\ (forall g, g <> group -> groups w1 !!! g = groups w !!! g)
      /\ db w1 = db w /\ inbox w1 = inbox w
      /\ exists m w2,
           GroupChatConsumer_receive_json isoformat peer (Py.JObject members) w1
             = Ok tt w2
           /\ chat_messages (db w2) = chat_messages (db w) ++ [m]
           /\ inbox w2 !!! channel_name self = inbox w !!! channel_name self
           /\ forall c, c <> channel_name self -> c ∈ groups w !!! group ->
                inbox w2 !!! c
                = inbox w !!! c ++ [broadcast_event isoformat user (Py.strip s) m]).
Proof.
  intros Hu Hsame Hget Htext.
  assert (forall group w1,
            (forall g, groups w1 !!! g
                       = if bool_decide (g = group)
                         then groups w !!! g ∖ {[channel_name self]}
                         else groups w !!! g) ->
            (channel_name self ∉ groups w1 !!! group)
            /\ (forall c, c <> channel_name self ->
                          c ∈ groups w1 !!! group <-> c ∈ groups w !!! group)
            /\ (forall g, g <> group -> groups w1 !!! g = groups w !!! g))
    as Hleft.
  { intros group w1 Hg. split; [|split].
    - rewrite Hg, bool_decide_eq_true_2 by done.
      rewrite elem_of_difference, elem_of_singleton. by intros [_ ?].
    - intros c Hc. rewrite Hg, bool_decide_eq_true_2 by done.
      rewrite elem_of_difference, elem_of_singleton. tauto.
    - intros g Hne. by rewrite Hg, bool_decide_eq_false_2. }
  split.
  - intros (user' & room & _ & Hin & Hid & _). cbv zeta.
    unfold DirectChatConsumer.disconnect.
    set (group := DirectChatConsumer.room_group_name self).
    set (w1 := world_of (group_discard group (channel_name self) w)).
    pose proof (disconnect_groups group (channel_name self) w) as Hg.
    destruct (Hleft group w1 Hg) as (H1 & H2 & H3).
    split; [done|]. split; [done|]. split; [done|]. split; [done|]. split; [done|].
    destruct (direct_save_message peer user room (Py.strip s) w1 Hu Hin Hid)
      as (w1' & Hsave & Hm & _ & Hg' & Hi' & _).
    destruct (broadcast_after_save isoformat DirectChatConsumer.save_message
                DirectChatConsumer.room_group_name peer user members s w1 w1' _
                Hu Hget Htext Hsave Hg' Hi') as (w2 & Hrun & Hdb & _ & Hbox).
    assert (DirectChatConsumer.room_group_name peer = group) as Hname
      by (unfold group, DirectChatConsumer.room_group_name; by rewrite Hsame).
    rewrite Hname in Hbox.
    eexists _, w2. split; [exact Hrun|]. split; [by rewrite Hdb, Hm|].
    split.
    + rewrite Hbox. by rewrite bool_decide_eq_false_2.
    + intros c Hc Hmem. rewrite Hbox. rewrite bool_decide_eq_true_2; [done|].
      by apply H2.
  - intros (user' & cid & course & _ & Hid & Hc & _) Hcons. cbv zeta.
    unfold GroupChatConsumer.disconnect.
    set (group := GroupChatConsumer.room_group_name self).
    set (w1 := world_of (group_discard group (channel_name self) w)).
    pose proof (disconnect_groups group (channel_name self) w) as Hg.
    destruct (Hleft group w1 Hg) as (H1 & H2 & H3).
    split; [done|]. split; [done|]. split; [done|]. split; [done|]. split; [done|].
    destruct (group_save_message peer user cid course (Py.strip s) w1 Hu Hid Hc Hcons)
      as (room & pre & w1' & Hsave & Hm & _ & _ & _ & Hg' & Hi' & _).
    destruct (broadcast_after_save isoformat GroupChatConsumer.save_message
                GroupChatConsumer.room_group_name peer user members s w1 w1' _
                Hu Hget Htext Hsave Hg' Hi') as (w2 & Hrun & Hdb & _ & Hbox).
    assert (GroupChatConsumer.room_group_name peer = group) as Hname
      by (unfold group, GroupChatConsumer.room_group_name; by rewrite Hsame).
    rewrite Hname in Hbox.
    eexists _, w2. split; [exact Hrun|]. split; [by rewrite Hdb, Hm|].
    split.
    + rewrite Hbox. by rewrite bool_decide_eq_false_2.
    + intros c Hc' Hmem. rewrite Hbox. rewrite bool_decide_eq_true_2; [done|].
      by apply H2.
Qed.

(** Alice closes her connection to the room she shares with bob; bob's next
    message is stored and delivered to bob, and alice's queue stays empty. *)
Lemma disconnect_stops_delivery_witness :
  let w1 := world_of (DirectChatConsumer.disconnect Sample.alice_phone
                        Sample.chat) in
  exists m w2,
    DirectChatConsumer_receive_json Sample.micros Scenario.bob_laptop
      (Py.JObject Sample.hello) w1 = Ok tt w2
    /\ chat_messages (db w2) = [m]
    /\ inbox w2 !!! "alice-phone" = []
    /\ inbox w2 !!! "bob-laptop"
       = [broadcast_event Sample.micros Sample.bob "hello" m].
Proof.
  destruct (disconnect_stops_delivery Sample.micros Sample.alice_phone
              Scenario.bob_laptop Sample.bob Sample.hello "  hello " Sample.chat
              eq_refl eq_refl eq_refl eq_refl) as [Hdirect _].
  assert (direct_authorized (db Sample.chat) Scenario.bob_laptop) as Hauth.
  { exists Sample.bob, Sample.alice_bob_room.
    split; [reflexivity|]. split; [left|]. split; [reflexivity|]. compute_done. }
  destruct (Hdirect Hauth)
    as (_ & _ & _ & _ & _ & m & w2 & Hrun & Hm & Hself & Hrest).
  exists m, w2. split; [exact Hrun|]. split; [exact Hm|]. split; [exact Hself|].
  apply (Hrest "bob-laptop"); compute_done.
Defined.

Lemma join_then_leave (X : gset string) (c : string) :
  c ∉ X -> ({[c]} ∪ X) ∖ {[c]} = X.
Proof.
  intros Hc. apply set_eq. intros x.
  rewrite elem_of_difference, elem_of_union, !elem_of_singleton.
  split; [tauto|]. intros Hx. split; [by right|]. by intros ->.
Qed.

Lemma leave_absent (X : gset string) (c : string) :
  c ∉ X -> X ∖ {[c]} = X.
Proof.
  intros Hc. apply set_eq. intros x.
  rewrite elem_of_difference, elem_of_singleton.
  split; [tauto|]. intros Hx. split; [done|]. by intros ->.
Qed.

Lemma leave_after (group : string) (self : Consumer) (w w1 : World) :
  w1 = w \/ w1 = closed self w \/ w1 = joined group self w ->
  let w2 := world_of (group_discard group (channel_name self) w1) in
  db w2 = db w /\ inbox w2 = inbox w
  /\ (channel_name self ∉ groups w !!! group ->
      forall g, groups w2 !!! g = groups w !!! g).
Proof.
  intros Hw1. cbv zeta. split; [|split].
  - by destruct Hw1 as [->|[->| ->]].
  - by destruct Hw1 as [->|[->| ->]].
  - intros Hc g. rewrite disconnect_groups. case_bool_decide as Hg.
    + subst g. destruct Hw1 as [->|[->| ->]]; cbn.
      * by apply leave_absent.
      * by apply leave_absent.
      * rewrite lookup_total_insert_eq. by apply join_then_leave.
    + destruct Hw1 as [->|[->| ->]]; cbn; [done|done|].
      by rewrite lookup_total_insert_ne.
Qed.

(** X11: connecting and then disconnecting leaves the channel layer as it
    was.  Whether the connection was accepted or closed, after [connect]
    and [disconnect] of a consumer whose channel was in no group of the room
    before, every group has the members it had, and no table and no queue
    has changed. *)
Theorem connect_disconnect_round_trip (self : Consumer) (w : World) :
  let direct :=
    world_of (DirectChatConsumer.disconnect self
                (world_of (DirectChatConsumer.connect self w))) in
  let group :=
    world_of (GroupChatConsumer.disconnect self
                (world_of (GroupChatConsumer.connect self w))) in
  (db direct = db w /\ inbox direct = inbox w
   /\ (channel_name self ∉ groups w !!! DirectChatConsumer.room_group_name self ->
       forall g, groups direct !!! g = groups w !!! g))
  /\ (db group = db w /\ inbox group = inbox w
      /\ (channel_name self ∉ groups w !!! GroupChatConsumer.room_group_name self ->
          forall g, groups group !!! g = groups w !!! g)).
Proof.
  cbv zeta. split.
  - unfold DirectChatConsumer.disconnect. apply leave_after.
    rewrite direct_connect_run.
    destruct (scope_user self); [by right; left|].
    destruct (Py.int (scope_id self)); [|by left].
    destruct (QuerySet.exists_ _); [by right; right|by right; left].
  - unfold GroupChatConsumer.disconnect. apply leave_after.
    rewrite group_connect_run.
    destruct (scope_user self); [by right; left|].
    destruct (Py.int (scope_id self)); [|by left].
    destruct (QuerySet.by_pk _ _ _); [|by right; left].
    destruct (_ || _); [by right; right|by right; left].
Qed.

Lemma dict_get_absent (members : list (string * Py.Json)) (key : string)
    (default : Py.Json) :
  Forall (fun kv => kv.1 <> key) members ->
  Py.dict_get members key default = default.
Proof.
  intros H. unfold Py.dict_get.
  destruct (List.find _ (rev members)) as [kv|] eqn:Hfind; [|done].
  apply find_some in Hfind as [Hin Hkey].
  apply in_rev, list_elem_of_In in Hin. apply bool_decide_eq_true in Hkey.
  by destruct (proj1 (Forall_forall _ _) H kv Hin).
Qed.

(** X12: a frame that is not a message.  When the decoded JSON is not an
    object, or its [message] member is not a string, [receive_json] of
    either consumer raises [AttributeError] before anything is stored or
    sent; an object without a [message] member is read as an empty message
    and ignored. *)
Theorem malformed_frame_raises (isoformat : datetime -> string)
    (self : Consumer) (w : World) :
  let direct := DirectChatConsumer_receive_json isoformat self in
  let group := GroupChatConsumer_receive_json isoformat self in
  (* not an object *)
  (forall content,
     (forall members, content <> Py.JObject members) ->
     direct content w = Raise AttributeError w
     /\ group content w = Raise AttributeError w)
  (* the message is not a string *)
  /\ (forall members,
        (forall s, Py.dict_get members "message" (Py.JString EmptyString)
                   <> Py.JString s) ->
        direct (Py.JObject members) w = Raise AttributeError w
        /\ group (Py.JObject members) w = Raise AttributeError w)
  (* no message at all *)
  /\ (forall members,
        Forall (fun kv => kv.1 <> "message") members ->
        direct (Py.JObject members) w = Ok tt w
        /\ group (Py.JObject members) w = Ok tt w).
Proof.
  cbv zeta.
  unfold DirectChatConsumer_receive_json, GroupChatConsumer_receive_json,
    receive_json_with, message_text_of.
  split; [|split].
  - intros content Hnot. destruct content; try done. by destruct (Hnot members).
  - intros members Hnot.
    destruct (Py.dict_get members "message" (Py.JString EmptyString)) eqn:Hget;
      try done.
    by destruct (Hnot s).
  - intros members Habsent. by rewrite dict_get_absent.
Qed.

(** X13: the consumers check access at [connect] only.  A student whom the
    teacher blocks while the student's course-chat connection is open is
    refused a new connection, but a frame received on the open connection
    is still stored as the student's message and sent to the group. *)
Theorem blocked_member_can_still_post (isoformat : datetime -> string)
    (w : World) (teacher student : User.t) (pk : Z) (course : Course.t)
    (e : Enrollment.t) (self : Consumer)
    (members : list (string * Py.Json)) (s : string) :
  unique_together (enrollments (db w)) ->
  pk_unique Enrollment.id (enrollments (db w)) ->
  ChatRoom_constraints (chat_rooms (db w)) ->
  QuerySet.by_pk Course.id (courses (db w)) pk = Some course ->
  Course.teacher_id course = User.id teacher ->
  e ∈ enrollments (db w) ->
  Enrollment.student_id e = User.id student ->
  Enrollment.course_id e = pk ->
  User.id student <> User.id teacher ->
  scope_user self = Authenticated student ->
  Py.int (scope_id self) = Some pk ->
  Py.dict_get members "message" (Py.JString EmptyString) = Py.JString s ->
  Py.truthy (Py.strip s) = true ->
  exists w1 m w2,
    block_student POST (Authenticated teacher) pk (User.id student) w
      = Ok (redirect "course-students" (Some pk)) w1
    (* a new connection is closed *)
    /\ GroupChatConsumer.connect self w1 = Ok tt (closed self w1)
    (* the open connection still posts *)
    /\ GroupChatConsumer_receive_json isoformat self (Py.JObject members) w1
       = Ok tt w2
    /\ chat_messages (db w2) = chat_messages (db w) ++ [m]
    /\ Message.sender_id m = User.id student
    /\ Message.content m = Py.strip s
    /\ forall c,
         c ∈ groups w !!! GroupChatConsumer.room_group_name self ->
         inbox w2 !!! c
         = inbox w !!! c ++ [broadcast_event isoformat student (Py.strip s) m].
Proof.
  intros Hu Hpk Hcons Hc Ht Hin Hsid Hcid Hne Hself Hscope Hget Htext.
  destruct (manage_student_run w teacher pk course e Hu Hc Ht Hin Hcid) as [Hrun _].
  rewrite Hsid in Hrun.
  set (e' := Enrollment_with_status e BLOCKED (Enrollment.dropped_at e)) in *.
  destruct (replace_enrollment_unique (enrollments (db w)) e e' Hu Hpk Hin)
    as (Hu' & Hpk' & Hin'); [done..|].
  set (w1 := with_log _ (with_log _ (with_db _ w))) in Hrun.
  assert (List.filter
            (fun r => bool_decide (Enrollment.student_id r = User.id student)
                      && bool_decide (Enrollment.course_id r = pk)
                      && bool_decide (Enrollment.status r = ACTIVE))
            (enrollments (db w1)) = []) as Hnone.
  { change (enrollments (db w1)) with (replace_enrollment e' (enrollments (db w))).
    rewrite <- Hsid, <- Hcid. by apply (no_active_row _ e'). }
  destruct (course_chat_denied w1 student pk course self) as [Hclosed _];
    [done|by rewrite Ht|done|done|done|].
  destruct (group_save_message self student pk course (Py.strip s) w1
              Hself Hscope Hc Hcons)
    as (room & pre & w1' & Hsave & Hm & _ & _ & _ & Hg' & Hi' & _).
  destruct (broadcast_after_save isoformat GroupChatConsumer.save_message
              GroupChatConsumer.room_group_name self student members s w1 w1' _
              Hself Hget Htext Hsave Hg' Hi') as (w2 & Hrecv & Hdb & _ & Hbox).
  exists w1. eexists _, w2. split; [exact Hrun|]. split; [exact Hclosed|].
  split; [exact Hrecv|]. split; [by rewrite Hdb, Hm|].
  split; [done|]. split; [done|].
  intros c Hmem. rewrite Hbox. by rewrite bool_decide_eq_true_2.
Qed.

(** Carol is connected to the Logic chat when tom blocks her: a new
    connection of hers is closed, and the open one still posts to tom. *)
Lemma blocked_member_can_still_post_witness :
  exists w1 m w2,
    block_student POST (Authenticated Sample.tom) 5 3 Scenario.lecture
      = Ok (redirect "course-students" (Some 5)) w1
    /\ GroupChatConsumer.connect Scenario.carol_tablet w1
       = Ok tt (closed Scenario.carol_tablet w1)
    /\ GroupChatConsumer_receive_json Sample.micros Scenario.carol_tablet
         (Py.JObject Sample.hello) w1 = Ok tt w2
    /\ chat_messages (db w2) = [m]
    /\ Message.sender_id m = 3
    /\ inbox w2 !!! "tom-desk"
       = [broadcast_event Sample.micros Sample.carol "hello" m].
Proof.
  destruct (blocked_member_can_still_post Sample.micros Scenario.lecture
              Sample.tom Sample.carol 5 Sample.logic Sample.carol_logic
              Scenario.carol_tablet Sample.hello "  hello ")
    as (w1 & m & w2 & Hblock & Hconn & Hrecv & Hm & Hsender & _ & Hbox).
  - unfold unique_together. compute_done.
  - unfold pk_unique. compute_done.
  - split; constructor.
  - reflexivity.
  - reflexivity.
  - compute_done.
  - reflexivity.
  - reflexivity.
  - compute_done.
  - reflexivity.
  - reflexivity.
  - reflexivity.
  - reflexivity.
  - exists w1, m, w2. split; [exact Hblock|]. split; [exact Hconn|].
    split; [exact Hrecv|]. split; [exact Hm|]. split; [exact Hsender|].
    apply (Hbox "tom-desk"). compute_done.
Defined.

(** * The course-chat page and the room list *)

Lemma filter_map_commute {A} (P : A -> bool) (f : A -> A) (l : list A) :
  (forall x, P (f x) = P x) ->
  List.filter P (map f l) = map f (List.filter P l).
Proof.
  intros HP. induction l as [|a l IH]; [done|]. cbn. rewrite HP.
  destruct (P a); cbn; by rewrite IH.
Qed.

Lemma add_participant_keeps (room : ChatRoom.t) (uid : Z) :
  ChatRoom.id (add_participant room uid) = ChatRoom.id room
  /\ ChatRoom.name (add_participant room uid) = ChatRoom.name room
  /\ ChatRoom.course_id (add_participant room uid) = ChatRoom.course_id room
  /\ ChatRoom.room_type (add_participant room uid) = ChatRoom.room_type room
  /\ uid ∈ ChatRoom.participants (add_participant room uid).
Proof.
  unfold add_participant. case_bool_decide; cbn; [done|].
  repeat split. apply elem_of_app. right. left.
Qed.

Lemma joined_rooms_keeps (room : ChatRoom.t) (uid : Z) (r : ChatRoom.t) :
  let r' := if bool_decide (ChatRoom.id r = ChatRoom.id room)
            then add_participant r uid else r in
  ChatRoom.course_id r' = ChatRoom.course_id r
  /\ ChatRoom.room_type r' = ChatRoom.room_type r
  /\ ChatRoom.id r' = ChatRoom.id r.
Proof.
  cbv zeta. case_bool_decide; [|done].
  by destruct (add_participant_keeps r uid) as (? & ? & ? & ? & ?).
Qed.

Lemma joined_rooms_constraints (room : ChatRoom.t) (uid : Z)
    (rooms : list ChatRoom.t) :
  ChatRoom_constraints rooms -> ChatRoom_constraints (joined_rooms room uid rooms).
Proof.
  intros [Hnd Hty]. unfold joined_rooms. split.
  - replace (omap ChatRoom.course_id (map _ rooms))
      with (omap ChatRoom.course_id rooms); [done|].
    clear. induction rooms as [|a rooms IH]; [done|]. cbn.
    destruct (joined_rooms_keeps room uid a) as (-> & _ & _).
    by rewrite IH.
  - apply Forall_forall. intros r' Hr'.
    apply list_elem_of_In, in_map_iff in Hr' as (r & <- & Hr).
    apply list_elem_of_In in Hr.
    destruct (joined_rooms_keeps room uid r) as (-> & -> & _).
    by apply (proj1 (Forall_forall _ _) Hty).
Qed.

Lemma course_room_filter_joined (room : ChatRoom.t) (uid pk : Z)
    (rooms : list ChatRoom.t) :
  List.filter
    (fun r => bool_decide (ChatRoom.course_id r = Some pk)
              && bool_decide (ChatRoom.room_type r = COURSE))
    (joined_rooms room uid rooms)
  = joined_rooms room uid
      (List.filter
         (fun r => bool_decide (ChatRoom.course_id r = Some pk)
                   && bool_decide (ChatRoom.room_type r = COURSE)) rooms).
Proof.
  unfold joined_rooms. apply filter_map_commute. intros r.
  by destruct (joined_rooms_keeps room uid r) as (-> & -> & _).
Qed.

Lemma constraints_snoc (rooms : list ChatRoom.t) (room : ChatRoom.t) (pk : Z) :
  ChatRoom_constraints rooms ->
  existsb (fun r => bool_decide (ChatRoom.course_id r = Some pk)) rooms = false ->
  ChatRoom.course_id room = Some pk -> ChatRoom.room_type room = COURSE ->
  ChatRoom_constraints (rooms ++ [room]).
Proof.
  intros [Hnd Hty] Hnone Hc Ht. split.
  - rewrite omap_app. cbn. rewrite Hc. cbn.
    apply NoDup_app. split; [done|]. split; [|apply NoDup_singleton].
    intros x Hx Hx'. apply list_elem_of_singleton in Hx' as ->.
    apply list_elem_of_omap in Hx as (r & Hr & Hrc).
    assert (existsb (fun r => bool_decide (ChatRoom.course_id r = Some pk)) rooms
            = true) as Hex; [|by rewrite Hex in Hnone].
    apply existsb_exists. exists r. split; [by apply list_elem_of_In|].
    by apply bool_decide_eq_true.
  - apply Forall_app. split; [done|]. by apply Forall_singleton.
Qed.

(** The course-chat page, for a caller with access. *)
Lemma CourseGroupChatView_get_run (w : World) (user : User.t) (pk : Z)
    (course : Course.t) :
  QuerySet.by_pk Course.id (courses (db w)) pk = Some course ->
  IsEnrolledOrTeacher_has_object_permission (db w) user course = true ->
  ChatRoom_constraints (chat_rooms (db w)) ->
  let q d := List.filter
               (fun r => bool_decide (ChatRoom.course_id r = Some pk)
                         && bool_decide (ChatRoom.room_type r = COURSE))
               (chat_rooms d) in
  exists room w',
    CourseGroupChatView_get (Authenticated user) pk w
      = Ok (render "chat/chat_room.html" room (load_message_history (db w') room)) w'
    /\ q (db w') = [add_participant room (User.id user)]
    /\ ChatRoom_constraints (chat_rooms (db w'))
    /\ users (db w') = users (db w) /\ courses (db w') = courses (db w)
    /\ enrollments (db w') = enrollments (db w)
    /\ chat_messages (db w') = chat_messages (db w)
    /\ groups w' = groups w /\ inbox w' = inbox w
    /\ ((* the course has its room *)
        (q (db w) = [room]
         /\ (User.id user ∈ ChatRoom.participants room -> w' = w)
         /\ (User.id user ∉ ChatRoom.participants room ->
             chat_rooms (db w') = joined_rooms room (User.id user) (chat_rooms (db w))
             /\ new_effects w (Ok tt w')
                = [Update T_ChatRoom_participants (ChatRoom.id room)]))
        (* or it has none, and the page creates it *)
        \/ (q (db w) = []
            /\ room = new_course_room w pk (Course.code course +:+ " - Group Chat")
            /\ chat_rooms (db w')
               = chat_rooms (db w) ++ [add_participant room (User.id user)]
            /\ new_effects w (Ok tt w')
               = [Insert T_ChatRoom (ChatRoom.id room);
                  Update T_ChatRoom_participants (ChatRoom.id room)])).
Proof.
  intros Hc Hacc Hcons. cbv zeta.
  destruct (by_pk_Some _ _ _ _ Hc) as [_ Hpk].
  assert (bool_decide (Course.teacher_id course = User.id user)
          || QuerySet.exists_
               (List.filter
                  (fun e =>
                     bool_decide (Enrollment.student_id e = User.id user)
                     && bool_decide (Enrollment.course_id e = Course.id course)
                     && bool_decide (Enrollment.status e = ACTIVE))
                  (enrollments (db w))) = true) as Hacc'.
  { unfold IsEnrolledOrTeacher_has_object_permission in Hacc.
    by destruct (bool_decide (Course.teacher_id course = User.id user)). }
  unfold CourseGroupChatView_get, get_Course_or_404. run. rewrite Hc. run.
  rewrite Hacc'. cbn [negb].
  unfold ChatRoom_objects_get_or_create. run. rewrite Hpk.
  destruct (course_room_unique _ pk Hcons) as [[Hq Hnone]|[room Hq]].
  - rewrite Hq. unfold ChatRoom_objects_create. run. rewrite Hc, Hnone.
    rewrite bool_decide_eq_true_2 by by eexists.
    cbn [andb negb fst ChatRoom.participants].
    rewrite (bool_decide_eq_false_2 (User.id user ∈ [])) by apply not_elem_of_nil.
    cbn [negb]. unfold ChatRoom_participants_add. run.
    set (room := ChatRoom.mk _ _ COURSE (Some pk) [] (now w)).
    assert (joined_rooms room (User.id user) (chat_rooms (db w) ++ [room])
            = chat_rooms (db w) ++ [add_participant room (User.id user)]) as Hmap.
    { unfold joined_rooms. rewrite map_app. cbn [map].
      rewrite bool_decide_eq_true_2 by done.
      by rewrite (map_update_fresh ChatRoom.id
                    (fun r => add_participant r (User.id user)))
        by apply next_pk_fresh. }
    exists room. eexists. split; [reflexivity|]. cbn.
    change (map _ (chat_rooms (db w) ++ [room]))
      with (joined_rooms room (User.id user) (chat_rooms (db w) ++ [room])).
    rewrite Hmap.
    split.
    { rewrite List.filter_app, Hq.
      destruct (add_participant_keeps room (User.id user)) as (_ & _ & Hk1 & Hk2 & _).
      cbn [List.filter app]. rewrite Hk1, Hk2.
      by rewrite !bool_decide_eq_true_2. }
    split.
    { destruct (add_participant_keeps room (User.id user)) as (_ & _ & Hk1 & Hk2 & _).
      apply constraints_snoc with (pk := pk); by rewrite ?Hk1, ?Hk2. }
    repeat (split; [done|]). right. split; [done|]. split; [done|].
    split; [done|].
    unfold new_effects. cbn. by rewrite <- app_assoc, drop_app_length.
  - rewrite Hq. run. cbn [fst].
    destruct (decide (User.id user ∈ ChatRoom.participants room)) as [Hmem|Hmem].
    + rewrite (bool_decide_eq_true_2 _ Hmem). cbn [negb]. run.
      exists room, w. split; [reflexivity|].
      split.
      { rewrite Hq. unfold add_participant. by rewrite bool_decide_eq_true_2. }
      repeat (split; [done|]). left. by repeat split.
    + rewrite (bool_decide_eq_false_2 _ Hmem). cbn [negb].
      unfold ChatRoom_participants_add. run.
      exists room. eexists. split; [reflexivity|]. cbn.
      change (map _ (chat_rooms (db w)))
        with (joined_rooms room (User.id user) (chat_rooms (db w))).
      split.
      { rewrite course_room_filter_joined, Hq. unfold joined_rooms. cbn.
        by rewrite bool_decide_eq_true_2. }
      split; [by apply joined_rooms_constraints|].
      repeat (split; [done|]). left. split; [done|]. split; [done|].
      intros _. split; [done|].
      unfold new_effects. cbn. by rewrite drop_app_length.
Qed.

(** X14: one access rule for the course chat.  For a course that exists,
    the permission class [IsEnrolledOrTeacher], the WebSocket consumer and
    the chat page decide alike: the caller is let in when it is the teacher
    of the course or holds an active enrollment for it, and in no other
    case.  A caller without access is closed by the consumer and redirected
    to the course list by the page, and nothing changes. *)
Theorem course_access_is_one_rule (w : World) (user : User.t) (pk : Z)
    (course : Course.t) (self : Consumer) :
  QuerySet.by_pk Course.id (courses (db w)) pk = Some course ->
  ChatRoom_constraints (chat_rooms (db w)) ->
  scope_user self = Authenticated user ->
  Py.int (scope_id self) = Some pk ->
  let allowed := IsEnrolledOrTeacher_has_object_permission (db w) user course in
  (allowed = true
   <-> Course.teacher_id course = User.id user
       \/ exists e,
            e ∈ enrollments (db w)
            /\ Enrollment.student_id e = User.id user
            /\ Enrollment.course_id e = pk
            /\ Enrollment.status e = ACTIVE)
  /\ (allowed = true <-> accepted self w (GroupChatConsumer.connect self w))
  /\ (allowed = true
      <-> exists room history w',
            CourseGroupChatView_get (Authenticated user) pk w
            = Ok (render "chat/chat_room.html" room history) w')
  /\ (allowed = false
      <-> GroupChatConsumer.connect self w = Ok tt (closed self w))
  /\ (allowed = false
      <-> CourseGroupChatView_get (Authenticated user) pk w
          = Ok (redirect "course-list" None) w).
Proof.
  intros Hc Hcons Hself Hscope. cbv zeta.
  destruct (by_pk_Some _ _ _ _ Hc) as [_ Hpk].
  assert (IsEnrolledOrTeacher_has_object_permission (db w) user course
          = bool_decide (Course.teacher_id course = User.id user)
            || QuerySet.exists_
                 (List.filter
                    (fun e =>
                       bool_decide (Enrollment.student_id e = User.id user)
                       && bool_decide (Enrollment.course_id e = Course.id course)
                       && bool_decide (Enrollment.status e = ACTIVE))
                    (enrollments (db w)))) as Hperm.
  { unfold IsEnrolledOrTeacher_has_object_permission.
    by destruct (bool_decide (Course.teacher_id course = User.id user)). }
  assert (GroupChatConsumer.connect self w
          = if IsEnrolledOrTeacher_has_object_permission (db w) user course
            then Ok tt (joined (GroupChatConsumer.room_group_name self) self w)
            else Ok tt (closed self w)) as Hconn.
  { by rewrite group_connect_run, Hself, Hscope, Hc, Hperm. }
  split; [|split; [|split; [|split]]].
  - rewrite Hperm, orb_true_iff, bool_decide_eq_true, exists_filter.
    apply or_iff_compat_l. split.
    + intros (e & Hin & HP). apply andb_prop in HP as [HP H3].
      apply andb_prop in HP as [H1 H2]. apply bool_decide_eq_true in H1, H2, H3.
      exists e. by rewrite <- Hpk.
    + intros (e & Hin & H1 & H2 & H3). exists e. split; [done|].
      rewrite Hpk. by rewrite !bool_decide_eq_true_2.
  - rewrite Hconn.
    destruct (IsEnrolledOrTeacher_has_object_permission (db w) user course).
    + split; [|done]. intros _. apply accepted_joined.
    + split; [done|]. intros H. by apply not_accepted_closed in H.
  - destruct (IsEnrolledOrTeacher_has_object_permission (db w) user course) eqn:Hacc.
    + split; [|done]. intros _.
      destruct (CourseGroupChatView_get_run w user pk course Hc Hacc Hcons)
        as (room & w' & Hrun & _).
      by eexists _, _, _.
    + split; [done|]. intros (room & history & w' & Hrun). exfalso.
      revert Hrun. unfold CourseGroupChatView_get, get_Course_or_404. run.
      rewrite Hc. run. by rewrite <- Hperm.
  - rewrite Hconn.
    destruct (IsEnrolledOrTeacher_has_object_permission (db w) user course).
    + split; [done|]. intros H. apply (f_equal world_of) in H.
      apply (f_equal log) in H. cbn in H.
      apply (f_equal length) in H. rewrite !length_app in H. cbn in H. lia.
    + done.
  - destruct (IsEnrolledOrTeacher_has_object_permission (db w) user course) eqn:Hacc.
    + split; [done|]. intros Hrun. exfalso.
      destruct (CourseGroupChatView_get_run w user pk course Hc Hacc Hcons)
        as (room & w' & Hrun' & _).
      by rewrite Hrun' in Hrun.
    + split; [|done]. intros _.
      unfold CourseGroupChatView_get, get_Course_or_404. run.
      rewrite Hc. run. by rewrite <- Hperm.
Qed.

(** Carol attends Logic: her connection to its chat is accepted.  Bob is
    blocked from it: his connection is closed and the page redirects. *)
Lemma course_access_is_one_rule_witness :
  accepted Scenario.carol_tablet Sample.term
    (GroupChatConsumer.connect Scenario.carol_tablet Sample.term)
  /\ (exists room history w',
        CourseGroupChatView_get (Authenticated Sample.carol) 5 Sample.term
        = Ok (render "chat/chat_room.html" room history) w')
  /\ GroupChatConsumer.connect Scenario.bob_tablet Sample.term
     = Ok tt (closed Scenario.bob_tablet Sample.term)
  /\ CourseGroupChatView_get (Authenticated Sample.bob) 5 Sample.term
     = Ok (redirect "course-list" None) Sample.term.
Proof.
  assert (ChatRoom_constraints (chat_rooms (db Sample.term))) as Hrooms
    by (split; constructor).
  destruct (course_access_is_one_rule Sample.term Sample.carol 5 Sample.logic
              Scenario.carol_tablet eq_refl Hrooms eq_refl eq_refl)
    as (_ & Hconn & Hpage & _).
  destruct (course_access_is_one_rule Sample.term Sample.bob 5 Sample.logic
              Scenario.bob_tablet eq_refl Hrooms eq_refl eq_refl)
    as (_ & _ & _ & Hclosed & Hredirect).
  split; [by apply Hconn|]. split; [by apply Hpage|].
  split; [by apply Hclosed|by apply Hredirect].
Defined.

Lemma perm_depends_on_enrollments (d d' : Database) (user : User.t)
    (course : Course.t) :
  enrollments d' = enrollments d ->
  IsEnrolledOrTeacher_has_object_permission d' user course
  = IsEnrolledOrTeacher_has_object_permission d user course.
Proof.
  intros H. unfold IsEnrolledOrTeacher_has_object_permission. by rewrite H.
Qed.

(** X15: the course-chat page sets the room up once.  For a caller with
    access, the page shows the room of the course and makes the caller one
    of its participants; when the course has no room the page creates it,
    named "<code> - Group Chat", with the caller as its only participant,
    and when it has one no room is added.  A second request of the same
    caller changes nothing and shows the same room. *)
Theorem course_chat_page_bootstrap (w : World) (user : User.t) (pk : Z)
    (course : Course.t) :
  QuerySet.by_pk Course.id (courses (db w)) pk = Some course ->
  IsEnrolledOrTeacher_has_object_permission (db w) user course = true ->
  ChatRoom_constraints (chat_rooms (db w)) ->
  exists room1 history1 w1 room2 history2,
    CourseGroupChatView_get (Authenticated user) pk w
      = Ok (render "chat/chat_room.html" room1 history1) w1
    /\ ChatRoom.course_id room1 = Some pk
    /\ ChatRoom.room_type room1 = COURSE
    (* the caller is a participant of the stored room *)
    /\ (exists stored,
          stored ∈ chat_rooms (db w1)
          /\ ChatRoom.id stored = ChatRoom.id room1
          /\ User.id user ∈ ChatRoom.participants stored)
    (* no room yet: one is created *)
    /\ (Forall (fun r => ChatRoom.course_id r <> Some pk) (chat_rooms (db w)) ->
        chat_rooms (db w1)
        = chat_rooms (db w)
            ++ [ChatRoom.mk (QuerySet.next_pk (ChatRoom.id <$> chat_rooms (db w)))
                            (Course.code course +:+ " - Group Chat")
                            COURSE (Some pk) [User.id user] (now w)])
    (* the course has its room: it is the one shown, and none is added *)
    /\ (forall room,
          room ∈ chat_rooms (db w) -> ChatRoom.course_id room = Some pk ->
          room1 = room
          /\ length (chat_rooms (db w1)) = length (chat_rooms (db w)))
    (* the second request *)
    /\ CourseGroupChatView_get (Authenticated user) pk w1
       = Ok (render "chat/chat_room.html" room2 history2) w1
    /\ ChatRoom.id room2 = ChatRoom.id room1.
Proof.
  intros Hc Hacc Hcons.
  destruct (CourseGroupChatView_get_run w user pk course Hc Hacc Hcons)
    as (room1 & w1 & Hrun1 & Hq1 & Hcons1 & _ & Hcourses & Henr & _ & _ & _ & Hcase).
  assert (QuerySet.by_pk Course.id (courses (db w1)) pk = Some course) as Hc1
    by by rewrite Hcourses.
  assert (IsEnrolledOrTeacher_has_object_permission (db w1) user course = true)
    as Hacc1 by by rewrite (perm_depends_on_enrollments (db w) (db w1)).
  destruct (CourseGroupChatView_get_run w1 user pk course Hc1 Hacc1 Hcons1)
    as (room2 & w2 & Hrun2 & _ & _ & _ & _ & _ & _ & _ & _ & Hcase2).
  destruct (add_participant_keeps room1 (User.id user))
    as (Hk0 & Hkn & Hk1 & Hk2 & Hk3).
  assert (add_participant room1 (User.id user) ∈ chat_rooms (db w1)
          /\ ChatRoom.course_id room1 = Some pk
          /\ ChatRoom.room_type room1 = COURSE) as (Hstored & Hcid & Hty).
  { pose proof (filter_singleton_elem _ _ _ Hq1) as [Hin HP].
    apply andb_prop in HP as [H1 H2]. apply bool_decide_eq_true in H1, H2.
    by rewrite <- Hk1, <- Hk2. }
  assert (room2 = add_participant room1 (User.id user) /\ w2 = w1) as [-> ->].
  { destruct Hcase2 as [(Hq2 & Hsame & _)|(Hq2 & _)].
    - rewrite Hq1 in Hq2. injection Hq2 as <-. split; [done|]. by apply Hsame.
    - by rewrite Hq1 in Hq2. }
  exists room1, (load_message_history (db w1) room1), w1.
  eexists _, _. split; [exact Hrun1|]. split; [done|]. split; [done|].
  split; [by eexists|].
  split; [|split; [|split; [exact Hrun2|done]]].
  - intros Hnone. destruct Hcase as [(Hq & _)|(_ & -> & Hrooms & _)].
    + exfalso. destruct (filter_singleton_elem _ _ _ Hq) as [Hin _].
      by apply (proj1 (Forall_forall _ _) Hnone room1 Hin).
    + rewrite Hrooms. unfold add_participant, new_course_room. cbn.
      by rewrite (bool_decide_eq_false_2 (User.id user ∈ []))
        by apply not_elem_of_nil.
  - intros room Hin Hroom.
    assert (room ∈ List.filter
                     (fun r => bool_decide (ChatRoom.course_id r = Some pk)
                               && bool_decide (ChatRoom.room_type r = COURSE))
                     (chat_rooms (db w))) as Hq.
    { apply elem_of_filter. split; [done|].
      destruct Hcons as [_ Hall].
      rewrite !bool_decide_eq_true_2; [done| |done].
      apply (proj1 (Forall_forall _ _) Hall room Hin). by rewrite Hroom. }
    destruct Hcase as [(Hq' & Hmem & Hnot)|(Hq' & _)].
    + rewrite Hq' in Hq. apply list_elem_of_singleton in Hq as ->.
      split; [done|].
      destruct (decide (User.id user ∈ ChatRoom.participants room1)) as [Hm|Hm].
      * by rewrite (Hmem Hm).
      * destruct (Hnot Hm) as [-> _]. unfold joined_rooms. by rewrite length_map.
    + rewrite Hq' in Hq. by apply elem_of_nil in Hq.
Qed.

(** Tom opens the chat page of Logic, which has no room yet: the room is
    created with tom in it, and the second request shows the same room. *)
Lemma course_chat_page_bootstrap_witness :
  exists room1 history1 w1 room2 history2,
    CourseGroupChatView_get (Authenticated Sample.tom) 5 Sample.term
      = Ok (render "chat/chat_room.html" room1 history1) w1
    /\ chat_rooms (db w1)
       = [ChatRoom.mk 1 "LOG101 - Group Chat" COURSE (Some 5) [9] 1000]
    /\ CourseGroupChatView_get (Authenticated Sample.tom) 5 w1
       = Ok (render "chat/chat_room.html" room2 history2) w1
    /\ ChatRoom.id room2 = ChatRoom.id room1.
Proof.
  destruct (course_chat_page_bootstrap Sample.term Sample.tom 5 Sample.logic)
    as (room1 & history1 & w1 & room2 & history2
        & Hfirst & _ & _ & _ & Hnew & _ & Hsecond & Hsame).
  - reflexivity.
  - reflexivity.
  - split; constructor.
  - exists room1, history1, w1, room2, history2.
    split; [exact Hfirst|]. split; [|by split].
    rewrite Hnew by constructor. reflexivity.
Defined.

(** [GroupChatConsumer.save_message], by what the room table holds. *)
Lemma group_save_message_run (self : Consumer) (user : User.t) (pk : Z)
    (course : Course.t) (text : string) (w : World) :
  scope_user self = Authenticated user ->
  Py.int (scope_id self) = Some pk ->
  QuerySet.by_pk Course.id (courses (db w)) pk = Some course ->
  let q := List.filter
             (fun r => bool_decide (ChatRoom.course_id r = Some pk)
                       && bool_decide (ChatRoom.room_type r = COURSE))
             (chat_rooms (db w)) in
  let stored room w :=
    Ok (new_message w (ChatRoom.id room) (User.id user) text)
       (with_log
          (fun l => l ++ [Insert T_Message
                            (QuerySet.next_pk (Message.id <$> chat_messages (db w)))])
          (with_db
             (set_chat_messages
                (fun rows => rows ++ [new_message w (ChatRoom.id room)
                                        (User.id user) text])) w)) in
  (forall room, q = [room] ->
     GroupChatConsumer.save_message self text w = stored room w)
  /\ (q = [] ->
      existsb (fun r => bool_decide (ChatRoom.course_id r = Some pk))
              (chat_rooms (db w)) = false ->
      let room := new_course_room w pk ("Course " +:+ scope_id self +:+ " Chat") in
      GroupChatConsumer.save_message self text w
      = stored room
          (with_log (fun l => l ++ [Insert T_ChatRoom (ChatRoom.id room)])
             (with_db (set_chat_rooms (fun rows => rows ++ [room])) w))).
Proof.
  intros Hu Hid Hc. cbv zeta. split.
  - intros room Hq.
    destruct (filter_singleton_elem _ _ _ Hq) as [Hin _].
    unfold GroupChatConsumer.save_message, ChatRoom_objects_get_or_create, sender_of.
    rewrite Hid, Hu. run. rewrite Hq. run. cbn [fst].
    by rewrite Message_create_run by by apply by_pk_elem_of.
  - intros Hq Hnone.
    unfold GroupChatConsumer.save_message, ChatRoom_objects_get_or_create,
      ChatRoom_objects_create, sender_of.
    rewrite Hid, Hu. run. rewrite Hq. run. rewrite Hc, Hnone.
    rewrite bool_decide_eq_true_2 by by eexists. cbn [andb negb fst].
    rewrite Message_create_run; [done|].
    cbn. apply (by_pk_elem_of ChatRoom.id _
                  (new_course_room w pk ("Course " +:+ scope_id self +:+ " Chat"))).
    apply elem_of_app. right. left.
Qed.

Lemma no_course_room (rooms : list ChatRoom.t) (pk : Z) :
  Forall (fun r => ChatRoom.course_id r <> Some pk) rooms ->
  List.filter
    (fun r => bool_decide (ChatRoom.course_id r = Some pk)
              && bool_decide (ChatRoom.room_type r = COURSE)) rooms = []
  /\ existsb (fun r => bool_decide (ChatRoom.course_id r = Some pk)) rooms = false.
Proof.
  intros H. split.
  - apply Forall_filter_nil. eapply Forall_impl; [exact H|].
    intros r Hr. cbn in Hr. by rewrite bool_decide_eq_false_2.
  - apply existsb_false. intros r Hr.
    rewrite bool_decide_eq_false_2; [done|].
    by apply (proj1 (Forall_forall _ _) H).
Qed.

(** X16: the page and the consumer share the room of a course, and the
    first of them to need it creates it.  For a course without a room and a
    caller with access: when the page is requested first, it creates the
    room, named "<code> - Group Chat", and a message then received on the
    WebSocket is stored in that room; when the message comes first, the
    consumer creates the room, named "Course <id> Chat", and the page then
    shows that room.  Either way the course ends up with one room. *)
Theorem course_room_is_shared (isoformat : datetime -> string) (w : World)
    (user : User.t) (pk : Z) (course : Course.t) (self : Consumer)
    (members : list (string * Py.Json)) (s : string) :
  QuerySet.by_pk Course.id (courses (db w)) pk = Some course ->
  IsEnrolledOrTeacher_has_object_permission (db w) user course = true ->
  ChatRoom_constraints (chat_rooms (db w)) ->
  Forall (fun r => ChatRoom.course_id r <> Some pk) (chat_rooms (db w)) ->
  scope_user self = Authenticated user ->
  Py.int (scope_id self) = Some pk ->
  Py.dict_get members "message" (Py.JString EmptyString) = Py.JString s ->
  Py.truthy (Py.strip s) = true ->
  (* the page first, then a message *)
  (exists room history w1 m w2,
     CourseGroupChatView_get (Authenticated user) pk w
       = Ok (render "chat/chat_room.html" room history) w1
     /\ ChatRoom.name room = Course.code course +:+ " - Group Chat"
     /\ GroupChatConsumer_receive_json isoformat self (Py.JObject members) w1
        = Ok tt w2
     /\ chat_messages (db w2) = chat_messages (db w) ++ [m]
     /\ Message.room_id m = ChatRoom.id room
     /\ chat_rooms (db w2) = chat_rooms (db w1)
     /\ length (chat_rooms (db w2)) = S (length (chat_rooms (db w))))
  (* a message first, then the page *)
  /\ (exists m w1 room history w2,
        GroupChatConsumer_receive_json isoformat self (Py.JObject members) w
          = Ok tt w1
        /\ chat_messages (db w1) = chat_messages (db w) ++ [m]
        /\ CourseGroupChatView_get (Authenticated user) pk w1
           = Ok (render "chat/chat_room.html" room history) w2
        /\ ChatRoom.name room = "Course " +:+ scope_id self +:+ " Chat"
        /\ Message.room_id m = ChatRoom.id room
        /\ length (chat_rooms (db w2)) = S (length (chat_rooms (db w)))).
Proof.
  intros Hc Hacc Hcons Hnone Hself Hscope Hget Htext.
  destruct (no_course_room _ pk Hnone) as [Hq Hex].
  split.
  - destruct (CourseGroupChatView_get_run w user pk course Hc Hacc Hcons)
      as (room & w1 & Hrun & Hq1 & _ & _ & Hcourses & _ & Hmsgs & _ & _ & Hcase).
    destruct Hcase as [(Hq' & _)|(_ & Hroom & Hrooms & _)];
      [by rewrite Hq in Hq'|].
    assert (QuerySet.by_pk Course.id (courses (db w1)) pk = Some course) as Hc1
      by by rewrite Hcourses.
    destruct (group_save_message_run self user pk course (Py.strip s) w1
                Hself Hscope Hc1) as [Hsave _].
    specialize (Hsave _ Hq1).
    destruct (broadcast_after_save isoformat GroupChatConsumer.save_message
                GroupChatConsumer.room_group_name self user members s w1 _ _
                Hself Hget Htext Hsave eq_refl eq_refl)
      as (w2 & Hrecv & Hdb & _).
    exists room, (load_message_history (db w1) room), w1. eexists _, w2.
    split; [exact Hrun|]. split; [by rewrite Hroom|].
    split; [exact Hrecv|]. rewrite Hdb. cbn.
    split; [by rewrite Hmsgs|].
    split; [by destruct (add_participant_keeps room (User.id user)) as (-> & _)|].
    split; [done|]. rewrite Hrooms, length_app. cbn. lia.
  - destruct (group_save_message_run self user pk course (Py.strip s) w
                Hself Hscope Hc) as [_ Hsave].
    specialize (Hsave Hq Hex). cbv zeta in Hsave.
    set (room := new_course_room w pk ("Course " +:+ scope_id self +:+ " Chat")) in *.
    destruct (broadcast_after_save isoformat GroupChatConsumer.save_message
                GroupChatConsumer.room_group_name self user members s w _ _
                Hself Hget Htext Hsave eq_refl eq_refl)
      as (w1 & Hrecv & Hdb & _).
    cbn in Hdb.
    assert (chat_rooms (db w1) = chat_rooms (db w) ++ [room]) as Hrooms1
      by by rewrite Hdb.
    assert (QuerySet.by_pk Course.id (courses (db w1)) pk = Some course) as Hc1
      by by rewrite Hdb.
    assert (IsEnrolledOrTeacher_has_object_permission (db w1) user course = true)
      as Hacc1 by by rewrite Hdb.
    assert (ChatRoom_constraints (chat_rooms (db w1))) as Hcons1.
    { rewrite Hrooms1. by apply constraints_snoc with (pk := pk). }
    destruct (CourseGroupChatView_get_run w1 user pk course Hc1 Hacc1 Hcons1)
      as (room' & w2 & Hrun & _ & _ & _ & _ & _ & _ & _ & _ & Hcase).
    assert (List.filter
              (fun r => bool_decide (ChatRoom.course_id r = Some pk)
                        && bool_decide (ChatRoom.room_type r = COURSE))
              (chat_rooms (db w1)) = [room]) as Hq1.
    { rewrite Hrooms1, List.filter_app, Hq. cbn.
      by rewrite !bool_decide_eq_true_2. }
    destruct Hcase as [(Hq' & _ & Hadd)|(Hq' & _)]; [|by rewrite Hq1 in Hq'].
    rewrite Hq1 in Hq'. injection Hq' as <-.
    destruct (Hadd (not_elem_of_nil (User.id user))) as [Hrooms2 _].
    eexists _, w1, room, _, w2. split; [exact Hrecv|].
    split; [by rewrite Hdb|]. split; [exact Hrun|]. split; [done|].
    split; [done|].
    rewrite Hrooms2. unfold joined_rooms. rewrite length_map, Hrooms1, length_app.
    cbn. lia.
Qed.

(** The Logic chat has no room.  When tom opens the page first, his message
    goes to the room the page made; when he writes first, the page shows the
    room the consumer made, under the consumer's name for it. *)
Lemma course_room_is_shared_witness :
  (exists room history w1 m w2,
     CourseGroupChatView_get (Authenticated Sample.tom) 5 Sample.term
       = Ok (render "chat/chat_room.html" room history) w1
     /\ ChatRoom.name room = "LOG101 - Group Chat"
     /\ GroupChatConsumer_receive_json Sample.micros Sample.tom_desk
          (Py.JObject Sample.hello) w1 = Ok tt w2
     /\ Message.room_id m = ChatRoom.id room
     /\ length (chat_rooms (db w2)) = 1%nat)
  /\ (exists m w1 room history w2,
        GroupChatConsumer_receive_json Sample.micros Sample.tom_desk
          (Py.JObject Sample.hello) Sample.term = Ok tt w1
        /\ CourseGroupChatView_get (Authenticated Sample.tom) 5 w1
           = Ok (render "chat/chat_room.html" room history) w2
        /\ ChatRoom.name room = "Course 5 Chat"
        /\ Message.room_id m = ChatRoom.id room
        /\ length (chat_rooms (db w2)) = 1%nat).
Proof.
  destruct (course_room_is_shared Sample.micros Sample.term Sample.tom 5
              Sample.logic Sample.tom_desk Sample.hello "  hello ")
    as [(room & history & w1 & m & w2 & Hpage & Hname & Hrecv & _ & Hroom & _ & Hlen)
        (m' & w1' & room' & history' & w2' & Hrecv' & _ & Hpage' & Hname' & Hroom'
         & Hlen')].
  - reflexivity.
  - reflexivity.
  - split; constructor.
  - constructor.
  - reflexivity.
  - reflexivity.
  - reflexivity.
  - reflexivity.
  - split.
    + exists room, history, w1, m, w2. split; [exact Hpage|].
      split; [exact Hname|]. split; [exact Hrecv|]. split; [exact Hroom|].
      exact Hlen.
    + exists m', w1', room', history', w2'. split; [exact Hrecv'|].
      split; [exact Hpage'|]. split; [exact Hname'|]. split; [exact Hroom'|].
      exact Hlen'.
Defined.

Lemma ChatRoom_ordering_sorted (q : list ChatRoom.t) :
  StronglySorted (fun a b => ChatRoom.created_at b <= ChatRoom.created_at a)
                 (QuerySet.order_by ChatRoom_ordering q).
Proof.
  apply (StronglySorted_impl (fun a b => ChatRoom_ordering a b = true)).
  - unfold ChatRoom_ordering. intros a b Hab. lia.
  - apply order_by_sorted; unfold ChatRoom_ordering; intros; lia.
Qed.

(** X17: what the room list shows.  The direct rooms listed are exactly
    the direct rooms the caller is a participant of.  The course rooms
    listed are, for a caller with the teacher role, exactly the rooms of the
    courses the caller teaches, and for any other caller exactly the rooms
    of the courses the caller is actively enrolled in; each list has the
    newest room first.  Every course room listed is one whose WebSocket
    accepts the caller, as long as the room's course exists. *)
Theorem room_list_shows_own_rooms (w : World) (user : User.t) :
  exists dm_rooms course_rooms,
    ChatRoomListView_get (Authenticated user) w
      = Ok (TemplateOf "chat/room_list.html" (dm_rooms, course_rooms)) w
    /\ (forall r,
          r ∈ dm_rooms
          <-> r ∈ chat_rooms (db w)
              /\ ChatRoom.room_type r = DIRECT
              /\ User.id user ∈ ChatRoom.participants r)
    /\ (forall r,
          r ∈ course_rooms
          <-> r ∈ chat_rooms (db w)
              /\ ChatRoom.room_type r = COURSE
              /\ exists cid,
                   ChatRoom.course_id r = Some cid
                   /\ if User.is_teacher user
                      then exists course,
                             QuerySet.by_pk Course.id (courses (db w)) cid
                               = Some course
                             /\ Course.teacher_id course = User.id user
                      else exists e,
                             e ∈ enrollments (db w)
                             /\ Enrollment.student_id e = User.id user
                             /\ Enrollment.course_id e = cid
                             /\ Enrollment.status e = ACTIVE)
    /\ StronglySorted
         (fun a b => ChatRoom.created_at b <= ChatRoom.created_at a) dm_rooms
    /\ StronglySorted
         (fun a b => ChatRoom.created_at b <= ChatRoom.created_at a) course_rooms
    /\ (forall r cid self,
          r ∈ course_rooms ->
          ChatRoom.course_id r = Some cid ->
          is_Some (QuerySet.by_pk Course.id (courses (db w)) cid) ->
          scope_user self = Authenticated user ->
          Py.int (scope_id self) = Some cid ->
          course_authorized (db w) self).
Proof.
  unfold ChatRoomListView_get. run.
  eexists _, _. split; [reflexivity|].
  assert (forall r,
            r ∈ (if User.is_teacher user
                 then QuerySet.order_by ChatRoom_ordering
                        (List.filter
                           (fun r =>
                              bool_decide (ChatRoom.room_type r = COURSE)
                              && match ChatRoom.course_id r with
                                 | Some cid =>
                                     match QuerySet.by_pk Course.id (courses (db w)) cid with
                                     | Some c =>
                                         bool_decide (Course.teacher_id c = User.id user)
                                     | None => false
                                     end
                                 | None => false
                                 end)
                           (chat_rooms (db w)))
                 else QuerySet.order_by ChatRoom_ordering
                        (List.filter
                           (fun r =>
                              bool_decide (ChatRoom.room_type r = COURSE)
                              && match ChatRoom.course_id r with
                                 | Some cid =>
                                     bool_decide
                                       (cid ∈ Enrollment.course_id <$>
                                          List.filter
                                            (fun e =>
                                               bool_decide (Enrollment.student_id e = User.id user)
                                               && bool_decide (Enrollment.status e = ACTIVE))
                                            (enrollments (db w)))
                                 | None => false
                                 end)
                           (chat_rooms (db w))))
            <-> r ∈ chat_rooms (db w)
                /\ ChatRoom.room_type r = COURSE
                /\ exists cid,
                     ChatRoom.course_id r = Some cid
                     /\ if User.is_teacher user
                        then exists course,
                               QuerySet.by_pk Course.id (courses (db w)) cid
                                 = Some course
                               /\ Course.teacher_id course = User.id user
                        else exists e,
                               e ∈ enrollments (db w)
                               /\ Enrollment.student_id e = User.id user
                               /\ Enrollment.course_id e = cid
                               /\ Enrollment.status e = ACTIVE) as Hcourse.
  { intros r. destruct (User.is_teacher user).
    - rewrite order_by_Permutation, elem_of_filter, andb_true_iff, bool_decide_eq_true.
      split.
      + intros (Hin & Hty & Hjoin). split; [done|]. split; [done|].
        destruct (ChatRoom.course_id r) as [cid|]; [|done].
        exists cid. split; [done|].
        destruct (QuerySet.by_pk Course.id (courses (db w)) cid) as [c|]; [|done].
        exists c. split; [done|]. by apply bool_decide_eq_true in Hjoin.
      + intros (Hin & Hty & cid & -> & c & -> & Ht). split; [done|]. split; [done|].
        by apply bool_decide_eq_true.
    - rewrite order_by_Permutation, elem_of_filter, andb_true_iff, bool_decide_eq_true.
      split.
      + intros (Hin & Hty & Hjoin). split; [done|]. split; [done|].
        destruct (ChatRoom.course_id r) as [cid|]; [|done].
        exists cid. split; [done|]. apply bool_decide_eq_true in Hjoin.
        apply list_elem_of_fmap in Hjoin as (e & -> & He).
        apply elem_of_filter in He as [He HP]. apply andb_prop in HP as [H1 H2].
        apply bool_decide_eq_true in H1, H2. by exists e.
      + intros (Hin & Hty & cid & -> & e & He & H1 & H2 & H3).
        split; [done|]. split; [done|]. apply bool_decide_eq_true.
        apply list_elem_of_fmap. exists e. split; [done|].
        apply elem_of_filter. split; [done|]. by rewrite !bool_decide_eq_true_2. }
  split; [|split; [exact Hcourse|split; [|split]]].
  - intros r.
    rewrite order_by_Permutation, elem_of_filter, andb_true_iff,
      !bool_decide_eq_true. tauto.
  - apply ChatRoom_ordering_sorted.
  - destruct (User.is_teacher user); apply ChatRoom_ordering_sorted.
  - intros r cid self Hr Hcid [course Hc] Hself Hscope.
    apply Hcourse in Hr as (_ & _ & cid' & Hcid' & Hrole).
    rewrite Hcid in Hcid'. injection Hcid' as <-.
    destruct (by_pk_Some _ _ _ _ Hc) as [_ Hpk].
    exists user, cid, course. split; [done|]. split; [done|]. split; [done|].
    destruct (User.is_teacher user).
    + destruct Hrole as (c & Hc' & Ht). rewrite Hc in Hc'. injection Hc' as <-.
      by left.
    + destruct Hrole as (e & He & H1 & H2 & H3). right. exists e.
      by rewrite Hpk.
Qed.

(** * Room summaries and the REST actions on rooms *)

(** [s[:n]] is the string of the first [n] characters of [s], or of all of
    them when there are fewer. *)
Lemma slice_to_split (n : nat) (s : string) :
  exists rest,
    s = PyStr.slice_to n s +:+ rest
    /\ String.length (PyStr.slice_to n s) = Nat.min n (String.length s).
Proof.
  unfold PyStr.slice_to. revert s.
  induction n as [|n IH]; intros s; destruct s as [|c s]; cbn.
  - by exists EmptyString.
  - by exists (String c s).
  - by exists EmptyString.
  - destruct (IH s) as (rest & Hs & Hlen). exists rest.
    split; [exact (f_equal (String c) Hs)|by rewrite Hlen].
Qed.

Lemma slice_to_short (n : nat) (s : string) :
  (String.length s <= n)%nat -> PyStr.slice_to n s = s.
Proof.
  unfold PyStr.slice_to. revert s.
  induction n as [|n IH]; intros s; destruct s as [|c s]; cbn; try done;
    try lia.
  intros H. rewrite IH; [done|lia].
Qed.

Lemma last_rev_take {A} (n : nat) (l : list A) :
  last (rev (take (S n) l)) = head l.
Proof.
  destruct l as [|a l]; [done|]. cbn. by rewrite last_snoc.
Qed.

Lemma head_of_sorted_desc (q : list Message.t) (m : Message.t) :
  head (QuerySet.order_by by_timestamp_desc q) = Some m ->
  m ∈ q /\ forall x, x ∈ q -> Message.timestamp x <= Message.timestamp m.
Proof.
  intros Hhead.
  pose proof (by_timestamp_desc_sorted q) as Hsorted.
  pose proof (order_by_Permutation by_timestamp_desc q) as Hperm.
  destruct (QuerySet.order_by by_timestamp_desc q) as [|a l]; [done|].
  injection Hhead as ->. split.
  - rewrite <- Hperm. left.
  - intros x Hx. rewrite <- Hperm in Hx.
    apply StronglySorted_inv in Hsorted as [_ Hall].
    apply elem_of_cons in Hx as [->|Hx]; [lia|].
    by apply (proj1 (Forall_forall _ _) Hall).
Qed.

(** X18: the summary of a room in the room list is the last message of the
    room's detail.  [get_last_message] returns [None] exactly when the room
    has no message; otherwise it describes the message that the detail
    serializer puts last, which no message of the room is more recent than,
    with the sender's user name, the time in ISO format, and the first 100
    characters of the content (all of it, when it is no longer than
    that). *)
Theorem last_message_is_last_of_history (isoformat : datetime -> string)
    (obj : ChatRoom.t) (w : World) :
  (* every sender is a stored user *)
  (forall m, m ∈ chat_messages (db w) ->
             is_Some (QuerySet.by_pk User.id (users (db w)) (Message.sender_id m))) ->
  exists summary,
    get_last_message isoformat obj w = Ok summary w
    /\ match last (get_messages (db w) obj) with
       | None => summary = None /\ room_messages (db w) obj = []
       | Some msg =>
           msg ∈ room_messages (db w) obj
           /\ (forall m, m ∈ room_messages (db w) obj ->
                         Message.timestamp m <= Message.timestamp msg)
           /\ exists sender content rest,
                summary = Some (mkLastMessage (User.username sender) content
                                  (isoformat (Message.timestamp msg)))
                /\ QuerySet.by_pk User.id (users (db w)) (Message.sender_id msg)
                   = Some sender
                (* the first 100 characters, or all there are *)
                /\ Message.content msg = content +:+ rest
                /\ String.length content
                   = Nat.min 100 (String.length (Message.content msg))
                /\ ((String.length (Message.content msg) <= 100)%nat ->
                    content = Message.content msg)
       end.
Proof.
  intros Hfk. unfold get_last_message, get_messages, QuerySet.first, related.
  rewrite last_rev_take. run.
  destruct (head _) as [msg|] eqn:Hhead.
  - destruct (head_of_sorted_desc _ _ Hhead) as [Hin Hmax].
    destruct (Hfk msg) as [sender Hsender].
    { unfold room_messages in Hin. by apply elem_of_filter in Hin as [? _]. }
    run. rewrite Hsender. eexists. split; [reflexivity|].
    split; [done|]. split; [done|].
    destruct (slice_to_split 100 (Message.content msg)) as (rest & Hsplit & Hlen).
    eexists _, _, rest. split; [reflexivity|].
    split; [done|]. split; [exact Hsplit|].
    split; [exact Hlen|apply slice_to_short].
  - eexists. split; [reflexivity|]. split; [done|].
    pose proof (order_by_length by_timestamp_desc (room_messages (db w) obj)) as Hlen.
    destruct (QuerySet.order_by _ _); [|done].
    by apply nil_length_inv.
Qed.

(** The room of alice and bob holds three messages; the summary is bob's
    last one. *)
Lemma last_message_is_last_of_history_witness :
  get_last_message Sample.micros Sample.alice_bob_room Scenario.talk
  = Ok (Some (mkLastMessage "bob" "are you there?" "30")) Scenario.talk.
Proof.
  destruct (last_message_is_last_of_history Sample.micros Sample.alice_bob_room
              Scenario.talk)
    as (summary & Hrun & Hlast).
  - apply Forall_forall. compute_done.
  - change (last (get_messages (db Scenario.talk) Sample.alice_bob_room))
      with (Some (Message.mk 3 1 2 "are you there?" 30 false)) in Hlast.
    cbv beta iota in Hlast.
    destruct Hlast
      as (_ & _ & sender & content & rest & -> & Hsender & _ & _ & Hshort).
    assert (Some Sample.bob = Some sender) as [= <-] by exact Hsender.
    assert (content = "are you there?") as <- by (apply Hshort; compute_done).
    exact Hrun.
Defined.

Lemma by_pk_unique {A} (pk_of : A -> Z) (rows : list A) (r : A) :
  pk_unique pk_of rows -> r ∈ rows -> QuerySet.by_pk pk_of rows (pk_of r) = Some r.
Proof.
  intros Hpk Hin. destruct (by_pk_elem_of pk_of rows r Hin) as [r' Hr'].
  rewrite Hr'. f_equal. destruct (by_pk_Some _ _ _ _ Hr') as [Hin' Hkey].
  by apply (pk_unique_eq pk_of rows).
Qed.

(** [get_object] of the room view set: the room with the key of the URL, if
    the caller is one of its participants. *)
Lemma ChatRoomViewSet_get_object_run (w : World) (user : User.t) (pk : Z) :
  pk_unique ChatRoom.id (chat_rooms (db w)) ->
  (forall room,
     room ∈ chat_rooms (db w) -> ChatRoom.id room = pk ->
     User.id user ∈ ChatRoom.participants room ->
     ChatRoomViewSet_get_object user pk w = Ok room w)
  /\ ((forall room,
         room ∈ chat_rooms (db w) -> ChatRoom.id room = pk ->
         User.id user ∉ ChatRoom.participants room) ->
      ChatRoomViewSet_get_object user pk w = Raise Http404 w).
Proof.
  intros Hpk. unfold ChatRoomViewSet_get_object, ChatRoomViewSet_get_queryset. run.
  split.
  - intros room Hin Hid Hmem.
    assert (room ∈ QuerySet.order_by ChatRoom_ordering
                     (List.filter
                        (fun r => bool_decide (User.id user ∈ ChatRoom.participants r))
                        (chat_rooms (db w)))) as Hq.
    { rewrite order_by_Permutation. apply elem_of_filter.
      split; [done|]. by apply bool_decide_eq_true. }
    destruct (by_pk_elem_of ChatRoom.id _ room Hq) as [r' Hr'].
    rewrite Hid in Hr'. rewrite Hr'.
    destruct (by_pk_Some _ _ _ _ Hr') as [Hin' Hkey].
    rewrite order_by_Permutation in Hin'. apply elem_of_filter in Hin' as [Hin' _].
    rewrite (pk_unique_eq ChatRoom.id _ r' room Hpk); [done..|]. by rewrite Hid.
  - intros Hnone.
    destruct (QuerySet.by_pk _ _ pk) as [r|] eqn:Hr; [|done].
    destruct (by_pk_Some _ _ _ _ Hr) as [Hin Hkey].
    rewrite order_by_Permutation in Hin. apply elem_of_filter in Hin as [Hin Hmem].
    apply bool_decide_eq_true in Hmem. by destruct (Hnone r Hin Hkey).
Qed.

(** X19: a message sent through the REST API is stored and not broadcast.
    For a participant of the room, [send_message] adds one message row with
    the caller as sender and answers 201; no group and no queue of the
    channel layer changes, so the connected participants are not told.  For
    anyone else, and for a room that does not exist, the answer is 404 with
    nothing changed; the action's own 403 branch is never taken. *)
Theorem api_send_is_stored_not_broadcast (w : World) (user : User.t) (pk : Z)
    (content : string) :
  pk_unique ChatRoom.id (chat_rooms (db w)) ->
  let r := ChatRoomViewSet_send_message user pk content w in
  (forall room,
     room ∈ chat_rooms (db w) -> ChatRoom.id room = pk ->
     User.id user ∈ ChatRoom.participants room ->
     exists m w',
       r = Ok (mkResponse (inl m) HTTP_201_CREATED) w'
       /\ m = Message.mk (QuerySet.next_pk (Message.id <$> chat_messages (db w)))
                         pk (User.id user) content (now w) false
       /\ chat_messages (db w') = chat_messages (db w) ++ [m]
       /\ chat_rooms (db w') = chat_rooms (db w)
       /\ groups w' = groups w
       /\ inbox w' = inbox w
       /\ new_effects w r = [Insert T_Message (Message.id m)])
  /\ ((forall room,
         room ∈ chat_rooms (db w) -> ChatRoom.id room = pk ->
         User.id user ∉ ChatRoom.participants room) ->
      r = Raise Http404 w)
  /\ (forall body w', r <> Ok (mkResponse body HTTP_403_FORBIDDEN) w').
Proof.
  intros Hpk. cbv zeta.
  destruct (ChatRoomViewSet_get_object_run w user pk Hpk) as [Hfound Hnone].
  assert (forall room,
            room ∈ chat_rooms (db w) -> ChatRoom.id room = pk ->
            User.id user ∈ ChatRoom.participants room ->
            ChatRoomViewSet_send_message user pk content w
            = Ok (mkResponse (inl (new_message w pk (User.id user) content))
                             HTTP_201_CREATED)
                 (with_log
                    (fun l => l ++ [Insert T_Message
                                      (QuerySet.next_pk
                                         (Message.id <$> chat_messages (db w)))])
                    (with_db
                       (set_chat_messages
                          (fun rows => rows ++ [new_message w pk (User.id user) content]))
                       w))) as Hrun.
  { intros room Hin Hid Hmem. unfold ChatRoomViewSet_send_message. run.
    rewrite (Hfound room Hin Hid Hmem). run. unfold room_participants.
    rewrite (by_pk_unique ChatRoom.id _ room Hpk Hin).
    assert (QuerySet.exists_
              (List.filter (fun u => bool_decide (u = User.id user))
                           (ChatRoom.participants room)) = true) as ->.
    { apply exists_filter. exists (User.id user). split; [done|].
      by apply bool_decide_eq_true. }
    cbn [negb]. rewrite Hid.
    rewrite Message_create_run; [done|].
    rewrite <- Hid. by apply by_pk_elem_of. }
  split; [|split].
  - intros room Hin Hid Hmem. rewrite (Hrun room Hin Hid Hmem).
    eexists _, _. split; [reflexivity|]. split; [done|].
    repeat (split; [done|]).
    unfold new_effects. cbn. by rewrite drop_app_length.
  - intros Hno. unfold ChatRoomViewSet_send_message. run. by rewrite (Hnone Hno).
  - intros body w' Hr.
    destruct (decide (Exists (fun room => ChatRoom.id room = pk
                                /\ User.id user ∈ ChatRoom.participants room)
                             (chat_rooms (db w)))) as [Hex|Hno].
    + apply Exists_exists in Hex as (room & Hin & Hid & Hmem).
      rewrite (Hrun room Hin Hid Hmem) in Hr. discriminate.
    + unfold ChatRoomViewSet_send_message in Hr. revert Hr. run.
      rewrite Hnone; [done|]. intros room Hin Hid Hmem. apply Hno.
      apply Exists_exists. by exists room.
Qed.

(** Alice posts to her room with bob through the API: the message is
    stored, and nothing is put in a queue.  Carol, who is not in the room,
    gets a 404. *)
Lemma api_send_is_stored_not_broadcast_witness :
  (exists m w',
     ChatRoomViewSet_send_message Sample.alice 1 "ping" Sample.chat
       = Ok (mkResponse (inl m) HTTP_201_CREATED) w'
     /\ chat_messages (db w') = [Message.mk 1 1 1 "ping" 1000 false]
     /\ inbox w' = inbox Sample.chat)
  /\ ChatRoomViewSet_send_message Sample.carol 1 "ping" Sample.chat
     = Raise Http404 Sample.chat.
Proof.
  assert (pk_unique ChatRoom.id (chat_rooms (db Sample.chat))) as Hpk
    by (unfold pk_unique; compute_done).
  destruct (api_send_is_stored_not_broadcast Sample.chat Sample.alice 1 "ping"
              Hpk) as (Hin & _ & _).
  destruct (api_send_is_stored_not_broadcast Sample.chat Sample.carol 1 "ping"
              Hpk) as (_ & Hout & _).
  split.
  - destruct (Hin Sample.alice_bob_room) as (m & w' & Hrun & -> & Hm & _ & _ & Hbox & _).
    + compute_done.
    + reflexivity.
    + compute_done.
    + eexists _, w'. split; [exact Hrun|]. split; [exact Hm|exact Hbox].
  - apply Hout. intros room Hroom _.
    change (room ∈ [Sample.alice_bob_room]) in Hroom.
    apply list_elem_of_singleton in Hroom as ->. compute_done.
Defined.

(** An [update] that matches no row changes no row. *)
Lemma map_unselected {A} (sel : A -> bool) (f : A -> A) (l : list A) :
  List.filter sel l = [] -> map (fun x => if sel x then f x else x) l = l.
Proof.
  intros H. rewrite <- (map_id l) at 2. apply map_ext_in. intros x Hx.
  by rewrite (filter_nil_inv sel l x H) by by apply list_elem_of_In.
Qed.

Lemma filter_map_selected {A} (sel : A -> bool) (f : A -> A) (l : list A) :
  (forall x, sel (f x) = false) ->
  List.filter sel (map (fun x => if sel x then f x else x) l) = [].
Proof.
  intros Hf. apply filter_none. intros y Hy.
  apply list_elem_of_In, in_map_iff in Hy as (x & <- & _).
  destruct (sel x) eqn:Hx; [apply Hf|done].
Qed.

Lemma with_log_nil (w : World) : with_log (fun l => l ++ []) w = w.
Proof. destruct w. unfold with_log. cbn. by rewrite app_nil_r. Qed.

Lemma with_db_same (f : Database -> Database) (w : World) :
  f (db w) = db w -> with_db f w = w.
Proof. destruct w. unfold with_db. cbn. by intros ->. Qed.

Lemma Message_update_is_read_run (sel : Message.t -> bool) (w : World) :
  Message_update_is_read sel w
  = Ok (length (List.filter sel (chat_messages (db w))))
       (with_log
          (fun l => l ++ ((fun m => Update T_Message (Message.id m))
                            <$> List.filter sel (chat_messages (db w))))
          (with_db
             (set_chat_messages
                (map (fun m => if sel m then Message_read m else m))) w)).
Proof. reflexivity. Qed.

(** X20: [mark_read] of the room API.  For a participant of the room it
    sets the read flag of the messages of the room that other users sent and
    that were unread, and answers with their number; the caller's own
    messages, the messages of other rooms and every other column stay as
    they were.  Afterwards no message of another sender in the room is
    unread, and a second call answers 0 and changes nothing.  The flag is
    the message's: the messages are then read for every participant.  For a
    caller who is not a participant the answer is 404. *)
Theorem api_mark_read_marks_others_messages (w : World) (user : User.t) (pk : Z) :
  pk_unique ChatRoom.id (chat_rooms (db w)) ->
  let sel m := bool_decide (Message.room_id m = pk)
               && negb (Message.is_read m)
               && negb (bool_decide (Message.sender_id m = User.id user)) in
  (forall room,
     room ∈ chat_rooms (db w) -> ChatRoom.id room = pk ->
     User.id user ∈ ChatRoom.participants room ->
     exists w',
       ChatRoomViewSet_mark_read user pk w
         = Ok (mkResponse (length (List.filter sel (chat_messages (db w))))
                          HTTP_200_OK) w'
       /\ chat_messages (db w')
          = map (fun m => if sel m
                          then Message.mk (Message.id m) (Message.room_id m)
                                 (Message.sender_id m) (Message.content m)
                                 (Message.timestamp m) true
                          else m)
                (chat_messages (db w))
       /\ chat_rooms (db w') = chat_rooms (db w)
       (* nothing of another sender is left unread in the room *)
       /\ (forall m, m ∈ chat_messages (db w') -> Message.room_id m = pk ->
                     Message.sender_id m <> User.id user ->
                     Message.is_read m = true)
       (* the caller's messages and the other rooms are untouched *)
       /\ (forall m, m ∈ chat_messages (db w) ->
                     Message.room_id m <> pk \/ Message.sender_id m = User.id user ->
                     m ∈ chat_messages (db w'))
       (* the second call *)
       /\ ChatRoomViewSet_mark_read user pk w' = Ok (mkResponse 0%nat HTTP_200_OK) w')
  /\ ((forall room,
         room ∈ chat_rooms (db w) -> ChatRoom.id room = pk ->
         User.id user ∉ ChatRoom.participants room) ->
      ChatRoomViewSet_mark_read user pk w = Raise Http404 w).
Proof.
  intros Hpk. cbv zeta.
  destruct (ChatRoomViewSet_get_object_run w user pk Hpk) as [Hfound Hnone].
  split.
  - intros room Hin Hid Hmem.
    set (sel := fun m => bool_decide (Message.room_id m = pk)
                         && negb (Message.is_read m)
                         && negb (bool_decide (Message.sender_id m = User.id user))).
    assert (forall w0,
              ChatRoomViewSet_get_object user pk w0 = Ok room w0 ->
              ChatRoomViewSet_mark_read user pk w0
              = Ok (mkResponse (length (List.filter sel (chat_messages (db w0))))
                               HTTP_200_OK)
                   (with_log
                      (fun l => l ++ ((fun m => Update T_Message (Message.id m))
                                        <$> List.filter sel (chat_messages (db w0))))
                      (with_db
                         (set_chat_messages
                            (map (fun m => if sel m then Message_read m else m)))
                         w0))) as Hrun.
    { intros w0 Hobj. unfold ChatRoomViewSet_mark_read. run. rewrite Hobj.
      rewrite Hid. by rewrite Message_update_is_read_run. }
    rewrite (Hrun w (Hfound room Hin Hid Hmem)).
    eexists. split; [reflexivity|]. cbn.
    split; [done|]. split; [done|].
    assert (forall m, sel (Message_read m) = false) as Hread.
    { intros m. unfold sel, Message_read. cbn. by rewrite andb_false_r. }
    split; [|split].
    + intros m' Hm' Hroom Hsender.
      apply list_elem_of_In, in_map_iff in Hm' as (m & <- & _).
      revert Hroom Hsender. destruct (sel m) eqn:Hsel; [done|].
      intros Hroom Hsender. unfold sel in Hsel.
      rewrite (bool_decide_eq_true_2 _ Hroom) in Hsel.
      rewrite (bool_decide_eq_false_2 _ Hsender) in Hsel. cbn in Hsel.
      rewrite andb_true_r in Hsel. by apply negb_false_iff in Hsel.
    + intros m Hm Hother. apply list_elem_of_In, in_map_iff. exists m.
      split; [|by apply list_elem_of_In].
      assert (sel m = false) as ->; [|done]. unfold sel.
      destruct Hother as [Hr|Hs].
      * by rewrite (bool_decide_eq_false_2 _ Hr).
      * rewrite (bool_decide_eq_true_2 _ Hs). cbn. by rewrite andb_false_r.
    + set (w' := with_log _ (with_db _ w)).
      assert (ChatRoomViewSet_get_object user pk w' = Ok room w') as Hobj'.
      { destruct (ChatRoomViewSet_get_object_run w' user pk Hpk) as [Hfound' _].
        by apply Hfound'. }
      rewrite (Hrun w' Hobj').
      assert (List.filter sel (chat_messages (db w')) = []) as Hq.
      { apply (filter_map_selected sel Message_read). exact Hread. }
      rewrite Hq. cbn [length fmap list_fmap]. f_equal.
      rewrite with_log_nil. apply with_db_same.
      unfold set_chat_messages. rewrite (map_unselected sel _ _ Hq).
      by destruct (db w').
  - intros Hno. unfold ChatRoomViewSet_mark_read. run. by rewrite (Hnone Hno).
Qed.

(** Alice marks her room with bob as read: bob's two messages are marked,
    hers is not, and a second call marks nothing. *)
Lemma api_mark_read_marks_others_messages_witness :
  exists w',
    ChatRoomViewSet_mark_read Sample.alice 1 Scenario.talk
      = Ok (mkResponse 2%nat HTTP_200_OK) w'
    /\ chat_messages (db w')
       = [Message.mk 1 1 1 "hi bob" 10 false;
          Message.mk 2 1 2 "hi alice" 20 true;
          Message.mk 3 1 2 "are you there?" 30 true]
    /\ ChatRoomViewSet_mark_read Sample.alice 1 w'
       = Ok (mkResponse 0%nat HTTP_200_OK) w'.
Proof.
  destruct (api_mark_read_marks_others_messages Scenario.talk Sample.alice 1)
    as [Hin _].
  - unfold pk_unique. compute_done.
  - destruct (Hin Sample.alice_bob_room) as (w' & Hrun & Hm & _ & _ & _ & Hagain).
    + compute_done.
    + reflexivity.
    + compute_done.
    + exists w'. split; [exact Hrun|]. split; [exact Hm|exact Hagain].
Defined.

(** * The notification pages and API *)

Lemma Notification_ordering_sorted (q : list Notification.t) :
  StronglySorted
    (fun a b => Notification.created_at b <= Notification.created_at a)
    (QuerySet.order_by Notification_ordering q).
Proof.
  apply (StronglySorted_impl (fun a b => Notification_ordering a b = true)).
  - unfold Notification_ordering. intros a b Hab. lia.
  - apply order_by_sorted; unfold Notification_ordering; intros; lia.
Qed.

(** X21: the notification page shows the newest notifications of the
    caller: at most 50 rows, all of them the caller's, the most recent
    first, and every notification of the caller that is left out is at most
    as recent as every one shown. *)
Theorem notification_list_is_newest_window (w : World) (user : User.t) :
  exists shown older,
    NotificationListView_get (Authenticated user) w
      = Ok (TemplateOf "notifications/notification_list.html" shown) w
    /\ (length shown <= 50)%nat
    /\ Forall (fun n => Notification.recipient_id n = User.id user) shown
    /\ StronglySorted
         (fun a b => Notification.created_at b <= Notification.created_at a) shown
    /\ List.filter
         (fun n => bool_decide (Notification.recipient_id n = User.id user))
         (notifications (db w)) ≡ₚ shown ++ older
    /\ forall s o, s ∈ shown -> o ∈ older ->
         Notification.created_at o <= Notification.created_at s.
Proof.
  unfold NotificationListView_get. run.
  exists (take 50 (user_notifications (db w) user)),
         (drop 50 (user_notifications (db w) user)).
  split; [reflexivity|].
  pose proof (Notification_ordering_sorted
                (List.filter
                   (fun n => bool_decide (Notification.recipient_id n = User.id user))
                   (notifications (db w)))) as Hsorted.
  fold (user_notifications (db w) user) in Hsorted.
  rewrite <- (take_drop 50 (user_notifications (db w) user)) in Hsorted.
  split; [rewrite length_take; lia|].
  split.
  { apply Forall_forall. intros n Hn. apply elem_of_take in Hn as (i & Hn & _).
    apply list_elem_of_lookup_2 in Hn. unfold user_notifications in Hn.
    rewrite order_by_Permutation in Hn. apply elem_of_filter in Hn as [_ Hn].
    by apply bool_decide_eq_true in Hn. }
  split; [by eapply StronglySorted_app_1_l|].
  split.
  { rewrite take_drop. unfold user_notifications.
    by rewrite order_by_Permutation. }
  intros s o Hs Ho.
  by apply (StronglySorted_app_1_elem_of _ _ _ _ _ Hsorted).
Qed.

Lemma Notification_save_stored (self : Notification.t) (w : World) :
  is_Some (QuerySet.by_pk Notification.id (notifications (db w))
                          (Notification.id self)) ->
  Notification_save self w
  = Ok tt
      (with_log (fun l => l ++ [Update T_Notification (Notification.id self)])
         (with_db
            (set_notifications
               (map (fun r => if bool_decide (Notification.id r = Notification.id self)
                              then self else r))) w)).
Proof.
  intros H. unfold Notification_save. run. by rewrite bool_decide_eq_true_2.
Qed.

Lemma unread_count_eq (d : Database) (user : User.t) :
  unread_notification_count d (Authenticated user) = length (unread_of d user).
Proof.
  unfold unread_notification_count, user_notifications, unread_of, QuerySet.count.
  rewrite (filter_length_Permutation _ _ _ (order_by_Permutation _ _)).
  by rewrite filter_filter.
Qed.





Lemma Notification_update_is_read_run (sel : Notification.t -> bool) (w : World) :
  Notification_update_is_read sel w
  = Ok (length (List.filter sel (notifications (db w))))
       (with_log
          (fun l => l ++ ((fun n => Update T_Notification (Notification.id n))
                            <$> List.filter sel (notifications (db w))))
          (with_db
             (set_notifications
                (map (fun n => if sel n then Notification_read n else n))) w)).
Proof. reflexivity. Qed.

(** Rows an [update] does not select are as they were. *)
Lemma filter_map_untouched {A} (P sel : A -> bool) (f : A -> A) (l : list A) :
  (forall x, sel x = true -> P x = false) ->
  (forall x, sel x = true -> P (f x) = false) ->
  List.filter P (map (fun x => if sel x then f x else x) l) = List.filter P l.
Proof.
  intros H1 H2. induction l as [|a l IH]; [done|]. cbn.
  destruct (sel a) eqn:Ha.
  - by rewrite (H1 a Ha), (H2 a Ha).
  - destruct (P a); by rewrite IH.
Qed.

(** X23: [mark_all_read] of the notification pages.  On a POST every
    unread notification of the caller gets the read flag, so that the
    caller's unread count is 0 afterwards, and no notification of another
    user changes; the log has one update for each row that was unread and
    then the success message.  On any other method the view only
    redirects. *)
Theorem mark_all_read_clears_badge (w : World) (user : User.t) :
  (exists w',
     mark_all_read POST (Authenticated user) w
       = Ok (redirect "notification-list" None) w'
     /\ unread_notification_count (db w') (Authenticated user) = 0%nat
     /\ notifications (db w')
        = map (fun n =>
                 if bool_decide (Notification.recipient_id n = User.id user)
                    && negb (Notification.is_read n)
                 then Notification.mk (Notification.id n)
                        (Notification.recipient_id n)
                        (Notification.notification_type n) (Notification.title n)
                        (Notification.message n) true (Notification.link n)
                        (Notification.created_at n)
                 else n)
              (notifications (db w))
     /\ notifications_of_others (db w') user = notifications_of_others (db w) user
     /\ new_effects w (Ok tt w')
        = ((fun n => Update T_Notification (Notification.id n))
             <$> unread_of (db w) user)
            ++ [Flash SUCCESS "All notifications marked as read."])
  /\ mark_all_read GET (Authenticated user) w
     = Ok (redirect "notification-list" None) w.
Proof.
  split; [|done].
  unfold mark_all_read.
  rewrite (bool_decide_eq_true_2 (POST = POST)) by done. run.
  eexists. split; [reflexivity|].
  split; [|split; [done|split]].
  - rewrite unread_count_eq. unfold unread_of.
    cbn [db with_log with_db set_notifications notifications].
    rewrite (filter_map_selected _ Notification_read); [done|].
    intros n. cbn. by rewrite andb_false_r.
  - unfold notifications_of_others.
    cbn [db with_log with_db set_notifications notifications].
    apply filter_map_untouched.
    + intros n Hn. apply andb_prop in Hn as [Hn _]. by rewrite Hn.
    + intros n Hn. apply andb_prop in Hn as [Hn _]. cbn. by rewrite Hn.
  - unfold new_effects, unread_of. cbn. by rewrite <- app_assoc, drop_app_length.
Qed.

Lemma others_after_update (sel : Notification.t -> bool) (user : User.t)
    (w : World) :
  (forall n, sel n = true -> Notification.recipient_id n = User.id user) ->
  notifications_of_others
    (db (world_of (Notification_update_is_read sel w))) user
  = notifications_of_others (db w) user.
Proof.
  intros Hsel. rewrite Notification_update_is_read_run.
  unfold notifications_of_others. cbn. apply filter_map_untouched.
  - intros n Hn. by rewrite bool_decide_eq_true_2 by by apply Hsel.
  - intros n Hn. cbn. by rewrite bool_decide_eq_true_2 by by apply Hsel.
Qed.

Lemma others_after_save (n : Notification.t) (user : User.t) (w : World) :
  pk_unique Notification.id (notifications (db w)) ->
  n ∈ notifications (db w) ->
  Notification.recipient_id n = User.id user ->
  notifications_of_others
    (db (world_of (Notification_save (Notification_read n) w))) user
  = notifications_of_others (db w) user.
Proof.
  intros Hpk Hin Hown.
  rewrite Notification_save_stored by (cbn; by apply by_pk_elem_of).
  pose proof Hin as Hsplit.
  apply list_elem_of_split in Hsplit as (l1 & l2 & Hrows).
  unfold notifications_of_others.
  cbn [world_of db with_log with_db set_notifications notifications].
  rewrite Hrows.
  rewrite (replace_row_at Notification.id l1 l2 n (Notification_read n));
    [|by rewrite <- Hrows|done].
  rewrite !List.filter_app. cbn.
  by rewrite bool_decide_eq_true_2 by done.
Qed.

(** X24: every way of marking notifications read is scoped to the caller.
    The two pages ([mark_read], [mark_all_read]) and the three API actions
    ([mark_read], [mark_all_read], [mark_selected_read]) leave the
    notifications of every other user exactly as they were, whatever the
    key, the query parameters or the list of ids in the request. *)
Theorem notification_marks_are_scoped (w : World) (user : User.t)
    (method : Method) (pk : Z) (query_params : list (string * string))
    (notification_ids : option (list Z)) :
  pk_unique Notification.id (notifications (db w)) ->
  let others w' := notifications_of_others (db w') user in
  others (world_of (mark_read method (Authenticated user) pk w)) = others w
  /\ others (world_of (mark_all_read method (Authenticated user) w)) = others w
  /\ others (world_of (NotificationViewSet_mark_read user query_params pk w))
     = others w
  /\ others (world_of (NotificationViewSet_mark_all_read user w)) = others w
  /\ others (world_of (NotificationViewSet_mark_selected_read user
                         notification_ids w))
     = others w.
Proof.
  intros Hpk. cbv zeta.
  assert (forall sel,
            (forall n, sel n = true -> Notification.recipient_id n = User.id user) ->
            forall {A} (k : nat -> M A),
              (forall x w0, db (world_of (k x w0)) = db w0) ->
              notifications_of_others
                (db (world_of ((Notification_update_is_read sel ≫= k) w))) user
              = notifications_of_others (db w) user) as Hupd.
  { intros sel Hsel A k Hk.
    pose proof (others_after_update sel user w Hsel) as H.
    rewrite Notification_update_is_read_run in H. cbn [world_of] in H.
    unfold mbind, M_bind. cbv beta. rewrite Notification_update_is_read_run.
    cbv beta iota. by rewrite Hk. }
  split; [|split; [|split; [|split]]].
  - unfold mark_read, get_own_Notification_or_404. run.
    destruct (QuerySet.by_pk _ _ pk) as [n|] eqn:Hn; [|done].
    destruct (by_pk_Some _ _ _ _ Hn) as [Hin Hid].
    case_bool_decide as Hown; [|done]. run.
    pose proof (others_after_save n user w Hpk Hin Hown) as H.
    destruct (Notification_save (Notification_read n) w) as [[] w'|e w'] eqn:Hsave;
      [|done].
    cbn [world_of] in *. by destruct (Py.truthy _).
  - unfold mark_all_read. destruct method; [done|].
    rewrite (bool_decide_eq_true_2 (POST = POST)) by done. run.
    rewrite Notification_update_is_read_run.
    pose proof (others_after_update
                  (fun n => bool_decide (Notification.recipient_id n = User.id user)
                            && negb (Notification.is_read n)) user w) as H.
    rewrite Notification_update_is_read_run in H. cbn [world_of] in *.
    apply H. intros n Hn. apply andb_prop in Hn as [Hn _].
    by apply bool_decide_eq_true in Hn.
  - unfold NotificationViewSet_mark_read. run.
    destruct (QuerySet.by_pk _ _ pk) as [n|] eqn:Hn; [|done].
    destruct (by_pk_Some _ _ _ _ Hn) as [Hin Hid].
    assert (n ∈ notifications (db w)
            /\ Notification.recipient_id n = User.id user) as [Hin' Hown].
    { unfold NotificationViewSet_get_queryset in Hin.
      rewrite order_by_Permutation in Hin.
      assert (n ∈ List.filter
                    (fun n => bool_decide (Notification.recipient_id n = User.id user))
                    (notifications (db w))) as Hbase.
      { destruct (query_params_get query_params "type") as [t|];
          [destruct (Py.truthy t)|];
          destruct (query_params_get query_params "is_read");
          repeat match type of Hin with
                 | n ∈ List.filter _ (List.filter _ _) =>
                     apply elem_of_filter in Hin as [Hin _]
                 end; done. }
      apply elem_of_filter in Hbase as [? Hb]. by apply bool_decide_eq_true in Hb. }
    pose proof (others_after_save n user w Hpk Hin' Hown) as H.
    destruct (Notification_save (Notification_read n) w) as [[] w'|e w'] eqn:Hsave;
      done.
  - unfold NotificationViewSet_mark_all_read. apply Hupd; [|done].
    intros n Hn. apply andb_prop in Hn as [Hn _].
    by apply bool_decide_eq_true in Hn.
  - unfold NotificationViewSet_mark_selected_read.
    destruct (QuerySet.exists_ _).
    + apply Hupd; [|done]. intros n Hn. apply andb_prop in Hn as [Hn _].
      apply andb_prop in Hn as [Hn _]. by apply bool_decide_eq_true in Hn.
    + apply Hupd; [|done]. intros n Hn. apply andb_prop in Hn as [Hn _].
      by apply bool_decide_eq_true in Hn.
Qed.

(** Whatever tom marks, carol's notification stays as it is. *)
Lemma notification_marks_are_scoped_witness :
  notifications_of_others
    (db (world_of (mark_all_read POST (Authenticated Sample.tom)
                     Scenario.mailbox))) Sample.tom
  = [Scenario.slides_note]
  /\ notifications_of_others
       (db (world_of (NotificationViewSet_mark_selected_read Sample.tom
                        (Some [1; 3]) Scenario.mailbox))) Sample.tom
     = [Scenario.slides_note].
Proof.
  destruct (notification_marks_are_scoped Scenario.mailbox Sample.tom POST 1 []
              (Some [1; 3]))
    as (_ & Hall & _ & _ & Hselected).
  - unfold pk_unique. compute_done.
  - split; [exact Hall|exact Hselected].
Defined.

Lemma count_after_update {A} (U sel : A -> bool) (f : A -> A) (l : list A) :
  (forall x, sel x = true -> U x = true) ->
  (forall x, sel x = true -> U (f x) = false) ->
  (length (List.filter U (map (fun x => if sel x then f x else x) l))
   + length (List.filter sel l)
   = length (List.filter U l))%nat.
Proof.
  intros H1 H2. induction l as [|a l IH]; [done|]. cbn.
  destruct (sel a) eqn:Ha.
  - rewrite (H1 a Ha), (H2 a Ha). cbn. lia.
  - destruct (U a); cbn; lia.
Qed.

(** X25: the API's ways of marking notifications read.  [mark_all_read]
    marks every unread notification of the caller and answers with their
    number, which is the unread count the caller had; the count is 0
    afterwards.  [mark_selected_read] with a list of ids that the database
    takes as the parameters of one query (64-bit integers, at most 900 of
    them) marks the unread notifications of the caller
    whose id is in the list, and answers with their number; ids of other
    users' notifications, of read notifications and ids that name nothing
    count for nothing.  Without the field, or with
    an empty list, [mark_selected_read] does what [mark_all_read] does: it
    marks everything. *)
Theorem mark_selected_read_selects (w : World) (user : User.t) :
  (* all *)
  (exists w',
     NotificationViewSet_mark_all_read user w
       = Ok (mkResponse (unread_notification_count (db w) (Authenticated user))
                        HTTP_200_OK) w'
     /\ unread_notification_count (db w') (Authenticated user) = 0%nat)
  (* no selection *)
  /\ NotificationViewSet_mark_selected_read user None w
     = NotificationViewSet_mark_all_read user w
  /\ NotificationViewSet_mark_selected_read user (Some []) w
     = NotificationViewSet_mark_all_read user w
  (* a selection *)
  /\ (forall ids,
        ids <> [] ->
        bindable_ids ids ->
        let sel n := bool_decide (Notification.recipient_id n = User.id user)
                     && bool_decide (Notification.id n ∈ ids)
                     && negb (Notification.is_read n) in
        exists w',
          NotificationViewSet_mark_selected_read user (Some ids) w
            = Ok (mkResponse (length (List.filter sel (notifications (db w))))
                             HTTP_200_OK) w'
          /\ notifications (db w')
             = map (fun n =>
                      if sel n
                      then Notification.mk (Notification.id n)
                             (Notification.recipient_id n)
                             (Notification.notification_type n)
                             (Notification.title n) (Notification.message n) true
                             (Notification.link n) (Notification.created_at n)
                      else n)
                   (notifications (db w))
          /\ (forall n, n ∈ notifications (db w) -> Notification.id n ∉ ids ->
                        n ∈ notifications (db w'))
          /\ (unread_notification_count (db w') (Authenticated user)
              + length (List.filter sel (notifications (db w)))
              = unread_notification_count (db w) (Authenticated user))%nat).
Proof.
  split; [|split; [done|split; [done|]]].
  - unfold NotificationViewSet_mark_all_read. run.
    rewrite Notification_update_is_read_run. cbv beta iota.
    eexists. split; [by rewrite unread_count_eq|].
    rewrite unread_count_eq. unfold unread_of.
    cbn [db with_log with_db set_notifications notifications].
    rewrite (filter_map_selected _ Notification_read); [done|].
    intros n. cbn. by rewrite andb_false_r.
  - intros ids Hids _. cbv zeta.
    unfold NotificationViewSet_mark_selected_read. run.
    destruct ids as [|i ids]; [done|].
    unfold QuerySet.exists_. cbn [default from_option id]. unfold id.
    cbv beta iota.
    rewrite Notification_update_is_read_run. cbv beta iota.
    eexists. split; [reflexivity|].
    cbn [db with_log with_db set_notifications notifications].
    split; [done|]. split.
    + intros n Hin Hid. apply list_elem_of_In, in_map_iff. exists n.
      split; [|by apply list_elem_of_In].
      rewrite (bool_decide_eq_false_2 _ Hid). by rewrite andb_false_r.
    + rewrite !unread_count_eq. unfold unread_of.
      cbn [db with_log with_db set_notifications notifications].
      apply count_after_update.
      * intros n Hn. apply andb_prop in Hn as [Hn ->].
        apply andb_prop in Hn as [-> _]. done.
      * intros n Hn. cbn. by rewrite andb_false_r.
Qed.

(** [enroll] of a student without a row, in eager mode: the enrollment and
    the teacher's notification. *)
Lemma enroll_new_eager (w : World) (u student : User.t) (pk : Z)
    (course : Course.t) :
  CELERY_TASK_ALWAYS_EAGER w = true ->
  User.is_student u = true ->
  QuerySet.by_pk Course.id (courses (db w)) pk = Some course ->
  QuerySet.by_pk User.id (users (db w)) (User.id u) = Some student ->
  Course_is_full (db w) course = false ->
  List.filter
    (fun r => bool_decide (Enrollment.student_id r = User.id u)
              && bool_decide (Enrollment.course_id r = pk))
    (enrollments (db w)) = [] ->
  exists n w',
    enroll POST (Authenticated u) pk w
      = Ok (redirect "course-detail" (Some pk)) w'
    /\ notifications (db w') = notifications (db w) ++ [n]
    /\ Notification.recipient_id n = Course.teacher_id course
    /\ Notification.is_read n = false
    /\ Notification.created_at n = now w.
Proof.
  intros Heager Hs Hc Hu Hfull Hnone.
  destruct (by_pk_Some _ _ _ _ Hc) as [_ Hpk].
  unfold enroll, get_Course_or_404.
  rewrite (bool_decide_eq_true_2 (POST = POST)) by done. cbn [negb]. run.
  rewrite Hc. run. rewrite Hs. cbn [negb]. run. rewrite Hfull.
  unfold Enrollment_objects_get_or_create. run. rewrite Hpk, Hnone.
  unfold Enrollment_objects_create. run.
  rewrite (existsb_false _ _ (fun x => filter_nil_inv _ _ x Hnone)).
  run.
  erewrite notify_teacher_created; [|done|cbn; done|cbn; done].
  unfold delay, enrollment_task. cbn [CELERY_TASK_ALWAYS_EAGER with_db with_log].
  rewrite Heager.
  unfold run_task, create_notification, Notification_objects_create. run.
  eexists _, _. split; [reflexivity|]. cbn. done.
Qed.

Lemma unread_of_snoc (d d' : Database) (user : User.t) (n : Notification.t) :
  notifications d' = notifications d ++ [n] ->
  length (unread_of d' user)
  = (length (unread_of d user)
     + if bool_decide (Notification.recipient_id n = User.id user)
          && negb (Notification.is_read n) then 1 else 0)%nat.
Proof.
  intros H. unfold unread_of. rewrite H, List.filter_app, length_app. cbn.
  by destruct (_ && _).
Qed.

(** X26: the unread badge.  The count the context processor puts in every
    page is 0 for an anonymous caller and, for a user, the number of the
    user's notifications that are not read; the API's [unread_count] gives
    the same number.  When a student enrolls in a course (eager dispatch),
    the badge of the course's teacher goes up by one and the badge of every
    other user stays as it is. *)
Theorem enrollment_raises_teacher_badge (w : World) (student teacher : User.t)
    (pk : Z) (course : Course.t) :
  CELERY_TASK_ALWAYS_EAGER w = true ->
  User.is_student student = true ->
  QuerySet.by_pk Course.id (courses (db w)) pk = Some course ->
  QuerySet.by_pk User.id (users (db w)) (User.id student) = Some student ->
  Course.teacher_id course = User.id teacher ->
  Course_is_full (db w) course = false ->
  no_enrollment (db w) (User.id student) pk ->
  let badge d user := unread_notification_count d (Authenticated user) in
  unread_notification_count (db w) AnonymousUser = 0%nat
  /\ (forall d user,
        badge d user = length (unread_of d user)
        /\ data (NotificationViewSet_unread_count d user) = badge d user)
  /\ exists w',
       enroll POST (Authenticated student) pk w
         = Ok (redirect "course-detail" (Some pk)) w'
       /\ badge (db w') teacher = S (badge (db w) teacher)
       /\ forall other,
            User.id other <> User.id teacher ->
            badge (db w') other = badge (db w) other.
Proof.
  intros Heager Hs Hc Hu Ht Hfull Hnone. cbv zeta.
  split; [done|]. split.
  { intros d user. split; [apply unread_count_eq|].
    by rewrite unread_count_eq. }
  apply no_enrollment_filter in Hnone.
  destruct (enroll_new_eager w student student pk course Heager Hs Hc Hu Hfull Hnone)
    as (n & w' & Hrun & Hrows & Hrec & Hread & _).
  exists w'. split; [exact Hrun|]. rewrite !unread_count_eq.
  split.
  - rewrite (unread_of_snoc (db w) (db w') teacher n Hrows).
    rewrite Hread, bool_decide_eq_true_2 by congruence. cbn. lia.
  - intros other Hother. rewrite !unread_count_eq.
    rewrite (unread_of_snoc (db w) (db w') other n Hrows).
    rewrite bool_decide_eq_false_2 by congruence. cbn. lia.
Qed.

(** Dave enrolls in Logic: tom's badge goes from 0 to 1, carol's stays 0. *)
Lemma enrollment_raises_teacher_badge_witness :
  exists w',
    enroll POST (Authenticated Sample.dave) 5 Sample.term
      = Ok (redirect "course-detail" (Some 5)) w'
    /\ unread_notification_count (db w') (Authenticated Sample.tom) = 1%nat
    /\ unread_notification_count (db w') (Authenticated Sample.carol) = 0%nat.
Proof.
  destruct (enrollment_raises_teacher_badge Sample.term Sample.dave Sample.tom 5
              Sample.logic)
    as (_ & _ & w' & Hrun & Htom & Hothers).
  - reflexivity.
  - reflexivity.
  - reflexivity.
  - reflexivity.
  - reflexivity.
  - reflexivity.
  - unfold no_enrollment. compute_done.
  - exists w'. split; [exact Hrun|]. split; [exact Htom|].
    apply (Hothers Sample.carol). compute_done.
Defined.

(** * Tasks sent to the broker *)

(** X27: with a broker ([CELERY_TASK_ALWAYS_EAGER] off) the signals notify
    nobody themselves: creating an active enrollment, or saving a new
    material, adds no notification and puts one task in the broker.  The
    enrollment task carries the teacher and the texts: whenever a worker runs
    it, while the teacher's account exists, the teacher gets the notification
    the eager mode writes, with the time of the run as its date; run at once,
    the task leaves the tables as the eager mode would have.  The material
    task names the course, not the students: when the worker runs it, in
    whatever world that is, each student gets one notification for each
    active enrollment in the course at that moment. *)
Theorem queued_tasks_notify_when_run (w : World) :
  CELERY_TASK_ALWAYS_EAGER w = false ->
  (* an enrollment *)
  (forall student_id course_id course student,
     QuerySet.by_pk Course.id (courses (db w)) course_id = Some course ->
     QuerySet.by_pk User.id (users (db w)) student_id = Some student ->
     no_enrollment (db w) student_id course_id ->
     exists e w1,
       Enrollment_objects_create student_id course_id ACTIVE w = Ok e w1
       /\ notifications (db w1) = notifications (db w)
       /\ broker w1 = broker w ++ [enrollment_task course student]
       /\ log w1 = log w ++ [Insert T_Enrollment (Enrollment.id e);
                             Enqueue (enrollment_task course student)]
       (* the worker, whenever it runs *)
       /\ (forall w',
             is_Some (QuerySet.by_pk User.id (users (db w'))
                                     (Course.teacher_id course)) ->
             exists n w'',
               run_task (enrollment_task course student) w' = Ok tt w''
               /\ n = Notification.mk
                        (QuerySet.next_pk (Notification.id <$> notifications (db w')))
                        (Course.teacher_id course) "enrollment"
                        ("New enrollment in " +:+ Course.code course)
                        (Py.or_else (User.get_full_name student)
                                    (User.username student)
                           +:+ " has enrolled in " +:+ Course.title course +:+ ".")
                        false
                        ("/courses/" +:+ Py.str (Course.id course) +:+ "/students/")
                        (now w')
               /\ notifications (db w'') = notifications (db w') ++ [n]
               /\ users (db w'') = users (db w')
               /\ courses (db w'') = courses (db w')
               /\ enrollments (db w'') = enrollments (db w'))
       (* the worker, when it runs at once *)
       /\ db (world_of (run_task (enrollment_task course student) w1))
          = db (world_of (Enrollment_objects_create student_id course_id ACTIVE
                            (with_eager true w))))
  (* a new material *)
  /\ (forall fields course,
        let material :=
          CourseMaterial_set_file_size
            (fields (QuerySet.next_pk (CourseMaterial.id <$> materials (db w)))
                    (now w)) in
        let course_id := CourseMaterial.course_id material in
        let task :=
          notify_course_students_task course_id "new_material"
            (material_title course) (material_message material course)
            ("/courses/" +:+ Py.str course_id +:+ "/") in
        QuerySet.by_pk Course.id (courses (db w)) course_id = Some course ->
        exists w1,
          CourseMaterial_save (New fields) w = Ok material w1
          /\ notifications (db w1) = notifications (db w)
          /\ broker w1 = broker w ++ [task]
          /\ log w1 = log w ++ [Insert T_CourseMaterial (CourseMaterial.id material);
                                Enqueue task]
          (* the worker, whenever it runs *)
          /\ forall w',
               exists rows w'',
                 run_task task w' = Ok tt w''
                 /\ notifications (db w'') = notifications (db w') ++ rows
                 /\ forall student_id,
                      length (List.filter
                                (fun n => bool_decide
                                            (Notification.recipient_id n = student_id))
                                rows)
                      = length (List.filter
                                  (fun e =>
                                     bool_decide (Enrollment.student_id e = student_id)
                                     && bool_decide (Enrollment.course_id e = course_id)
                                     && bool_decide (Enrollment.status e = ACTIVE))
                                  (enrollments (db w')))).
Proof.
  intros Hq. split.
  - intros sid cid course student Hc Hs Hnone.
    apply no_enrollment_filter in Hnone.
    assert (forall eager,
              Enrollment_objects_create sid cid ACTIVE (with_eager eager w)
              = let e := new_enrollment w sid cid in
                let w0 := with_log (fun l => l ++ [Insert T_Enrollment (Enrollment.id e)])
                            (with_db (set_enrollments (fun rows => rows ++ [e]))
                               (with_eager eager w)) in
                match delay (enrollment_task course student) w0 with
                | Ok _ w' => Ok e w'
                | Raise x w' => Raise x w'
                end) as Hrun.
    { intros eager. unfold Enrollment_objects_create. run.
      cbn [db with_eager].
      rewrite (existsb_false _ _ (fun x => filter_nil_inv _ _ x Hnone)).
      run. cbn [now with_eager].
      erewrite notify_teacher_created; [|done|cbn; done|cbn; done].
      unfold new_enrollment. by destruct (delay _ _) as [[] ?|]. }
    assert (with_eager false w = w) as Hw.
    { destruct w. cbn in Hq. by subst. }
    pose proof (Hrun false) as Hfalse. rewrite Hw in Hfalse.
    pose proof (Hrun true) as Htrue.
    cbv zeta in Hfalse, Htrue. unfold delay in Hfalse, Htrue.
    cbn [CELERY_TASK_ALWAYS_EAGER with_db with_log with_eager] in Hfalse, Htrue.
    rewrite Hq in Hfalse.
    rewrite Hfalse, Htrue.
    unfold run_task, enrollment_task, create_notification,
      Notification_objects_create. run.
    eexists _, _. split; [reflexivity|]. cbn.
    split; [done|]. split; [done|]. split; [by rewrite <- app_assoc|].
    split; [|done].
    intros w' _. eexists _, _. split; [reflexivity|]. by cbn.
  - intros fields course material course_id task Hcourse.
    eexists. split.
    { unfold CourseMaterial_save, notify_students_on_new_material, related. run.
      fold material. cbn [db with_db with_log courses set_materials].
      fold course_id. rewrite Hcourse. run.
      unfold delay. cbn [CELERY_TASK_ALWAYS_EAGER with_db with_log].
      rewrite Hq. reflexivity. }
    cbn. split; [done|]. split; [done|]. split; [by rewrite <- app_assoc|].
    intros w'. unfold task. cbn [run_task].
    rewrite notify_course_students_run.
    eexists _, _. split; [reflexivity|]. split; [done|].
    intros student_id. apply course_notifications_count.
Qed.

(** With a broker, alice's enrollment in Logic leaves the notification
    table empty and one task in the queue; a worker that runs the task
    later, when carol has been notified of something else meanwhile, writes
    tom's notification with the time of the run. *)
Lemma queued_tasks_notify_when_run_witness :
  exists e w1,
    Enrollment_objects_create 1 5 ACTIVE Scenario.queued = Ok e w1
    /\ notifications (db w1) = []
    /\ broker w1 = [enrollment_task Sample.logic Sample.alice]
    /\ exists w'',
         run_task (enrollment_task Sample.logic Sample.alice) Scenario.later
           = Ok tt w''
         /\ notifications (db w'')
            = [Scenario.slides_note;
               Notification.mk 4 9 "enrollment" "New enrollment in LOG101"
                 "Alice Archer has enrolled in Logic." false
                 "/courses/5/students/" 4600].
Proof.
  destruct (queued_tasks_notify_when_run Scenario.queued eq_refl) as [Henroll _].
  destruct (Henroll 1 5 Sample.logic Sample.alice)
    as (e & w1 & Hrun & Hnone & Hbroker & _ & Hworker & _).
  - reflexivity.
  - reflexivity.
  - constructor.
  - exists e, w1. split; [exact Hrun|]. split; [exact Hnone|].
    split; [exact Hbroker|].
    destruct (Hworker Scenario.later) as (n & w'' & Hlater & -> & Hn & _).
    + by eexists.
    + exists w''. split; [exact Hlater|]. exact Hn.
Defined.

(** * The upload validator *)

Lemma rsplit1_no_sep (sep : ascii) (s : string) :
  contains sep s = false -> PyStr.rsplit1 sep s = [s].
Proof.
  induction s as [|c s IH]; [done|]. cbn. intros H.
  apply orb_false_elim in H as [Hc Hs]. by rewrite (IH Hs), Hc.
Qed.

Lemma rsplit1_last_sep (sep : ascii) (stem ext : string) :
  contains sep ext = false ->
  PyStr.rsplit1 sep (stem +:+ String sep ext) = [stem; ext].
Proof.
  intros Hext. induction stem as [|c stem IH].
  - change (EmptyString +:+ String sep ext) with (String sep ext).
    change (PyStr.rsplit1 sep (String sep ext))
      with (match PyStr.rsplit1 sep ext with
            | [before; after] => [String sep before; after]
            | _ => if Ascii.eqb sep sep then [EmptyString; ext]
                   else [String sep ext]
            end).
    by rewrite (rsplit1_no_sep sep ext Hext), Ascii.eqb_refl.
  - change (String c stem +:+ String sep ext)
      with (String c (stem +:+ String sep ext)).
    change (PyStr.rsplit1 sep (String c (stem +:+ String sep ext)))
      with (match PyStr.rsplit1 sep (stem +:+ String sep ext) with
            | [before; after] => [String c before; after]
            | _ => if Ascii.eqb c sep
                   then [EmptyString; stem +:+ String sep ext]
                   else [String c (stem +:+ String sep ext)]
            end).
    by rewrite IH.
Qed.

(** X28: the upload validator looks at the text after the last dot of the
    file name only, in lower case.  A name "<stem>.<ext>" passes exactly
    when the lower-cased <ext> is one of the allowed extensions, whatever
    the stem is, dots included; a name without a dot is taken whole as its
    extension.  A name that does not pass is refused with a message that
    quotes the lower-cased extension and lists the allowed ones. *)
Theorem file_extension_is_last_suffix (stem ext : string) :
  contains "." ext = false ->
  let allowed := PyStr.lower ext ∈ ALLOWED_EXTENSIONS in
  let refusal :=
    ValidationError
      ("File type '." +:+ PyStr.lower ext +:+ "' is not allowed. "
         +:+ "Allowed types: pdf, doc, docx, ppt, pptx, xls, xlsx, jpg, jpeg, "
         +:+ "png, gif, svg, mp4, webm, zip, rar, txt, csv") in
  (validate_file_extension (stem +:+ "." +:+ ext) = passes <-> allowed)
  /\ (validate_file_extension ext = passes <-> allowed)
  /\ (~ allowed ->
      validate_file_extension (stem +:+ "." +:+ ext) = refusal
      /\ validate_file_extension ext = refusal).
Proof.
  intros Hext. cbv zeta.
  assert (forall name,
            PyStr.item_last (PyStr.rsplit1 "." name) = ext ->
            (validate_file_extension name = passes
             <-> PyStr.lower ext ∈ ALLOWED_EXTENSIONS)
            /\ (PyStr.lower ext ∉ ALLOWED_EXTENSIONS ->
                validate_file_extension name
                = ValidationError
                    ("File type '." +:+ PyStr.lower ext +:+ "' is not allowed. "
                       +:+ "Allowed types: pdf, doc, docx, ppt, pptx, xls, xlsx, jpg, jpeg, "
                       +:+ "png, gif, svg, mp4, webm, zip, rar, txt, csv")))
    as Hname.
  { intros name Hlast. unfold validate_file_extension. rewrite Hlast.
    case_bool_decide as Hin.
    - split; [done|]. intros Hnot. by destruct Hnot.
    - split; [split; [done|]; intros H; by destruct Hin|].
      intros _. reflexivity. }
  destruct (Hname (stem +:+ "." +:+ ext)) as [H1 H2].
  { change ("." +:+ ext) with (String "." ext).
    by rewrite rsplit1_last_sep. }
  destruct (Hname ext) as [H3 H4].
  { by rewrite rsplit1_no_sep. }
  split; [done|]. split; [done|]. intros Hnot. split; [by apply H2|by apply H4].
Qed.

(** The extension is what follows the last dot, in any case: a PDF under a
    dotted name passes, an executable named after a PDF does not. *)
Lemma file_extension_is_last_suffix_witness :
  validate_file_extension "Lecture.Notes.v2.PDF" = passes
  /\ validate_file_extension "pdf" = passes
  /\ exists message,
       validate_file_extension "slides.pdf.exe" = ValidationError message.
Proof.
  destruct (file_extension_is_last_suffix "Lecture.Notes.v2" "PDF" eq_refl)
    as (Hdotted & _ & _).
  destruct (file_extension_is_last_suffix "slides" "pdf" eq_refl)
    as (_ & Hbare & _).
  destruct (file_extension_is_last_suffix "slides.pdf" "exe" eq_refl)
    as (_ & _ & Hrefused).
  split; [apply Hdotted; compute_done|]. split; [apply Hbare; compute_done|].
  eexists. apply Hrefused. compute_done.
Defined.

(** * A direct room and its two users *)

(** X29: the direct-message page gives both users the room.  After a user
    has opened the page for another user, the room it shows is stored with
    both of them among its participants: the WebSocket of the room accepts
    either of them, and the room is in the room list of either. *)
Theorem dm_room_admits_both_users (w : World) (me other : User.t) (peer : Z) :
  QuerySet.by_pk User.id (users (db w)) peer = Some other ->
  User.id other <> User.id me ->
  exists room history w' stored,
    DirectMessageView_get (Authenticated me) peer w
      = Ok (render "chat/chat_room.html" room history) w'
    /\ stored ∈ chat_rooms (db w')
    /\ ChatRoom.id stored = ChatRoom.id room
    /\ ChatRoom.room_type stored = DIRECT
    /\ User.id me ∈ ChatRoom.participants stored
    /\ User.id other ∈ ChatRoom.participants stored
    /\ forall user,
         user = me \/ user = other ->
         (forall self,
            scope_user self = Authenticated user ->
            Py.int (scope_id self) = Some (ChatRoom.id room) ->
            DirectChatConsumer.connect self w'
            = Ok tt (joined (DirectChatConsumer.room_group_name self) self w'))
         /\ exists dm_rooms course_rooms,
              ChatRoomListView_get (Authenticated user) w'
                = Ok (TemplateOf "chat/room_list.html" (dm_rooms, course_rooms)) w'
              /\ stored ∈ dm_rooms.
Proof.
  intros Hother Hne.
  pose proof (DirectMessageView_get_run w me other peer Hother Hne) as Hrun.
  assert (exists room w' stored,
            DirectMessageView_get (Authenticated me) peer w
              = Ok (render "chat/chat_room.html" room
                      (load_message_history (db w') room)) w'
            /\ stored ∈ chat_rooms (db w')
            /\ ChatRoom.id stored = ChatRoom.id room
            /\ ChatRoom.room_type stored = DIRECT
            /\ User.id me ∈ ChatRoom.participants stored
            /\ User.id other ∈ ChatRoom.participants stored)
    as (room & w' & stored & Hget & Hin & Hid & Hty & Hme & Hoth).
  { destruct (QuerySet.first _) as [room|] eqn:Hfirst.
    - exists room, w, room. split; [exact Hrun|].
      assert (room ∈ direct_rooms_between (db w) (User.id me) (User.id other))
        as Hroom.
      { unfold QuerySet.first in Hfirst.
        destruct (direct_rooms_between _ _ _); [done|].
        injection Hfirst as ->. left. }
      unfold direct_rooms_between in Hroom.
      rewrite order_by_Permutation in Hroom.
      apply elem_of_filter in Hroom as [Hroom H2].
      apply elem_of_filter in Hroom as [Hroom H1].
      apply andb_prop in H1 as [H0 H1].
      apply bool_decide_eq_true in H0, H1, H2. done.
    - destruct Hrun as (room0 & w' & Hget & Hid & Hrooms & _).
      exists room0, w', (new_direct_room w me other).
      split; [exact Hget|]. rewrite Hrooms.
      split; [apply elem_of_app; right; left|].
      split; [done|]. split; [done|]. cbn.
      split; [left|right; left]. }
  exists room, (load_message_history (db w') room), w', stored.
  split; [exact Hget|]. repeat (split; [done|]).
  intros user Huser.
  assert (User.id user ∈ ChatRoom.participants stored) as Hmem
    by by destruct Huser as [-> | ->].
  split.
  - intros self Hself Hscope.
    rewrite direct_connect_run, Hself, Hscope.
    assert (QuerySet.exists_
              (List.filter
                 (fun r => bool_decide (ChatRoom.id r = ChatRoom.id room)
                           && bool_decide (User.id user ∈ ChatRoom.participants r))
                 (chat_rooms (db w'))) = true) as ->; [|done].
    apply exists_filter. exists stored. split; [done|].
    by rewrite !bool_decide_eq_true_2.
  - unfold ChatRoomListView_get. run.
    eexists _, _. split; [reflexivity|].
    rewrite order_by_Permutation. apply elem_of_filter. split; [done|].
    by rewrite !bool_decide_eq_true_2.
Qed.

(** Alice opens a conversation with carol: the room gets the id 2, and
    carol's connection to it is accepted. *)
Lemma dm_room_admits_both_users_witness :
  exists room history w',
    DirectMessageView_get (Authenticated Sample.alice) 3 Sample.chat
      = Ok (render "chat/chat_room.html" room history) w'
    /\ ChatRoom.id room = 2
    /\ DirectChatConsumer.connect Scenario.carol_phone w'
       = Ok tt (joined (DirectChatConsumer.room_group_name Scenario.carol_phone)
                  Scenario.carol_phone w').
Proof.
  destruct (dm_room_admits_both_users Sample.chat Sample.alice Sample.carol 3)
    as (room & history & w' & stored & Hrun & _ & _ & _ & _ & _ & Hboth).
  - reflexivity.
  - discriminate.
  - assert (ChatRoom.id room = 2) as Hid
      by exact (eq_sym (f_equal (fun r => match r with
                                          | Ok (render _ rm _) _ => ChatRoom.id rm
                                          | _ => 2
                                          end) Hrun)).
    exists room, history, w'. split; [exact Hrun|]. split; [exact Hid|].
    destruct (Hboth Sample.carol (or_intror eq_refl)) as [Hconn _].
    apply Hconn; [reflexivity|]. by rewrite Hid.
Defined.
